(** * ClockWork backend: the authentication controller

    A shallow embedding of [clockwork-auth-controller.js] (signup, login,
    verifyTwoFactor, logout, refreshTokens, resetPasswordRequest,
    resetPassword) and of the part of [clockwork-email-service.js] it calls
    ([send], [logEmail], [sendWelcomeEmail], [sendPasswordResetEmail],
    [sendPasswordChangedEmail]).

    The handlers are [async (req, res) => { try { ... } catch { ... } }]
    functions that mutate two stores (PostgreSQL through knex, Redis) and
    answer through [res.status(..).json(..)].  They are modelled in a small
    monad [js] carrying the stores, early [return res...] and thrown
    exceptions. *)

From Stdlib Require Import ZArith Ascii String List Bool Lia DecimalString.
From stdpp Require Import base gmap strings list fin_maps.

#[local] Set Warnings "-register-all".
Local Open Scope Z_scope.

(** ** JavaScript values used by the controller *)

(** [String.prototype.toLowerCase], on the ASCII letters. *)
Definition ascii_toLowerCase (c : ascii) : ascii :=
  let n := nat_of_ascii c in
  if (Nat.leb 65 n && Nat.leb n 90)%bool then ascii_of_nat (n + 32) else c.

Fixpoint toLowerCase (s : string) : string :=
  match s with
  | EmptyString => EmptyString
  | String c s' => String (ascii_toLowerCase c) (toLowerCase s')
  end.

(** Truthiness of a string ([""] is falsy) and of a nullable string. *)
Definition truthy (s : string) : bool :=
  match s with EmptyString => false | _ => true end.

Definition truthy_opt (o : option string) : bool :=
  match o with Some s => truthy s | None => false end.

(** [a !== b] on strings. *)
Definition strict_neq (a b : string) : bool := negb (String.eqb a b).

(** [roles.join(', ')] *)
Definition join (sep : string) (l : list string) : string := String.concat sep l.

(** [roles.includes('client')] *)
Definition includes (x : string) (l : list string) : bool :=
  existsb (String.eqb x) l.

(** The JSON documents passed to [res.json]. *)
Inductive json :=
| JNull
| JBool (b : bool)
| JNum (n : Z)
| JStr (s : string)
| JArr (l : list json)
| JObj (fields : list (string * json)).

Definition JStrs (l : list string) : json := JArr (map JStr l).
Definition JOptStr (o : option string) : json :=
  match o with Some s => JStr s | None => JNull end.

Record response := { status : Z; body : json }.

(** ** The stores *)

(** A row of the [users] table, with the columns the controller reads or
    writes.  Identifiers are strings.  [roles], [client_ids] and
    [specialist_ids] are text columns holding [JSON.stringify] of a list of
    strings; they are represented by the list they encode. *)
Record user := {
  user_id : string;
  user_email : string;
  user_password : string;
  user_name : string;
  user_phone : string;
  user_roles : list string;
  user_subscription_plan : string;
  user_client_ids : option (list string);
  user_specialist_ids : option (list string);
  user_billing_enabled : bool;
  user_can_train_clients : bool;
  user_two_factor_enabled : bool;
  user_two_factor_secret : option string;
  user_profile_picture_url : option string;
  user_is_online : bool;
  user_last_seen : option Z;
  user_updated_at : option Z;
  user_created_at : Z
}.

Record nutrition_row := {
  nutrition_client_id : string;
  nutrition_assigned_by : string
}.

Record audit_row := {
  audit_user_id : string;
  audit_action : string;
  audit_resource : string;
  audit_resource_id : string;
  audit_details : string;
  audit_ip_address : string;
  audit_user_agent : string
}.

Record email_log := {
  log_to : string;
  log_from : string;
  log_subject : string;
  log_status : string
}.

(** What a Redis key holds: a plain string, or the [JSON.stringify] of the
    session object [{token, email, roles}] or of a list of strings. *)
Inductive rvalue :=
| RText (s : string)
| RSession (token email : string) (roles : list string)
| RList (l : list string).

(** A Redis entry with the second at which it expires. *)
Record entry := { value : rvalue; expires_at : Z }.

Record world := {
  users : list user;
  nutrition : list nutrition_row;
  audit_logs : list audit_row;
  email_logs : list email_log;
  redis : gmap string entry
}.

(** What the outside supplies to one request: the clock ([Date.now()], in
    milliseconds), the request's address and agent, the identifier the
    database gives to an inserted row, the salt [bcrypt] draws, and whether
    SendGrid accepts a message. *)
Record ctx := {
  now_ms : Z;
  ip : string;
  user_agent : string;
  new_id : string;
  salt : string;
  sendgrid_ok : bool
}.

(** [Math.floor(Date.now() / 1000)] *)
Definition now_s (cx : ctx) : Z := now_ms cx / 1000.

(** [process.env], and whether [users.email] carries a unique index. *)
Record config := {
  JWT_SECRET : string;
  JWT_REFRESH_SECRET : string;
  JWT_EXPIRE : option Z;
  JWT_REFRESH_EXPIRE : option Z;
  EMAIL_FROM : option string;
  isDevelopment : bool;
  users_email_unique : bool
}.

(** ** The handler monad *)

Inductive outcome (A : Type) :=
| Val (a : A)
| Ret (r : response)
| Exn (e : string).
Arguments Val {A} a.
Arguments Ret {A} r.
Arguments Exn {A} e.

Definition js (A : Type) : Type := world -> outcome A * world.

Definition ret {A} (a : A) : js A := fun w => (Val a, w).

Definition bind {A B} (m : js A) (k : A -> js B) : js B :=
  fun w =>
    match m w with
    | (Val a, w') => k a w'
    | (Ret r, w') => (Ret r, w')
    | (Exn e, w') => (Exn e, w')
    end.

Notation "x <- m ;; k" := (bind m (fun x => k))
  (at level 100, m at next level, right associativity).
Notation "m ;;; k" := (bind m (fun _ => k))
  (at level 100, right associativity).

(** [throw e] *)
Definition throw {A} (e : string) : js A := fun w => (Exn e, w).

(** [return res.status(st).json(b)] and the closing [res.json(b)]. *)
Definition respond {A} (st : Z) (b : json) : js A :=
  fun w => (Ret {| status := st; body := b |}, w).

(** [try { m } catch (error) { h }]: a [return] inside [m] leaves the
    function; only an exception reaches [h]. *)
Definition try_catch {A} (m : js A) (h : string -> js A) : js A :=
  fun w =>
    match m w with
    | (Exn e, w') => h e w'
    | r => r
    end.

Definition get_world : js world := fun w => (Val w, w).
Definition modify (f : world -> world) : js unit := fun w => (Val tt, f w).

(** [if (c) { m }] *)
Definition when (c : bool) (m : js unit) : js unit := if c then m else ret tt.

(** ** Redis: [setex], [get], [del] *)

Definition set_redis (r : gmap string entry) (w : world) : world :=
  {| users := users w; nutrition := nutrition w; audit_logs := audit_logs w;
     email_logs := email_logs w; redis := r |}.

Definition redis_setex (cx : ctx) (key : string) (ttl : Z) (v : rvalue) : js unit :=
  modify (fun w =>
    set_redis (<[key := {| value := v; expires_at := now_s cx + ttl |}]> (redis w)) w).

Definition live (cx : ctx) (e : entry) : option rvalue :=
  if now_s cx <? expires_at e then Some (value e) else None.

Definition redis_get (cx : ctx) (key : string) : js (option rvalue) :=
  fun w => (Val (redis w !! key ≫= live cx), w).

Definition redis_del (key : string) : js unit :=
  modify (fun w => set_redis (delete key (redis w)) w).

(** ** The database *)

Definition set_tables (us : list user) (ns : list nutrition_row)
    (al : list audit_row) (w : world) : world :=
  {| users := us; nutrition := ns; audit_logs := al;
     email_logs := email_logs w; redis := redis w |}.

Definition set_users (us : list user) (w : world) : world :=
  set_tables us (nutrition w) (audit_logs w) w.

(** [db('users').where(...).first()] *)
Definition users_first (p : user -> bool) : js (option user) :=
  fun w => (Val (List.find p (users w)), w).

(** [db('users').where({ id }).update(...)] *)
Definition users_update (uid : string) (f : user -> user) : js unit :=
  modify (fun w =>
    set_users (map (fun u => if String.eqb (user_id u) uid then f u else u) (users w)) w).

(** [db('audit_logs').insert({...})] *)
Definition audit_insert (cx : ctx) (uid action resource details : string) : js unit :=
  modify (fun w =>
    set_tables (users w) (nutrition w)
      (audit_logs w ++
        [{| audit_user_id := uid; audit_action := action;
            audit_resource := resource; audit_resource_id := uid;
            audit_details := details; audit_ip_address := ip cx;
            audit_user_agent := user_agent cx |}]) w).

(** [trx('nutrition').insert({...})]: the other columns are constants. *)
Definition nutrition_insert (uid : string) : js unit :=
  modify (fun w =>
    set_tables (users w)
      (nutrition w ++ [{| nutrition_client_id := uid; nutrition_assigned_by := uid |}])
      (audit_logs w) w).

(** [trx.rollback()]: the tables written through [trx] go back to what they
    were at [db.transaction()]; Redis and [email_logs] (written through
    [db]) are not part of the transaction. *)
Definition trx_rollback (trx : world) : js unit :=
  modify (set_tables (users trx) (nutrition trx) (audit_logs trx)).

(** [trx.commit()]: the writes made through [trx] stay. *)
Definition trx_commit : js unit := ret tt.

(** [updated_at: new Date(), is_online: ..., last_seen: new Date()] *)
Definition touch (cx : ctx) (online : bool) (stamp_update : bool) (u : user) : user :=
  {| user_id := user_id u; user_email := user_email u;
     user_password := user_password u; user_name := user_name u;
     user_phone := user_phone u; user_roles := user_roles u;
     user_subscription_plan := user_subscription_plan u;
     user_client_ids := user_client_ids u;
     user_specialist_ids := user_specialist_ids u;
     user_billing_enabled := user_billing_enabled u;
     user_can_train_clients := user_can_train_clients u;
     user_two_factor_enabled := user_two_factor_enabled u;
     user_two_factor_secret := user_two_factor_secret u;
     user_profile_picture_url := user_profile_picture_url u;
     user_is_online := online;
     user_last_seen := Some (now_ms cx);
     user_updated_at :=
       if stamp_update then Some (now_ms cx) else user_updated_at u;
     user_created_at := user_created_at u |}.

(** [password: hashedPassword, updated_at: new Date()] *)
Definition set_password (cx : ctx) (h : string) (u : user) : user :=
  {| user_id := user_id u; user_email := user_email u;
     user_password := h; user_name := user_name u;
     user_phone := user_phone u; user_roles := user_roles u;
     user_subscription_plan := user_subscription_plan u;
     user_client_ids := user_client_ids u;
     user_specialist_ids := user_specialist_ids u;
     user_billing_enabled := user_billing_enabled u;
     user_can_train_clients := user_can_train_clients u;
     user_two_factor_enabled := user_two_factor_enabled u;
     user_two_factor_secret := user_two_factor_secret u;
     user_profile_picture_url := user_profile_picture_url u;
     user_is_online := user_is_online u;
     user_last_seen := user_last_seen u;
     user_updated_at := Some (now_ms cx);
     user_created_at := user_created_at u |}.

(** ** The libraries the controller requires *)

(** The claims of a token: what [jwt.sign] puts in and [jwt.decode] reads. *)
Record claims := {
  claim_id : string;
  claim_type : string;
  claim_email : option string;
  claim_iat : Z;
  claim_exp : option Z
}.

Record password_validation := { isValid : bool; errors : list string }.

(** [utils/validators], bcrypt, jsonwebtoken, speakeasy and [JSON.parse]:
    none of them is part of the controller, so they are parameters.
    - [bcrypt_hash password rounds salt];
    - [jwt_encode claims secret] is the compact serialisation,
      [jwt_decode] its inverse on well-formed tokens ([None] is [null]),
      [jwt_signed_by secret token] the signature check;
    - [totp_verify secret code window now];
    - [json_scalar s]: [JSON.parse] accepts the plain string [s] and
      yields a number, string or boolean. *)
Record libs := {
  validateEmail : string -> bool;
  validatePassword : string -> password_validation;
  bcrypt_hash : string -> Z -> string -> string;
  bcrypt_compare : string -> string -> bool;
  jwt_encode : claims -> string -> string;
  jwt_decode : string -> option claims;
  jwt_signed_by : string -> string -> bool;
  totp_verify : string -> string -> Z -> Z -> bool;
  json_scalar : string -> bool
}.

Section Controller.

Context (L : libs) (cfg : config).

(** ** jsonwebtoken *)

(** [jwt.sign(payload, secret, { expiresIn })]: the issue time is the
    current second, the expiry is [expiresIn] seconds later. *)
Definition jwt_sign (cx : ctx) (uid type : string) (email : option string)
    (secret : string) (expiresIn : Z) : string :=
  jwt_encode L
    {| claim_id := uid; claim_type := type; claim_email := email;
       claim_iat := now_s cx; claim_exp := Some (now_s cx + expiresIn) |}
    secret.

(** [jwt.verify(token, secret)]: decodes, checks the signature, then the
    expiry ([now >= exp] is expired); throws on each failure. *)
Definition jwt_verify (cx : ctx) (token secret : string) : js claims :=
  match jwt_decode L token with
  | None => throw "JsonWebTokenError"
  | Some c =>
      if jwt_signed_by L secret token then
        match claim_exp c with
        | Some e => if e <=? now_s cx then throw "TokenExpiredError" else ret c
        | None => ret c
        end
      else throw "JsonWebTokenError"
  end.

(** [process.env.JWT_EXPIRE || '15m'] and [process.env.JWT_REFRESH_EXPIRE || '7d'],
    in seconds. *)
Definition access_lifetime : Z := default 900 (JWT_EXPIRE cfg).
Definition refresh_lifetime : Z := default 604800 (JWT_REFRESH_EXPIRE cfg).

Record tokens := { accessToken : string; refreshToken : string }.

Definition generateTokens (cx : ctx) (userId : string) : tokens :=
  let accessToken :=
    jwt_sign cx userId "access" None (JWT_SECRET cfg) access_lifetime in
  let refreshToken :=
    jwt_sign cx userId "refresh" None (JWT_REFRESH_SECRET cfg) refresh_lifetime in
  {| accessToken := accessToken; refreshToken := refreshToken |}.

(** ** The e-mail service *)

(** [this.from = process.env.EMAIL_FROM || 'noreply@clockwork.platform'] *)
Definition from : string :=
  match EMAIL_FROM cfg with
  | Some s => if truthy s then s else "noreply@clockwork.platform"
  | None => "noreply@clockwork.platform"
  end.

(** [logEmail(data)]: inserts through [db]; its own failures are swallowed. *)
Definition logEmail (to subject st : string) : js unit :=
  modify (fun w =>
    {| users := users w; nutrition := nutrition w; audit_logs := audit_logs w;
       email_logs := email_logs w ++
         [{| log_to := to; log_from := from; log_subject := subject; log_status := st |}];
       redis := redis w |}).

(** [sgMail.send(msg)] *)
Definition sgMail_send (cx : ctx) : js unit :=
  if sendgrid_ok cx then ret tt else throw "SendGridError".

(** [send(to, subject, html, options)] as the template senders below call
    it, with the html of a template and options that name no key of [msg]:
    logs instead of sending in development; otherwise sends, and on
    failure logs and throws again.  [EmailService.send] is the function
    with its [html] and [options]. *)
Definition send (cx : ctx) (to subject : string) : js unit :=
  try_catch
    (if isDevelopment cfg then
       logEmail to subject "development"
     else
       sgMail_send cx ;;;
       logEmail to subject "sent")
    (fun error =>
       logEmail to subject "failed" ;;;
       throw error).

Definition sendWelcomeEmail (cx : ctx) (email name : string) : js unit :=
  send cx email "Welcome to ClockWork! 🎉".

Definition sendPasswordResetEmail (cx : ctx) (email name resetToken : string) : js unit :=
  send cx email "Reset Your ClockWork Password".

Definition sendPasswordChangedEmail (cx : ctx) (email name : string) : js unit :=
  send cx email "Your ClockWork Password Has Been Changed".

(** ** signup *)

(** The row [trx('users').insert({...})] creates: the columns the handler
    does not give take their defaults. *)
Definition new_user (cx : ctx) (email hashedPassword name phone : string)
    (roles : list string) : user :=
  {| user_id := new_id cx; user_email := toLowerCase email;
     user_password := hashedPassword; user_name := name;
     user_phone := phone; user_roles := roles;
     user_subscription_plan := "basic";
     user_client_ids := Some []; user_specialist_ids := Some [];
     user_billing_enabled := false; user_can_train_clients := false;
     user_two_factor_enabled := false; user_two_factor_secret := None;
     user_profile_picture_url := None;
     user_is_online := false; user_last_seen := None;
     user_updated_at := None; user_created_at := now_ms cx |}.

(** The insert; with a unique index on [email] a duplicate makes it throw. *)
Definition users_insert (row : user) : js user :=
  fun w =>
    if (users_email_unique cfg &&
        existsb (fun u => String.eqb (user_email u) (user_email row)) (users w))%bool
    then (Exn "unique_violation", w)
    else (Val row, set_users (users w ++ [row]) w).

Definition error (msg : string) : json := JObj [("error", JStr msg)].

Definition signup (cx : ctx) (email password name phone : string)
    (roles_opt : option (list string)) : js unit :=
  trx <- get_world ;;
  try_catch
    (let roles := default ["client"] roles_opt in
     (if negb (validateEmail L email) then
        trx_rollback trx ;;;
        respond 400 (error "Invalid email format")
      else ret tt) ;;;
     let passwordValidation := validatePassword L password in
     (if negb (isValid passwordValidation) then
        trx_rollback trx ;;;
        respond 400 (JObj [("error", JStr "Password requirements not met");
                           ("details", JStrs (errors passwordValidation))])
      else ret tt) ;;;
     existingUser <- users_first (fun u => String.eqb (user_email u) email) ;;
     (if existingUser is Some _ then
        trx_rollback trx ;;;
        respond 409 (error "Email already registered")
      else ret tt) ;;;
     let hashedPassword := bcrypt_hash L password 10 (salt cx) in
     user <- users_insert (new_user cx email hashedPassword name phone roles) ;;
     when (includes "client" roles) (nutrition_insert (user_id user)) ;;;
     let tk := generateTokens cx (user_id user) in
     redis_setex cx ("refresh_" +:+ user_id user) (7 * 24 * 60 * 60)
       (RSession (refreshToken tk) (user_email user) (user_roles user)) ;;;
     sendWelcomeEmail cx email name ;;;
     audit_insert cx (user_id user) "signup" "user"
       ("User account created with roles: " +:+ join ", " roles) ;;;
     trx_commit ;;;
     respond 201
       (JObj [("user", JObj [("id", JStr (user_id user));
                             ("email", JStr (user_email user));
                             ("name", JStr (user_name user));
                             ("roles", JStrs (user_roles user));
                             ("createdAt", JNum (user_created_at user))]);
              ("accessToken", JStr (accessToken tk));
              ("refreshToken", JStr (refreshToken tk));
              ("message", JStr "Account created successfully")]))
    (fun _ =>
       trx_rollback trx ;;;
       respond 500 (error "Failed to create account")).

(** ** login *)

Definition session_of (tk : tokens) (u : user) : rvalue :=
  RSession (refreshToken tk) (user_email u) (user_roles u).

Definition login (cx : ctx) (email password : string) : js unit :=
  try_catch
    (user_opt <- users_first (fun u => String.eqb (user_email u) (toLowerCase email)) ;;
     match user_opt with
     | None => respond 401 (error "Invalid credentials")
     | Some user =>
       let isValidPassword := bcrypt_compare L password (user_password user) in
       (if negb isValidPassword then
          audit_insert cx (user_id user) "failed_login" "session" "Invalid password" ;;;
          respond 401 (error "Invalid credentials")
        else ret tt) ;;;
       (if (user_two_factor_enabled user && truthy_opt (user_two_factor_secret user))%bool then
          let tempToken :=
            jwt_sign cx (user_id user) "2fa_temp" (Some (user_email user))
              (JWT_SECRET cfg) 300 in
          redis_setex cx ("2fa_temp_" +:+ user_id user) 300 (RText tempToken) ;;;
          respond 200
            (JObj [("requiresTwoFactor", JBool true);
                   ("tempToken", JStr tempToken);
                   ("message", JStr "Please enter your 2FA code")])
        else ret tt) ;;;
       let tk := generateTokens cx (user_id user) in
       redis_setex cx ("refresh_" +:+ user_id user) (7 * 24 * 60 * 60)
         (session_of tk user) ;;;
       users_update (user_id user) (touch cx true true) ;;;
       audit_insert cx (user_id user) "login" "session" "User logged in successfully" ;;;
       respond 200
         (JObj [("user", JObj [("id", JStr (user_id user));
                               ("email", JStr (user_email user));
                               ("name", JStr (user_name user));
                               ("phone", JStr (user_phone user));
                               ("roles", JStrs (user_roles user));
                               ("subscriptionPlan", JStr (user_subscription_plan user));
                               ("billingEnabled", JBool (user_billing_enabled user));
                               ("canTrainClients", JBool (user_can_train_clients user));
                               ("twoFactorEnabled", JBool (user_two_factor_enabled user));
                               ("profilePicture", JOptStr (user_profile_picture_url user));
                               ("clientIds", JStrs (default [] (user_client_ids user)));
                               ("specialistIds", JStrs (default [] (user_specialist_ids user)))]);
                ("accessToken", JStr (accessToken tk));
                ("refreshToken", JStr (refreshToken tk));
                ("message", JStr "Login successful")])
     end)
    (fun _ => respond 500 (error "Login failed")).

(** ** verifyTwoFactor *)

(** [!v] and [v !== s] for what [redis.get] returned.  A stored JSON
    document is a non-empty string that is no token and no identifier. *)
Definition falsy_val (v : option rvalue) : bool :=
  match v with
  | None => true
  | Some (RText s) => negb (truthy s)
  | Some _ => false
  end.

Definition val_strict_neq (v : option rvalue) (s : string) : bool :=
  match v with
  | Some (RText t) => strict_neq t s
  | _ => true
  end.

Definition verifyTwoFactor (cx : ctx) (tempToken code : string) : js unit :=
  try_catch
    (decoded <- try_catch (jwt_verify cx tempToken (JWT_SECRET cfg))
                  (fun _ => respond 401 (error "Invalid or expired token")) ;;
     (if strict_neq (claim_type decoded) "2fa_temp" then
        respond 401 (error "Invalid token type")
      else ret tt) ;;;
     storedToken <- redis_get cx ("2fa_temp_" +:+ claim_id decoded) ;;
     (if (falsy_val storedToken || val_strict_neq storedToken tempToken)%bool then
        respond 401 (error "Invalid or expired token")
      else ret tt) ;;;
     user_opt <- users_first (fun u => String.eqb (user_id u) (claim_id decoded)) ;;
     match user_opt with
     | None => respond 400 (error "Two-factor authentication not set up")
     | Some user =>
       match user_two_factor_secret user with
       | None => respond 400 (error "Two-factor authentication not set up")
       | Some secret =>
         (if negb (truthy secret) then
            respond 400 (error "Two-factor authentication not set up")
          else ret tt) ;;;
         let verified := totp_verify L secret code 2 (now_s cx) in
         (if negb verified then
            audit_insert cx (user_id user) "failed_2fa" "session" "Invalid 2FA code" ;;;
            respond 401 (error "Invalid verification code")
          else ret tt) ;;;
         redis_del ("2fa_temp_" +:+ user_id user) ;;;
         let tk := generateTokens cx (user_id user) in
         redis_setex cx ("refresh_" +:+ user_id user) (7 * 24 * 60 * 60)
           (session_of tk user) ;;;
         users_update (user_id user) (touch cx true true) ;;;
         audit_insert cx (user_id user) "2fa_success" "session"
           "2FA verification successful" ;;;
         respond 200
           (JObj [("user", JObj [("id", JStr (user_id user));
                                 ("email", JStr (user_email user));
                                 ("name", JStr (user_name user));
                                 ("phone", JStr (user_phone user));
                                 ("roles", JStrs (user_roles user));
                                 ("subscriptionPlan", JStr (user_subscription_plan user));
                                 ("billingEnabled", JBool (user_billing_enabled user));
                                 ("canTrainClients", JBool (user_can_train_clients user));
                                 ("twoFactorEnabled", JBool (user_two_factor_enabled user))]);
                  ("accessToken", JStr (accessToken tk));
                  ("refreshToken", JStr (refreshToken tk));
                  ("message", JStr "2FA verification successful")])
       end
     end)
    (fun _ => respond 500 (error "Verification failed")).

(** The challenge token passes [jwt.verify], has the challenge type and is
    the copy stored for its subject. *)
Definition challenge_accepted (cx : ctx) (w : world) (tempToken : string)
    (decoded : claims) : Prop :=
  jwt_verify cx tempToken (JWT_SECRET cfg) w = (Val decoded, w)
  /\ claim_type decoded = "2fa_temp"
  /\ truthy tempToken = true
  /\ redis w !! ("2fa_temp_" +:+ claim_id decoded) ≫= live cx = Some (RText tempToken).

(** ** logout *)

(** [req.user] and [req.token] are set by the authentication middleware;
    the handler reads [user.id] and the token string. *)
Definition logout (cx : ctx) (userId token : string) : js unit :=
  try_catch
    (match jwt_decode L token with
     | None => throw "TypeError: Cannot read properties of null (reading 'exp')"
     | Some decoded =>
       (* [decoded.exp - now] is [NaN] without an [exp] claim, and [NaN > 0] is false *)
       let ttl := option_map (fun e => e - now_s cx) (claim_exp decoded) in
       match ttl with
       | Some t => when (0 <? t) (redis_setex cx ("blacklist_" +:+ token) t (RText "1"))
       | None => ret tt
       end ;;;
       redis_del ("refresh_" +:+ userId) ;;;
       users_update userId (touch cx false false) ;;;
       audit_insert cx userId "logout" "session" "User logged out" ;;;
       respond 200 (JObj [("message", JStr "Logged out successfully")])
     end)
    (fun _ => respond 500 (error "Logout failed")).

(** ** refreshTokens *)

Definition refreshTokens (cx : ctx) (refreshToken_ : string) : js unit :=
  try_catch
    ((if negb (truthy refreshToken_) then
        respond 401 (error "Refresh token required")
      else ret tt) ;;;
     decoded <- try_catch (jwt_verify cx refreshToken_ (JWT_REFRESH_SECRET cfg))
                  (fun _ => respond 401 (error "Invalid refresh token")) ;;
     storedData <- redis_get cx ("refresh_" +:+ claim_id decoded) ;;
     (if falsy_val storedData then
        respond 401 (error "Invalid refresh token")
      else ret tt) ;;;
     (* [JSON.parse(storedData)] and [parsedData.token !== refreshToken] *)
     match storedData with
     | Some (RSession stored _ _) =>
         if strict_neq stored refreshToken_ then
           respond 401 (error "Invalid refresh token")
         else ret tt
     | Some (RList _) => respond 401 (error "Invalid refresh token")
     | Some (RText s) =>
         if json_scalar L s then respond 401 (error "Invalid refresh token")
         else throw "SyntaxError"
     | None => ret tt
     end ;;;
     user_opt <- users_first (fun u => String.eqb (user_id u) (claim_id decoded)) ;;
     match user_opt with
     | None => respond 401 (error "User not found")
     | Some user =>
       let tk := generateTokens cx (claim_id decoded) in
       redis_setex cx ("refresh_" +:+ claim_id decoded) (7 * 24 * 60 * 60)
         (session_of tk user) ;;;
       respond 200
         (JObj [("accessToken", JStr (accessToken tk));
                ("refreshToken", JStr (refreshToken tk))])
     end)
    (fun _ => respond 401 (error "Token refresh failed")).

(** ** resetPasswordRequest and resetPassword *)

Definition reset_ack : json :=
  JObj [("message",
         JStr "If an account exists with this email, you will receive a password reset link.")].

Definition resetPasswordRequest (cx : ctx) (email : string) : js unit :=
  try_catch
    (user_opt <- users_first (fun u => String.eqb (user_email u) (toLowerCase email)) ;;
     match user_opt with
     | None => respond 200 reset_ack
     | Some user =>
       let resetToken :=
         jwt_sign cx (user_id user) "password_reset" (Some (user_email user))
           (JWT_SECRET cfg) 3600 in
       redis_setex cx ("reset_" +:+ resetToken) 3600 (RText (user_id user)) ;;;
       sendPasswordResetEmail cx (user_email user) (user_name user) resetToken ;;;
       audit_insert cx (user_id user) "password_reset_request" "user"
         "Password reset requested" ;;;
       respond 200 reset_ack
     end)
    (fun _ => respond 500 (error "Failed to process request")).

Definition resetPassword (cx : ctx) (token newPassword : string) : js unit :=
  try_catch
    (decoded <- try_catch (jwt_verify cx token (JWT_SECRET cfg))
                  (fun _ => respond 400 (error "Invalid or expired reset token")) ;;
     (if strict_neq (claim_type decoded) "password_reset" then
        respond 400 (error "Invalid token type")
      else ret tt) ;;;
     stored <- redis_get cx ("reset_" +:+ token) ;;
     (if (falsy_val stored || val_strict_neq stored (claim_id decoded))%bool then
        respond 400 (error "Invalid or expired reset token")
      else ret tt) ;;;
     (* past the guard [userId] is the token's subject *)
     let userId := claim_id decoded in
     let passwordValidation := validatePassword L newPassword in
     (if negb (isValid passwordValidation) then
        respond 400 (JObj [("error", JStr "Password requirements not met");
                           ("details", JStrs (errors passwordValidation))])
      else ret tt) ;;;
     let hashedPassword := bcrypt_hash L newPassword 10 (salt cx) in
     users_update userId (set_password cx hashedPassword) ;;;
     redis_del ("reset_" +:+ token) ;;;
     redis_del ("refresh_" +:+ userId) ;;;
     user_opt <- users_first (fun u => String.eqb (user_id u) userId) ;;
     match user_opt with
     | None => throw "TypeError: Cannot read properties of undefined (reading 'email')"
     | Some user =>
       sendPasswordChangedEmail cx (user_email user) (user_name user) ;;;
       audit_insert cx userId "password_reset" "user" "Password reset successfully" ;;;
       respond 200
         (JObj [("message",
                 JStr "Password reset successfully. Please login with your new password.")])
     end)
    (fun _ => respond 400 (error "Failed to reset password")).

End Controller.

Arguments jwt_sign L cx uid type email secret expiresIn : simpl never.
Arguments generateTokens L cfg cx userId : simpl never.

(** ** A sample instance of the libraries

    Used to run the handlers on concrete requests.  The token codec writes
    the claims and the signing secret as text fields separated by [|]. *)

Definition dec (z : Z) : string := DecimalString.NilZero.string_of_int (Z.to_int z).

Definition undec (s : string) : option Z :=
  option_map Z.of_int (DecimalString.NilZero.int_of_string s).

Fixpoint split_on (sep : ascii) (s : string) : list string :=
  match s with
  | EmptyString => [EmptyString]
  | String c s' =>
      if Ascii.eqb c sep then EmptyString :: split_on sep s'
      else match split_on sep s' with
           | x :: xs => String c x :: xs
           | [] => [String c EmptyString]
           end
  end.

Definition sample_jwt_encode (c : claims) (secret : string) : string :=
  claim_type c +:+ "|" +:+ claim_id c +:+ "|" +:+
  default "-" (claim_email c) +:+ "|" +:+
  dec (claim_iat c) +:+ "|" +:+
  match claim_exp c with Some e => dec e | None => "-" end +:+ "|" +:+ secret.

Definition sample_jwt_decode (t : string) : option claims :=
  match split_on "|" t with
  | [ty; uid; em; iat; ex; _] =>
      match undec iat with
      | Some i =>
          Some {| claim_id := uid; claim_type := ty;
                  claim_email := if String.eqb em "-" then None else Some em;
                  claim_iat := i;
                  claim_exp := undec ex |}
      | None => None
      end
  | _ => None
  end.

Definition sample_jwt_signed_by (secret t : string) : bool :=
  match split_on "|" t with
  | [_; _; _; _; _; sg] => String.eqb sg secret
  | _ => false
  end.

(** The code of a secret at a time step, and the check over the steps
    [-window .. window] around the current one. *)
Definition sample_totp (secret : string) (step : Z) : string :=
  secret +:+ "#" +:+ dec step.

Definition sample_totp_verify (secret code : string) (window now : Z) : bool :=
  existsb (fun d => String.eqb code (sample_totp secret (now / 30 + d)))
    (map (fun k => Z.of_nat k - window) (seq 0 (Z.to_nat (2 * window + 1)))).

Definition sample_libs : libs :=
  {| validateEmail := fun s => existsb (Ascii.eqb "@") (list_ascii_of_string s);
     validatePassword := fun p =>
       if (8 <=? String.length p)%nat then {| isValid := true; errors := [] |}
       else {| isValid := false;
               errors := ["Password must be at least 8 characters long"] |};
     bcrypt_hash := fun p _ s => s +:+ "$" +:+ p;
     bcrypt_compare := fun p h =>
       match split_on "$" h with
       | [_; q] => String.eqb p q
       | _ => false
       end;
     jwt_encode := sample_jwt_encode;
     jwt_decode := sample_jwt_decode;
     jwt_signed_by := sample_jwt_signed_by;
     totp_verify := sample_totp_verify;
     json_scalar := fun s => match undec s with Some _ => true | None => false end |}.

Definition sample_cfg (unique : bool) (dev : bool) : config :=
  {| JWT_SECRET := "s3cret"; JWT_REFRESH_SECRET := "r3fresh";
     JWT_EXPIRE := None; JWT_REFRESH_EXPIRE := None;
     EMAIL_FROM := None; isDevelopment := dev;
     users_email_unique := unique |}.

Definition sample_ctx (t : Z) (fresh : string) (mail_ok : bool) : ctx :=
  {| now_ms := t; ip := "127.0.0.1"; user_agent := "curl";
     new_id := fresh; salt := "salt"; sendgrid_ok := mail_ok |}.

(** The handler's answer and the stores it leaves. *)
Definition answer (r : outcome unit * world) : option response :=
  match fst r with Ret x => Some x | _ => None end.

Definition after (r : outcome unit * world) : world := snd r.

(** ** Sample stores *)

(** A registered client, [a@b.com] with password [Str0ng!Pass]. *)
Definition alice : user :=
  {| user_id := "u1"; user_email := "a@b.com";
     user_password := "salt$Str0ng!Pass"; user_name := "A";
     user_phone := "555"; user_roles := ["client"];
     user_subscription_plan := "basic";
     user_client_ids := Some []; user_specialist_ids := Some [];
     user_billing_enabled := false; user_can_train_clients := false;
     user_two_factor_enabled := false; user_two_factor_secret := None;
     user_profile_picture_url := None;
     user_is_online := false; user_last_seen := None;
     user_updated_at := None; user_created_at := 1700000000000 |}.

Definition with_2fa (flag : bool) (secret : option string) (u : user) : user :=
  {| user_id := user_id u; user_email := user_email u;
     user_password := user_password u; user_name := user_name u;
     user_phone := user_phone u; user_roles := user_roles u;
     user_subscription_plan := user_subscription_plan u;
     user_client_ids := user_client_ids u;
     user_specialist_ids := user_specialist_ids u;
     user_billing_enabled := user_billing_enabled u;
     user_can_train_clients := user_can_train_clients u;
     user_two_factor_enabled := flag;
     user_two_factor_secret := secret;
     user_profile_picture_url := user_profile_picture_url u;
     user_is_online := user_is_online u;
     user_last_seen := user_last_seen u;
     user_updated_at := user_updated_at u;
     user_created_at := user_created_at u |}.

Definition world_of (us : list user) : world :=
  {| users := us; nutrition := []; audit_logs := []; email_logs := [];
     redis := ∅ |}.

(** A session store holding alice's session record. *)
Definition alice_session (issued : Z) : world :=
  {| users := [alice]; nutrition := []; audit_logs := []; email_logs := [];
     redis :=
       {[ "refresh_u1" :=
            {| value := RSession
                 (sample_jwt_encode
                    {| claim_id := "u1"; claim_type := "refresh";
                       claim_email := None; claim_iat := issued;
                       claim_exp := Some (issued + 604800) |} "r3fresh")
                 "a@b.com" ["client"];
               expires_at := issued + 604800 |} ]} |}.

(** A store in which the login challenge of [u] is pending. *)
Definition challenge_token : string :=
  "2fa_temp|u1|a@b.com|1700000000|1700000300|s3cret".

Definition challenge_world (u : user) : world :=
  {| users := [u]; nutrition := []; audit_logs := []; email_logs := [];
     redis := {[ "2fa_temp_u1" :=
                   {| value := RText challenge_token; expires_at := 1700000300 |} ]} |}.

(** Alice's refresh token issued at second 1700000000, as login stores it. *)
Definition alice_refresh : string := "refresh|u1|-|1700000000|1700604800|r3fresh".

(** The reset token alice is sent at second 1700000000. *)
Definition alice_reset_token : string :=
  "password_reset|u1|a@b.com|1700000000|1700003600|s3cret".

(** The stores after alice asked for a reset at second 1700000000. *)
Definition reset_pending : world :=
  after (resetPasswordRequest sample_libs (sample_cfg false true)
           (sample_ctx 1700000000000 "u2" true) "A@B.com" (alice_session 1700000000)).

(** ** Two-factor enrolment: enableTwoFactor, confirmTwoFactor, disableTwoFactor *)

(** speakeasy's provisioning URI, the QR renderer ([None]: it throws) and
    the text [JSON.stringify] gave a stored document. *)
Record setup_libs := {
  otpauth_url : string -> string -> string -> string;
  qr_toDataURL : string -> option string;
  json_text : rvalue -> string
}.

(** What one request draws at random: the secret of
    [speakeasy.generateSecret], and for each index of
    [Array.from({ length: 8 }, ...)] the backup code and the salt of its
    hash. *)
Record draws := {
  drawn_secret : string;
  drawn_code : nat -> string;
  drawn_salt : nat -> string
}.

(** [two_factor_secret: ..., two_factor_enabled: ..., updated_at: new Date()] *)
Definition set_two_factor (cx : ctx) (flag : bool) (secret : option string)
    (u : user) : user :=
  {| user_id := user_id u; user_email := user_email u;
     user_password := user_password u; user_name := user_name u;
     user_phone := user_phone u; user_roles := user_roles u;
     user_subscription_plan := user_subscription_plan u;
     user_client_ids := user_client_ids u;
     user_specialist_ids := user_specialist_ids u;
     user_billing_enabled := user_billing_enabled u;
     user_can_train_clients := user_can_train_clients u;
     user_two_factor_enabled := flag;
     user_two_factor_secret := secret;
     user_profile_picture_url := user_profile_picture_url u;
     user_is_online := user_is_online u;
     user_last_seen := user_last_seen u;
     user_updated_at := Some (now_ms cx);
     user_created_at := user_created_at u |}.

Section TwoFactorSetup.

Context (L : libs) (K : setup_libs).

(** The string [redis.get] returned, for a value that is not falsy. *)
Definition text_of (v : option rvalue) : string :=
  match v with
  | Some (RText s) => s
  | Some doc => json_text K doc
  | None => ""
  end.

(** [req.user] is the row the authentication middleware loaded. *)
Definition enableTwoFactor (cx : ctx) (d : draws) (user : user) : js unit :=
  try_catch
    ((if user_two_factor_enabled user then
        respond 400 (error "Two-factor authentication is already enabled")
      else ret tt) ;;;
     let base32 := drawn_secret d in
     let url :=
       otpauth_url K ("ClockWork (" +:+ user_email user +:+ ")")
         "ClockWork Platform" base32 in
     redis_setex cx ("2fa_setup_" +:+ user_id user) 600 (RText base32) ;;;
     qrCode <- match qr_toDataURL K url with
               | Some q => ret q
               | None => throw "QRCodeError"
               end ;;
     respond 200
       (JObj [("secret", JStr base32);
              ("qrCode", JStr qrCode);
              ("manualEntry", JStr url);
              ("message",
               JStr "Scan the QR code with your authenticator app and confirm with a code")]))
    (fun _ => respond 500 (error "Failed to set up two-factor authentication")).

Definition confirmTwoFactor (cx : ctx) (d : draws) (user : user) (code : string)
    : js unit :=
  try_catch
    (stored <- redis_get cx ("2fa_setup_" +:+ user_id user) ;;
     (if falsy_val stored then
        respond 400 (error "No pending 2FA setup found. Please start again.")
      else ret tt) ;;;
     let secret := text_of stored in
     let verified := totp_verify L secret code 2 (now_s cx) in
     (if negb verified then
        respond 400 (error "Invalid verification code")
      else ret tt) ;;;
     users_update (user_id user) (set_two_factor cx true (Some secret)) ;;;
     redis_del ("2fa_setup_" +:+ user_id user) ;;;
     let backupCodes := map (drawn_code d) (seq 0 8) in
     let hashedBackupCodes :=
       map (fun i => bcrypt_hash L (drawn_code d i) 10 (drawn_salt d i)) (seq 0 8) in
     redis_setex cx ("2fa_backup_" +:+ user_id user) (365 * 24 * 60 * 60)
       (RList hashedBackupCodes) ;;;
     audit_insert cx (user_id user) "2fa_enabled" "user"
       "Two-factor authentication enabled" ;;;
     respond 200
       (JObj [("message", JStr "Two-factor authentication enabled successfully");
              ("backupCodes", JStrs backupCodes);
              ("warning",
               JStr "Save these backup codes in a secure place. Each code can only be used once.")]))
    (fun _ => respond 500 (error "Failed to confirm two-factor authentication")).

Definition disableTwoFactor (cx : ctx) (user : user) (password : string) : js unit :=
  try_catch
    (let isValidPassword := bcrypt_compare L password (user_password user) in
     (if negb isValidPassword then
        respond 401 (error "Invalid password")
      else ret tt) ;;;
     users_update (user_id user) (set_two_factor cx false None) ;;;
     redis_del ("2fa_backup_" +:+ user_id user) ;;;
     audit_insert cx (user_id user) "2fa_disabled" "user"
       "Two-factor authentication disabled" ;;;
     respond 200 (JObj [("message", JStr "Two-factor authentication disabled successfully")]))
    (fun _ => respond 500 (error "Failed to disable two-factor authentication")).

End TwoFactorSetup.

(** ** The exported handlers as one step *)

Inductive request :=
| Signup (email password name phone : string) (roles : option (list string))
| Login (email password : string)
| VerifyTwoFactor (tempToken code : string)
| Logout (userId token : string)
| RefreshTokens (refreshToken_ : string)
| ResetPasswordRequest (email : string)
| ResetPassword (token newPassword : string)
| EnableTwoFactor (user : user)
| ConfirmTwoFactor (user : user) (code : string)
| DisableTwoFactor (user : user) (password : string).

Definition handle (L : libs) (K : setup_libs) (cfg : config) (cx : ctx) (d : draws)
    (rq : request) : js unit :=
  match rq with
  | Signup email password name phone roles =>
      signup L cfg cx email password name phone roles
  | Login email password => login L cfg cx email password
  | VerifyTwoFactor tempToken code => verifyTwoFactor L cfg cx tempToken code
  | Logout userId token => logout L cx userId token
  | RefreshTokens rt => refreshTokens L cfg cx rt
  | ResetPasswordRequest email => resetPasswordRequest L cfg cx email
  | ResetPassword token newPassword => resetPassword L cfg cx token newPassword
  | EnableTwoFactor user => enableTwoFactor K cx d user
  | ConfirmTwoFactor user code => confirmTwoFactor L K cx d user code
  | DisableTwoFactor user password => disableTwoFactor L cx user password
  end.

(** ** The e-mail service: sendBulkEmails *)

Record recipient := { rcpt_email : string; rcpt_substitutions : option string }.

Record bulk_result := {
  res_email : string;
  res_status : string;
  res_error : option string
}.

Section BulkEmails.

(** [isDevelopment]; [templateFn] (the HTML, or the message of the error it
    throws); and, for the batch starting at index [i], what
    [sgMail.sendMultiple] did ([Some msg]: it threw an error with that
    message). *)
Context (development : bool) (templateFn : string -> string + string)
        (sendMultiple : nat -> option string).

(** [recipients.slice(i, i + batchSize)] *)
Definition slice {A} (i j : nat) (l : list A) : list A := take (j - i) (drop i l).

(** The body of the [try] for one batch: the error message if it threw. *)
Definition send_batch (i : nat) : option string :=
  match templateFn "{{{name}}}" with
  | inl msg => Some msg
  | inr _ => if development then None else sendMultiple i
  end.

(** The [for (let i = 0; i < recipients.length; i += batchSize)] loop, with
    a bound on the number of rounds. *)
Fixpoint bulk_loop (rounds i : nat) (recipients : list recipient)
    (results : list bulk_result) : list bulk_result :=
  match rounds with
  | O => results
  | S rounds' =>
      if (i <? length recipients)%nat then
        let batch := slice i (i + 100) recipients in
        let results' :=
          match send_batch i with
          | None =>
              results ++
              map (fun r => {| res_email := rcpt_email r; res_status := "sent";
                               res_error := None |}) batch
          | Some msg =>
              results ++
              map (fun r => {| res_email := rcpt_email r; res_status := "failed";
                               res_error := Some msg |}) batch
          end in
        bulk_loop rounds' (i + 100) recipients results'
      else results
  end.

Definition sendBulkEmails (recipients : list recipient) : list bulk_result :=
  bulk_loop (length recipients) 0 recipients [].

(** The entry reported for a recipient whose batch had the given outcome. *)
Definition report (outcome : option string) (r : recipient) : bulk_result :=
  match outcome with
  | None => {| res_email := rcpt_email r; res_status := "sent"; res_error := None |}
  | Some msg =>
      {| res_email := rcpt_email r; res_status := "failed"; res_error := Some msg |}
  end.

End BulkEmails.

(** ** The e-mail service: [send] with its [html] and [options]

    The controller reaches [send] through the template senders, which
    pass the html of a template and options naming no key of [msg];
    [sendCustomEmail] passes on what its caller gives. *)

Module EmailService.

(** The keys of [options] that replace keys of
    [msg = { to, from: this.from, subject, html, ...options }]; its other
    keys go to SendGrid only. *)
Record send_options := {
  opt_to : option string;
  opt_from : option string;
  opt_subject : option string
}.

Definition no_options : send_options :=
  {| opt_to := None; opt_from := None; opt_subject := None |}.

(** [logEmail(data)]: inserts through [db]; its own failures are swallowed. *)
Definition logEmail (to from subject st : string) : js unit :=
  modify (fun w =>
    {| users := users w; nutrition := nutrition w; audit_logs := audit_logs w;
       email_logs := email_logs w ++
         [{| log_to := to; log_from := from; log_subject := subject; log_status := st |}];
       redis := redis w |}).

(** [html.substring(0, 100) + '...']: a [TypeError] when [html] is
    [undefined]. *)
Definition preview (html : option string) : js string :=
  match html with
  | Some h => ret (String.substring 0 100 h +:+ "...")
  | None => throw "TypeError"
  end.

(** [send(to, subject, html, options = {})] *)
Definition send (cfg : config) (cx : ctx) (to subject : string) (html : option string)
    (options : send_options) : js unit :=
  try_catch
    (let msg_to := default to (opt_to options) in
     let msg_from := default (from cfg) (opt_from options) in
     let msg_subject := default subject (opt_subject options) in
     if isDevelopment cfg then
       preview html ;;;
       logEmail msg_to msg_from msg_subject "development"
     else
       sgMail_send cx ;;;
       logEmail msg_to msg_from msg_subject "sent")
    (fun error =>
       logEmail to (from cfg) subject "failed" ;;;
       throw error).

(** [sendCustomEmail(to, subject, html, options = {})] *)
Definition sendCustomEmail (cfg : config) (cx : ctx) (to subject : string)
    (html : option string) (options : send_options) : js unit :=
  send cfg cx to subject html options.

End EmailService.

(** ** The SMS service *)

Module SMS.

Record sms_log := {
  sms_to : string;
  sms_message : string;
  sms_type : string;
  sms_status : string
}.

(** [this.rateLimits] (a [Map] from number to the times of its sends) and
    the [sms_logs] table. *)
Record state := {
  rateLimits : gmap string (list Z);
  sms_logs : list sms_log
}.

Definition maxSMSPerHour : nat := 10.
Definition maxSMSPerDay : nat := 50.

Definition is_digit (c : ascii) : bool :=
  let n := nat_of_ascii c in (Nat.leb 48 n && Nat.leb n 57)%bool.

(** [phoneNumber.replace(/\D/g, '')] *)
Fixpoint digits_only (s : string) : string :=
  match s with
  | EmptyString => EmptyString
  | String c s' =>
      if is_digit c then String c (digits_only s') else digits_only s'
  end.

(** [s.startsWith(p)] *)
Fixpoint startsWith (p s : string) : bool :=
  match p, s with
  | EmptyString, _ => true
  | String a p', String b s' => (Ascii.eqb a b && startsWith p' s')%bool
  | String _ _, EmptyString => false
  end.

(** [validatePhoneNumber]: the formatted number, or the message thrown. *)
Definition validatePhoneNumber (phoneNumber : string) : string + string :=
  let cleaned := digits_only phoneNumber in
  if Nat.eqb (String.length cleaned) 10 then inr ("+1" +:+ cleaned)
  else if (Nat.eqb (String.length cleaned) 11 && startsWith "1" cleaned)%bool
  then inr ("+" +:+ cleaned)
  else if (Nat.ltb 10 (String.length cleaned) && startsWith "+" cleaned)%bool
  then inr phoneNumber
  else inl "Invalid phone number format".

(** [checkRateLimit]: the list of the number is pruned and stored before
    the limits are tested, so it is stored also when the check throws. *)
Definition checkRateLimit (now : Z) (phoneNumber : string)
    (m : gmap string (list Z)) : (string + bool) * gmap string (list Z) :=
  let hourAgo := now - 60 * 60 * 1000 in
  let dayAgo := now - 24 * 60 * 60 * 1000 in
  let m1 := if m !! phoneNumber is Some _ then m else <[phoneNumber := []]> m in
  let sends := default [] (m1 !! phoneNumber) in
  let recentSends := List.filter (fun timestamp => dayAgo <? timestamp) sends in
  let m2 := <[phoneNumber := recentSends]> m1 in
  let hourSends := List.filter (fun timestamp => hourAgo <? timestamp) recentSends in
  if Nat.leb maxSMSPerHour (length hourSends) then
    (inl "Hourly SMS limit exceeded for this number", m2)
  else if Nat.leb maxSMSPerDay (length recentSends) then
    (inl "Daily SMS limit exceeded for this number", m2)
  else (inr true, m2).

Definition recordSend (now : Z) (phoneNumber : string)
    (m : gmap string (list Z)) : gmap string (list Z) :=
  let sends := default [] (m !! phoneNumber) in
  <[phoneNumber := sends ++ [now]]> m.

(** [logSMS(data)]: its own failures are swallowed. *)
Definition logSMS (to message type st : string) (s : state) : state :=
  {| rateLimits := rateLimits s;
     sms_logs := sms_logs s ++
       [{| sms_to := to; sms_message := message; sms_type := type;
           sms_status := st |}] |}.

(** [message.substring(0, 50) + '...'] *)
Definition preview (message : string) : string :=
  String.substring 0 50 message +:+ "...".

(** [send(to, message, options)], for a call that runs alone (no other
    call between its start and its end).  [simulated] is
    [this.isDevelopment || !this.client]; [twilio] is what
    [client.messages.create] did: the [sid] of the message, or the message
    of the error thrown; [now] is the clock when the call starts and
    [recorded] the clock when [recordSend] runs, after Twilio has
    answered.  The result is the [sid] returned or the error thrown. *)
Definition send (simulated : bool) (twilio : string + string) (now recorded : Z)
    (to message type : string) (s : state) : (string + string) * state :=
  let failed (e : string) (s' : state) :=
    (inl e, logSMS to (preview message) type "failed" s') in
  match validatePhoneNumber to with
  | inl e => failed e s
  | inr formattedTo =>
      let (checked, m) := checkRateLimit now formattedTo (rateLimits s) in
      let s1 := {| rateLimits := m; sms_logs := sms_logs s |} in
      match checked with
      | inl e => failed e s1
      | inr _ =>
          if simulated then
            (inr ("dev-" +:+ dec now),
             logSMS formattedTo (preview message) type "development" s1)
          else
            match twilio with
            | inl e => failed e s1
            | inr sid =>
                let s2 := {| rateLimits := recordSend recorded formattedTo m;
                             sms_logs := sms_logs s1 |} in
                (inr sid, logSMS formattedTo (preview message) type "sent" s2)
            end
      end
  end.

(** The number of sends recorded after [since]. *)
Definition sent_since (since : Z) (l : list Z) : nat :=
  length (List.filter (fun timestamp => since <? timestamp) l).

(** ** Sends that overlap

    [send] suspends at [await this.client.messages.create(...)], between
    [checkRateLimit] and [recordSend], and calls of [send] made meanwhile
    run their own check first.  What one call does to [this.rateLimits]
    is therefore two steps, with other calls in between. *)

(** Up to the first [await]: the number whose message is handed to
    Twilio, when the call gets that far. *)
Definition send_start (simulated : bool) (now : Z) (to : string)
    (m : gmap string (list Z)) : option string * gmap string (list Z) :=
  match validatePhoneNumber to with
  | inl _ => (None, m)
  | inr formattedTo =>
      let (checked, m') := checkRateLimit now formattedTo m in
      match checked with
      | inl _ => (None, m')
      | inr _ => if simulated then (None, m') else (Some formattedTo, m')
      end
  end.

(** When Twilio has answered: [recordSend], unless [create] threw. *)
Definition send_resume (twilio : string + string) (recorded : Z)
    (formattedTo : string) (m : gmap string (list Z)) : gmap string (list Z) :=
  match twilio with
  | inl _ => m
  | inr _ => recordSend recorded formattedTo m
  end.

(** [this.rateLimits] and the numbers of the calls that await Twilio, in
    the order of the calls. *)
Record service := {
  limits : gmap string (list Z);
  awaiting : list string
}.

(** [new SMSService()] *)
Definition fresh : service := {| limits := ∅; awaiting := [] |}.

(** A call of [send] at the time [now], or the answer of Twilio to the
    [i]-th call awaiting it. *)
Inductive event :=
| Call (now : Z) (to : string)
| Answer (i : nat) (now : Z) (twilio : string + string).

Definition time_of (e : event) : Z :=
  match e with
  | Call now _ => now
  | Answer _ now _ => now
  end.

Definition step (simulated : bool) (sv : service) (e : event) : service :=
  match e with
  | Call now to =>
      let (handed, m) := send_start simulated now to (limits sv) in
      {| limits := m;
         awaiting := awaiting sv ++
           match handed with Some formattedTo => [formattedTo] | None => [] end |}
  | Answer i now twilio =>
      match awaiting sv !! i with
      | Some formattedTo =>
          {| limits := send_resume twilio now formattedTo (limits sv);
             awaiting := delete i (awaiting sv) |}
      | None => sv
      end
  end.

Definition run (simulated : bool) (es : list event) (sv : service) : service :=
  fold_left (step simulated) es sv.

(** The clock does not go back: from [t] on, along the events. *)
Fixpoint clock_from (t : Z) (es : list event) : bool :=
  match es with
  | [] => true
  | e :: es' => (t <=? time_of e) && clock_from (time_of e) es'
  end.

(** After no event of the run more than [P] calls await Twilio. *)
Fixpoint overlap_at_most (P : nat) (simulated : bool) (es : list event)
    (sv : service) : bool :=
  match es with
  | [] => true
  | e :: es' =>
      (length (awaiting (step simulated sv e)) <=? P)%nat
      && overlap_at_most P simulated es' (step simulated sv e)
  end.

(** At the time [t], for every number: the sends recorded in the last
    hour and the calls awaiting Twilio are together fewer than
    [maxSMSPerHour + P], and likewise for the last day. *)
Definition overlap_inv (P : nat) (t : Z) (sv : service) : Prop :=
  forall p,
    (sent_since (t - 60 * 60 * 1000) (default [] (limits sv !! p))
     + count_occ string_dec (awaiting sv) p < maxSMSPerHour + P)%nat
    /\ (sent_since (t - 24 * 60 * 60 * 1000) (default [] (limits sv !! p))
        + count_occ string_dec (awaiting sv) p < maxSMSPerDay + P)%nat.

(** Nine sends, one a minute and each answered before the next, then two
    calls that both pass the check before either is answered. *)
Definition nine_then_two : list event :=
  flat_map (fun k => [Call (1700000000000 + 60000 * Z.of_nat k) "(555) 123-4567";
                      Answer 0 (1700000000250 + 60000 * Z.of_nat k) (inr "SM")])
    (seq 0 9)
  ++ [Call 1700000600000 "(555) 123-4567"; Call 1700000600001 "555-123-4567";
      Answer 1 1700000600200 (inr "SM"); Answer 0 1700000600300 (inr "SM")].

End SMS.

(** ** The websocket connection limiter *)

Module Websocket.

Definition maxConnectionsPerUser : Z := 5.

(** [websocket.connections.get(userId) || 0] *)
Definition connections_of (userId : string) (m : gmap string Z) : Z :=
  match m !! userId with
  | Some n => n
  | None => 0
  end.

Definition checkLimit (userId : string) (m : gmap string Z) : bool * gmap string Z :=
  let userConnections := connections_of userId m in
  if maxConnectionsPerUser <=? userConnections then (false, m)
  else (true, <[userId := userConnections + 1]> m).

Definition removeConnection (userId : string) (m : gmap string Z) : gmap string Z :=
  let userConnections := connections_of userId m in
  if 0 <? userConnections then <[userId := userConnections - 1]> m else m.

(** A connection attempt or a disconnection, and a run of them. *)
Inductive event := Connect (userId : string) | Disconnect (userId : string).

Definition step (m : gmap string Z) (e : event) : gmap string Z :=
  match e with
  | Connect u => snd (checkLimit u m)
  | Disconnect u => removeConnection u m
  end.

Definition run (es : list event) (m : gmap string Z) : gmap string Z :=
  fold_left step es m.

(** Every count lies between 0 and the maximum. *)
Definition ws_bounded (m : gmap string Z) : Prop :=
  forall u, 0 <= connections_of u m <= maxConnectionsPerUser.

End Websocket.

(** A sample of the enrolment libraries and of the draws of a request. *)
Definition sample_setup : setup_libs :=
  {| otpauth_url := fun name issuer secret =>
       "otpauth://totp/" +:+ name +:+ "?secret=" +:+ secret +:+ "&issuer=" +:+ issuer;
     qr_toDataURL := fun url => Some ("data:image/png;base64," +:+ url);
     json_text := fun _ => "{}" |}.

Definition sample_draws : draws :=
  {| drawn_secret := "JBSWY3DPEHPK3PXP";
     drawn_code := fun i => "CODE" +:+ dec (Z.of_nat i);
     drawn_salt := fun i => "salt" +:+ dec (Z.of_nat i) |}.

(** ** Invariants of the [users] table *)

(** A computation keeps [P] when it leaves [P] true of the stores, however
    it ends. *)
Definition keeps (P : world -> Prop) {A} (m : js A) : Prop :=
  forall w, P w -> P (snd (m w)).

(** Every row satisfies [R]. *)
Definition rows (R : user -> Prop) (w : world) : Prop := Forall R (users w).

(** A row whose 2FA flag is set has a (non-empty) 2FA secret. *)
Definition two_factor_row (u : user) : Prop :=
  user_two_factor_enabled u = true -> truthy_opt (user_two_factor_secret u) = true.

(** One of the capital letters [A] to [Z]. *)
Definition is_capital (c : ascii) : bool :=
  let n := nat_of_ascii c in (Nat.leb 65 n && Nat.leb n 90)%bool.

Fixpoint no_capital (s : string) : bool :=
  match s with
  | EmptyString => true
  | String c s' => (negb (is_capital c) && no_capital s')%bool
  end.

(** The e-mail of a row has none of the capital letters [A] to [Z]. *)
Definition no_capital_row (u : user) : Prop :=
  no_capital (user_email u) = true.

(** ** Stores that differ in the backup codes only *)

Definition backup_key (k : string) : Prop := exists x, k = "2fa_backup_" +:+ x.

Definition same_but_backup (w1 w2 : world) : Prop :=
  users w1 = users w2
  /\ nutrition w1 = nutrition w2
  /\ audit_logs w1 = audit_logs w2
  /\ email_logs w1 = email_logs w2
  /\ forall k, ~ backup_key k -> redis w1 !! k = redis w2 !! k.

(** Two computations agree when, run on such stores, they end the same way
    and leave such stores. *)
Definition agree {A} (m1 m2 : js A) : Prop :=
  forall w1 w2,
    same_but_backup w1 w2 ->
    fst (m1 w1) = fst (m2 w2) /\ same_but_backup (snd (m1 w1)) (snd (m2 w2)).

(** * Properties *)

(** Unfolds the monad and the store operations of a handler applied to a
    world. *)
Ltac js_unfold :=
  cbv beta iota zeta delta
    [bind ret respond throw try_catch when modify get_world
     users_first users_update users_insert audit_insert nutrition_insert
     trx_rollback trx_commit redis_setex redis_get redis_del
     answer after fst snd].

#[local] Arguments Z.leb : simpl never.
#[local] Arguments Z.ltb : simpl never.

(** Splits on the tests a run met, in a hypothesis that fixes its result. *)
Ltac js_split_inner H :=
  match type of H with
  | context [match ?x with _ => _ end] =>
      match x with
      | context [match _ with _ => _ end] => fail 1
      | _ => destruct x eqn:?
      end
  | context [if ?x then _ else _] =>
      match x with
      | context [if _ then _ else _] => fail 1
      | _ => destruct x eqn:?
      end
  end.

Ltac js_split_find H :=
  match type of H with
  | context [match List.find ?p ?l with _ => _ end] =>
      destruct (List.find p l) eqn:?
  end.

Ltac js_invert H :=
  repeat (cbn in H; first [js_split_inner H | js_split_find H];
          try discriminate H).

(** The sample codec reads back what it writes. *)
Example sample_codec :
  sample_jwt_decode
    (sample_jwt_encode
       {| claim_id := "u1"; claim_type := "access"; claim_email := None;
          claim_iat := 1700000000; claim_exp := Some 1700000900 |} "s3cret")
  = Some {| claim_id := "u1"; claim_type := "access"; claim_email := None;
            claim_iat := 1700000000; claim_exp := Some 1700000900 |}.
Proof. vm_compute. reflexivity. Qed.

(** ** login *)

Section Login.

Context (L : libs) (cfg : config).

(** C6. A login whose e-mail matches no row and a login whose password
    does not match the row found give the caller the same answer, 401 with
    [{ error: 'Invalid credentials' }]. *)
Theorem login_failures_indistinguishable
    (cx1 cx2 : ctx) (w1 w2 : world) (email1 password1 email2 password2 : string)
    (u : user) :
  List.find (fun r => String.eqb (user_email r) (toLowerCase email1)) (users w1) = None ->
  List.find (fun r => String.eqb (user_email r) (toLowerCase email2)) (users w2) = Some u ->
  bcrypt_compare L password2 (user_password u) = false ->
  answer (login L cfg cx1 email1 password1 w1)
    = Some {| status := 401; body := error "Invalid credentials" |}
  /\ answer (login L cfg cx2 email2 password2 w2)
    = answer (login L cfg cx1 email1 password1 w1).
Proof.
  intros Hnone Hsome Hpw.
  unfold login. js_unfold. rewrite Hnone, Hsome. cbn. rewrite Hpw. cbn.
  split; reflexivity.
Qed.

(** The keys of the session record, of the login challenge and of the
    revocation entry never coincide. *)
Lemma challenge_key_not_refresh (a b : string) :
  "2fa_temp_" +:+ a <> "refresh_" +:+ b.
Proof. cbn. discriminate. Qed.

Lemma refresh_key_not_challenge (a b : string) :
  "refresh_" +:+ a <> "2fa_temp_" +:+ b.
Proof. cbn. discriminate. Qed.

(** C8, as amended. When the password matches a row whose 2FA flag is set
    and whose 2FA secret is present, login answers 200 with
    [requiresTwoFactor] and a challenge token signed with [JWT_SECRET] that
    expires 300 seconds after its issue; it stores that token under
    [2fa_temp_<id>] for 300 seconds and writes nothing else: no session
    record, no row, no audit event. *)
Theorem login_two_factor_pending
    (cx : ctx) (w : world) (email password : string) (u : user) :
  List.find (fun r => String.eqb (user_email r) (toLowerCase email)) (users w) = Some u ->
  bcrypt_compare L password (user_password u) = true ->
  user_two_factor_enabled u = true ->
  truthy_opt (user_two_factor_secret u) = true ->
  let tempToken :=
    jwt_encode L
      {| claim_id := user_id u; claim_type := "2fa_temp";
         claim_email := Some (user_email u); claim_iat := now_s cx;
         claim_exp := Some (now_s cx + 300) |} (JWT_SECRET cfg) in
  login L cfg cx email password w
    = (Ret {| status := 200;
              body := JObj [("requiresTwoFactor", JBool true);
                            ("tempToken", JStr tempToken);
                            ("message", JStr "Please enter your 2FA code")] |},
       set_redis
         (<["2fa_temp_" +:+ user_id u :=
              {| value := RText tempToken; expires_at := now_s cx + 300 |}]> (redis w)) w)
  /\ redis (after (login L cfg cx email password w)) !! ("refresh_" +:+ user_id u)
     = redis w !! ("refresh_" +:+ user_id u).
Proof.
  intros Hfind Hpw Hflag Hsecret tempToken.
  assert (Hrun : login L cfg cx email password w
    = (Ret {| status := 200;
              body := JObj [("requiresTwoFactor", JBool true);
                            ("tempToken", JStr tempToken);
                            ("message", JStr "Please enter your 2FA code")] |},
       set_redis
         (<["2fa_temp_" +:+ user_id u :=
              {| value := RText tempToken; expires_at := now_s cx + 300 |}]> (redis w)) w)).
  { unfold login. js_unfold. rewrite Hfind. cbn. rewrite Hpw, Hflag, Hsecret. cbn.
    reflexivity. }
  split; [exact Hrun |].
  rewrite Hrun. unfold after. cbn.
  apply lookup_insert_ne, challenge_key_not_refresh.
Qed.

(** C9. When the password matches a row whose 2FA flag is set but whose
    2FA secret is null, login skips the challenge: it answers 200 with the
    access and refresh tokens of [generateTokens], stores the session
    record under [refresh_<id>], and leaves the challenge key untouched. *)
Theorem login_flag_without_secret_issues_tokens
    (cx : ctx) (w : world) (email password : string) (u : user) :
  List.find (fun r => String.eqb (user_email r) (toLowerCase email)) (users w) = Some u ->
  bcrypt_compare L password (user_password u) = true ->
  user_two_factor_enabled u = true ->
  user_two_factor_secret u = None ->
  let tk := generateTokens L cfg cx (user_id u) in
  (exists profile,
     answer (login L cfg cx email password w)
     = Some {| status := 200;
               body := JObj [("user", profile);
                             ("accessToken", JStr (accessToken tk));
                             ("refreshToken", JStr (refreshToken tk));
                             ("message", JStr "Login successful")] |})
  /\ redis (after (login L cfg cx email password w))
     = <["refresh_" +:+ user_id u :=
           {| value := session_of tk u;
              expires_at := now_s cx + 7 * 24 * 60 * 60 |}]> (redis w)
  /\ redis (after (login L cfg cx email password w)) !! ("2fa_temp_" +:+ user_id u)
     = redis w !! ("2fa_temp_" +:+ user_id u).
Proof.
  intros Hfind Hpw Hflag Hsecret tk.
  unfold login. js_unfold. rewrite Hfind. cbn. rewrite Hpw, Hflag, Hsecret. cbn.
  split; [eexists; reflexivity |].
  split; [reflexivity |].
  apply lookup_insert_ne, refresh_key_not_challenge.
Qed.

End Login.

Lemma login_failures_indistinguishable_witness :
  answer (login sample_libs (sample_cfg false true) (sample_ctx 5000 "u2" true)
            "nobody@x.com" "whatever" (world_of [alice]))
    = Some {| status := 401; body := error "Invalid credentials" |}
  /\ answer (login sample_libs (sample_cfg false true) (sample_ctx 9000 "u2" true)
            "A@B.com" "wrong-pass" (world_of [alice]))
    = answer (login sample_libs (sample_cfg false true) (sample_ctx 5000 "u2" true)
            "nobody@x.com" "whatever" (world_of [alice])).
Proof.
  apply (login_failures_indistinguishable sample_libs (sample_cfg false true)
           (sample_ctx 5000 "u2" true) (sample_ctx 9000 "u2" true)
           (world_of [alice]) (world_of [alice])
           "nobody@x.com" "whatever" "A@B.com" "wrong-pass" alice);
    reflexivity.
Defined.

Lemma login_two_factor_pending_witness :
  let u := with_2fa true (Some "JBSWY3DPEHPK3PXP") alice in
  let cx := sample_ctx 1700000000000 "u2" true in
  let w := world_of [u] in
  login sample_libs (sample_cfg false true) cx "a@b.com" "Str0ng!Pass" w
    = (Ret {| status := 200;
              body := JObj [("requiresTwoFactor", JBool true);
                            ("tempToken", JStr "2fa_temp|u1|a@b.com|1700000000|1700000300|s3cret");
                            ("message", JStr "Please enter your 2FA code")] |},
       set_redis
         (<["2fa_temp_u1" :=
              {| value := RText "2fa_temp|u1|a@b.com|1700000000|1700000300|s3cret";
                 expires_at := 1700000300 |}]> (redis w)) w)
  /\ redis (after (login sample_libs (sample_cfg false true) cx "a@b.com" "Str0ng!Pass" w))
       !! "refresh_u1" = None.
Proof.
  exact (login_two_factor_pending sample_libs (sample_cfg false true)
           (sample_ctx 1700000000000 "u2" true)
           (world_of [with_2fa true (Some "JBSWY3DPEHPK3PXP") alice])
           "a@b.com" "Str0ng!Pass"
           (with_2fa true (Some "JBSWY3DPEHPK3PXP") alice)
           eq_refl eq_refl eq_refl eq_refl).
Defined.

(** C8, as stated, fails on a row whose flag is set and whose secret is
    null: the tokens are issued and no challenge is stored. *)
Lemma login_two_factor_flag_alone_counterexample :
  let u := with_2fa true None alice in
  let r := login sample_libs (sample_cfg false true)
             (sample_ctx 1700000000000 "u2" true) "a@b.com" "Str0ng!Pass"
             (world_of [u]) in
  user_two_factor_enabled u = true
  /\ bcrypt_compare sample_libs "Str0ng!Pass" (user_password u) = true
  /\ answer r
     = Some {| status := 200;
               body := JObj
                 [("user",
                   JObj [("id", JStr "u1"); ("email", JStr "a@b.com");
                         ("name", JStr "A"); ("phone", JStr "555");
                         ("roles", JArr [JStr "client"]);
                         ("subscriptionPlan", JStr "basic");
                         ("billingEnabled", JBool false);
                         ("canTrainClients", JBool false);
                         ("twoFactorEnabled", JBool true);
                         ("profilePicture", JNull); ("clientIds", JArr []);
                         ("specialistIds", JArr [])]);
                  ("accessToken", JStr "access|u1|-|1700000000|1700000900|s3cret");
                  ("refreshToken", JStr "refresh|u1|-|1700000000|1700604800|r3fresh");
                  ("message", JStr "Login successful")] |}
  /\ redis (after r) !! "2fa_temp_u1" = None
  /\ redis (after r) !! "refresh_u1"
     = Some {| value := RSession "refresh|u1|-|1700000000|1700604800|r3fresh"
                          "a@b.com" ["client"];
               expires_at := 1700604800 |}.
Proof. vm_compute. repeat split; reflexivity. Qed.

Lemma login_flag_without_secret_issues_tokens_witness :
  let u := with_2fa true None alice in
  let cx := sample_ctx 1700000000000 "u2" true in
  let w := world_of [u] in
  let tk := generateTokens sample_libs (sample_cfg false true) cx "u1" in
  (exists profile,
     answer (login sample_libs (sample_cfg false true) cx "A@b.com" "Str0ng!Pass" w)
     = Some {| status := 200;
               body := JObj [("user", profile);
                             ("accessToken", JStr (accessToken tk));
                             ("refreshToken", JStr (refreshToken tk));
                             ("message", JStr "Login successful")] |})
  /\ redis (after (login sample_libs (sample_cfg false true) cx "A@b.com" "Str0ng!Pass" w))
     = <["refresh_u1" := {| value := session_of tk u; expires_at := 1700604800 |}]> ∅
  /\ redis (after (login sample_libs (sample_cfg false true) cx "A@b.com" "Str0ng!Pass" w))
       !! "2fa_temp_u1" = None.
Proof.
  exact (login_flag_without_secret_issues_tokens sample_libs (sample_cfg false true)
           (sample_ctx 1700000000000 "u2" true)
           (world_of [with_2fa true None alice]) "A@b.com" "Str0ng!Pass"
           (with_2fa true None alice) eq_refl eq_refl eq_refl eq_refl).
Defined.

(** ** logout *)

Section Logout.

Context (L : libs).

Lemma revocation_key_not_refresh (a b : string) :
  "refresh_" +:+ a <> "blacklist_" +:+ b.
Proof. cbn. discriminate. Qed.

(** C7. With a token that decodes and carries an expiry claim [e], logout
    answers 200, deletes [refresh_<user id>], and, when [e - now] is
    positive, stores the marker under [blacklist_<token>] with that
    lifetime; when it is not positive the revocation entry is not written
    and the session record is deleted all the same. *)
Theorem logout_revokes
    (cx : ctx) (w : world) (userId token : string) (decoded : claims) (e : Z) :
  jwt_decode L token = Some decoded ->
  claim_exp decoded = Some e ->
  let ttl := e - now_s cx in
  let w' := after (logout L cx userId token w) in
  answer (logout L cx userId token w)
    = Some {| status := 200;
              body := JObj [("message", JStr "Logged out successfully")] |}
  /\ redis w'
     = delete ("refresh_" +:+ userId)
         (if 0 <? ttl
          then <["blacklist_" +:+ token :=
                   {| value := RText "1"; expires_at := now_s cx + ttl |}]> (redis w)
          else redis w)
  /\ redis w' !! ("refresh_" +:+ userId) = None
  /\ redis w' !! ("blacklist_" +:+ token)
     = (if 0 <? ttl
        then Some {| value := RText "1"; expires_at := now_s cx + ttl |}
        else redis w !! ("blacklist_" +:+ token)).
Proof.
  intros Hdec Hexp ttl w'.
  assert (Hredis : redis w'
     = delete ("refresh_" +:+ userId)
         (if 0 <? ttl
          then <["blacklist_" +:+ token :=
                   {| value := RText "1"; expires_at := now_s cx + ttl |}]> (redis w)
          else redis w)).
  { subst w'. unfold logout. js_unfold. rewrite Hdec, Hexp. cbn. fold ttl.
    destruct (0 <? ttl); reflexivity. }
  split.
  { unfold logout. js_unfold. rewrite Hdec, Hexp. cbn. fold ttl.
    destruct (0 <? ttl); reflexivity. }
  split; [exact Hredis |].
  rewrite Hredis. split.
  - apply lookup_delete_eq.
  - rewrite lookup_delete_ne by apply revocation_key_not_refresh.
    destruct (0 <? ttl); [apply lookup_insert_eq | reflexivity].
Qed.

(** A token that decodes without an expiry claim: [decoded.exp - now] is
    [NaN], the revocation entry is skipped, the session record is deleted. *)
Lemma logout_without_expiry
    (cx : ctx) (w : world) (userId token : string) (decoded : claims) :
  jwt_decode L token = Some decoded ->
  claim_exp decoded = None ->
  redis (after (logout L cx userId token w))
  = delete ("refresh_" +:+ userId) (redis w).
Proof.
  intros Hdec Hexp. unfold logout. js_unfold. rewrite Hdec, Hexp. reflexivity.
Qed.

(** C10. With a token that [jwt.decode] maps to [null], reading [exp]
    throws before anything is written: logout answers 500 with
    [{ error: 'Logout failed' }] and the stores are as they were. *)
Theorem logout_undecodable_token
    (cx : ctx) (w : world) (userId token : string) :
  jwt_decode L token = None ->
  logout L cx userId token w
    = (Ret {| status := 500; body := error "Logout failed" |}, w).
Proof.
  intros Hdec. unfold logout. js_unfold. rewrite Hdec. reflexivity.
Qed.

End Logout.

Lemma logout_revokes_witness :
  let token := "access|u1|-|1700000000|1700000900|s3cret" in
  let r := logout sample_libs
             (sample_ctx 1700000100000 "u2" true) "u1" token
             (alice_session 1700000000) in
  answer r
    = Some {| status := 200;
              body := JObj [("message", JStr "Logged out successfully")] |}
  /\ redis (after r)
     = delete "refresh_u1"
         (<["blacklist_" +:+ token :=
              {| value := RText "1"; expires_at := 1700000100 + 800 |}]>
            (redis (alice_session 1700000000)))
  /\ redis (after r) !! "refresh_u1" = None
  /\ redis (after r) !! ("blacklist_" +:+ token)
     = Some {| value := RText "1"; expires_at := 1700000100 + 800 |}.
Proof.
  exact (logout_revokes sample_libs
           (sample_ctx 1700000100000 "u2" true) (alice_session 1700000000)
           "u1" "access|u1|-|1700000000|1700000900|s3cret"
           {| claim_id := "u1"; claim_type := "access"; claim_email := None;
              claim_iat := 1700000000; claim_exp := Some 1700000900 |}
           1700000900 eq_refl eq_refl).
Defined.

(** The same logout one hour later: the token is past its expiry, the
    revocation entry is skipped and the session record is deleted. *)
Example logout_expired_token :
  let token := "access|u1|-|1700000000|1700000900|s3cret" in
  let r := logout sample_libs
             (sample_ctx 1700003600000 "u2" true) "u1" token
             (alice_session 1700000000) in
  answer r
    = Some {| status := 200;
              body := JObj [("message", JStr "Logged out successfully")] |}
  /\ redis (after r) = ∅.
Proof. vm_compute. split; reflexivity. Qed.

Lemma logout_undecodable_token_witness :
  logout sample_libs
    (sample_ctx 1700000100000 "u2" true) "u1" "not-a-jwt"
    (alice_session 1700000000)
  = (Ret {| status := 500; body := error "Logout failed" |},
     alice_session 1700000000).
Proof.
  exact (logout_undecodable_token sample_libs
           (sample_ctx 1700000100000 "u2" true) (alice_session 1700000000)
           "u1" "not-a-jwt" eq_refl).
Defined.

(** ** verifyTwoFactor *)

Section VerifyTwoFactor.

Context (L : libs) (cfg : config).

Lemma verifyTwoFactor_not_set_up
    (cx : ctx) (w : world) (tempToken code : string) (decoded : claims) :
  challenge_accepted L cfg cx w tempToken decoded ->
  (forall u,
     List.find (fun r => String.eqb (user_id r) (claim_id decoded)) (users w) = Some u ->
     truthy_opt (user_two_factor_secret u) = false) ->
  verifyTwoFactor L cfg cx tempToken code w
  = (Ret {| status := 400; body := error "Two-factor authentication not set up" |}, w).
Proof.
  intros (Hverify & Htype & Htruthy & Hstored) Hnone.
  unfold verifyTwoFactor. js_unfold. rewrite Hverify. cbn.
  rewrite Htype. cbn. rewrite Hstored. cbn.
  unfold strict_neq. rewrite String.eqb_refl, Htruthy. cbn.
  destruct (List.find _ (users w)) as [u|]; [| reflexivity].
  specialize (Hnone u eq_refl).
  destruct (user_two_factor_secret u) as [sec|]; [| reflexivity].
  cbn in Hnone. rewrite Hnone. reflexivity.
Qed.

(** C4, as amended. With an accepted challenge, a wrong TOTP code for a
    subject with a stored secret is answered 401
    [{ error: 'Invalid verification code' }] and audited: the one thing
    written is the [failed_2fa] row.  A subject without a stored secret,
    or without a row, is answered 400
    [{ error: 'Two-factor authentication not set up' }] and nothing is
    written.  The caller can tell the two causes apart. *)
Theorem verifyTwoFactor_failure_causes
    (cx1 cx2 : ctx) (w1 w2 : world) (tempToken1 code1 tempToken2 code2 : string)
    (decoded1 decoded2 : claims) (u1 : user) (secret : string) :
  challenge_accepted L cfg cx1 w1 tempToken1 decoded1 ->
  List.find (fun r => String.eqb (user_id r) (claim_id decoded1)) (users w1) = Some u1 ->
  user_two_factor_secret u1 = Some secret ->
  truthy secret = true ->
  totp_verify L secret code1 2 (now_s cx1) = false ->
  challenge_accepted L cfg cx2 w2 tempToken2 decoded2 ->
  match List.find (fun r => String.eqb (user_id r) (claim_id decoded2)) (users w2) with
  | Some u2 => truthy_opt (user_two_factor_secret u2)
  | None => false
  end = false ->
  verifyTwoFactor L cfg cx1 tempToken1 code1 w1
    = (Ret {| status := 401; body := error "Invalid verification code" |},
       {| users := users w1; nutrition := nutrition w1;
          audit_logs := audit_logs w1 ++
            [{| audit_user_id := user_id u1; audit_action := "failed_2fa";
                audit_resource := "session"; audit_resource_id := user_id u1;
                audit_details := "Invalid 2FA code"; audit_ip_address := ip cx1;
                audit_user_agent := user_agent cx1 |}];
          email_logs := email_logs w1; redis := redis w1 |})
  /\ verifyTwoFactor L cfg cx2 tempToken2 code2 w2
     = (Ret {| status := 400; body := error "Two-factor authentication not set up" |}, w2)
  /\ answer (verifyTwoFactor L cfg cx1 tempToken1 code1 w1)
     <> answer (verifyTwoFactor L cfg cx2 tempToken2 code2 w2).
Proof.
  intros Hacc1 Hfind1 Hsec1 Htruthy1 Hcode1 Hacc2 Hnone2.
  assert (H1 : verifyTwoFactor L cfg cx1 tempToken1 code1 w1
    = (Ret {| status := 401; body := error "Invalid verification code" |},
       {| users := users w1; nutrition := nutrition w1;
          audit_logs := audit_logs w1 ++
            [{| audit_user_id := user_id u1; audit_action := "failed_2fa";
                audit_resource := "session"; audit_resource_id := user_id u1;
                audit_details := "Invalid 2FA code"; audit_ip_address := ip cx1;
                audit_user_agent := user_agent cx1 |}];
          email_logs := email_logs w1; redis := redis w1 |})).
  { destruct Hacc1 as (Hverify & Htype & Htruthy & Hstored).
    unfold verifyTwoFactor. js_unfold. rewrite Hverify. cbn.
    rewrite Htype. cbn. rewrite Hstored. cbn.
    unfold strict_neq. rewrite String.eqb_refl, Htruthy. cbn.
    rewrite Hfind1, Hsec1. cbn. rewrite Htruthy1. cbn. rewrite Hcode1. cbn.
    reflexivity. }
  assert (H2 : verifyTwoFactor L cfg cx2 tempToken2 code2 w2
    = (Ret {| status := 400; body := error "Two-factor authentication not set up" |}, w2)).
  { apply (verifyTwoFactor_not_set_up _ _ _ code2 _ Hacc2).
    intros u Hu. rewrite Hu in Hnone2. exact Hnone2. }
  split; [exact H1 |]. split; [exact H2 |].
  rewrite H1, H2. discriminate.
Qed.

End VerifyTwoFactor.

Example challenge_world_from_login :
  after (login sample_libs (sample_cfg false true) (sample_ctx 1700000000000 "u2" true)
           "a@b.com" "Str0ng!Pass" (world_of [with_2fa true (Some "JBSWY3DPEHPK3PXP") alice]))
  = challenge_world (with_2fa true (Some "JBSWY3DPEHPK3PXP") alice).
Proof. vm_compute. reflexivity. Qed.

(** C4, as stated, fails: with the same accepted challenge, a wrong code
    and a missing secret are answered with different statuses and
    messages. *)
Lemma verifyTwoFactor_causes_distinguished_counterexample :
  let cx := sample_ctx 1700000060000 "u2" true in
  let wrong_code :=
    answer (verifyTwoFactor sample_libs (sample_cfg false true) cx challenge_token "000000"
              (challenge_world (with_2fa true (Some "JBSWY3DPEHPK3PXP") alice))) in
  let no_secret :=
    answer (verifyTwoFactor sample_libs (sample_cfg false true) cx challenge_token "000000"
              (challenge_world (with_2fa true None alice))) in
  wrong_code = Some {| status := 401; body := error "Invalid verification code" |}
  /\ no_secret
     = Some {| status := 400; body := error "Two-factor authentication not set up" |}
  /\ wrong_code <> no_secret.
Proof. vm_compute. repeat split; discriminate. Qed.

Lemma verifyTwoFactor_failure_causes_witness :
  let cx := sample_ctx 1700000060000 "u2" true in
  let w1 := challenge_world (with_2fa true (Some "JBSWY3DPEHPK3PXP") alice) in
  let w2 := challenge_world (with_2fa true None alice) in
  verifyTwoFactor sample_libs (sample_cfg false true) cx challenge_token "123456" w1
    = (Ret {| status := 401; body := error "Invalid verification code" |},
       {| users := users w1; nutrition := nutrition w1;
          audit_logs := audit_logs w1 ++
            [{| audit_user_id := "u1"; audit_action := "failed_2fa";
                audit_resource := "session"; audit_resource_id := "u1";
                audit_details := "Invalid 2FA code"; audit_ip_address := "127.0.0.1";
                audit_user_agent := "curl" |}];
          email_logs := email_logs w1; redis := redis w1 |})
  /\ verifyTwoFactor sample_libs (sample_cfg false true) cx challenge_token "123456" w2
     = (Ret {| status := 400; body := error "Two-factor authentication not set up" |}, w2)
  /\ answer (verifyTwoFactor sample_libs (sample_cfg false true) cx challenge_token "123456" w1)
     <> answer (verifyTwoFactor sample_libs (sample_cfg false true) cx challenge_token "123456" w2).
Proof.
  apply (verifyTwoFactor_failure_causes sample_libs (sample_cfg false true)
           (sample_ctx 1700000060000 "u2" true) (sample_ctx 1700000060000 "u2" true)
           (challenge_world (with_2fa true (Some "JBSWY3DPEHPK3PXP") alice))
           (challenge_world (with_2fa true None alice))
           challenge_token "123456" challenge_token "123456"
           {| claim_id := "u1"; claim_type := "2fa_temp";
              claim_email := Some "a@b.com"; claim_iat := 1700000000;
              claim_exp := Some 1700000300 |}
           {| claim_id := "u1"; claim_type := "2fa_temp";
              claim_email := Some "a@b.com"; claim_iat := 1700000000;
              claim_exp := Some 1700000300 |}
           (with_2fa true (Some "JBSWY3DPEHPK3PXP") alice) "JBSWY3DPEHPK3PXP");
    try reflexivity; repeat split; reflexivity.
Defined.

(** The subject of an accepted challenge has no row: the same 400, and
    nothing is written. *)
Example verifyTwoFactor_without_row :
  let cx := sample_ctx 1700000060000 "u2" true in
  let w := set_users [] (challenge_world alice) in
  verifyTwoFactor sample_libs (sample_cfg false true) cx challenge_token "123456" w
  = (Ret {| status := 400; body := error "Two-factor authentication not set up" |}, w).
Proof. vm_compute. reflexivity. Qed.

(** ** refreshTokens *)

Section RefreshTokens.

Context (L : libs) (cfg : config).

(** The tokens minted depend on the clock through its second only. *)
Lemma generateTokens_same_second (cx1 cx2 : ctx) (userId : string) :
  now_s cx1 = now_s cx2 ->
  generateTokens L cfg cx1 userId = generateTokens L cfg cx2 userId.
Proof.
  intros Hs. unfold generateTokens, jwt_sign. rewrite Hs. reflexivity.
Qed.

(** With a codec whose [jwt_decode] inverts [jwt_encode], a refresh token
    minted in a second other than the one [rt] was issued in is not [rt]. *)
Lemma generateTokens_later_second
    (cx : ctx) (rt userId : string) (decoded : claims) :
  (forall c k, jwt_decode L (jwt_encode L c k) = Some c) ->
  jwt_decode L rt = Some decoded ->
  claim_iat decoded <> now_s cx ->
  refreshToken (generateTokens L cfg cx userId) <> rt.
Proof.
  intros Hcodec Hdec Hiat Heq. apply Hiat.
  unfold generateTokens, jwt_sign in Heq. cbn in Heq.
  rewrite <- Heq, Hcodec in Hdec. injection Hdec as <-. reflexivity.
Qed.

(** What a successful rotation tells: the token decodes, is signed with the
    refresh secret, and the session record of its subject now holds the
    refresh token that was returned. *)
Lemma refreshTokens_success
    (cx : ctx) (w w' : world) (rt access rt' : string) :
  refreshTokens L cfg cx rt w
    = (Ret {| status := 200;
              body := JObj [("accessToken", JStr access);
                            ("refreshToken", JStr rt')] |}, w') ->
  exists decoded u,
    truthy rt = true
    /\ jwt_decode L rt = Some decoded
    /\ jwt_signed_by L (JWT_REFRESH_SECRET cfg) rt = true
    /\ rt' = refreshToken (generateTokens L cfg cx (claim_id decoded))
    /\ w' = set_redis
              (<["refresh_" +:+ claim_id decoded :=
                   {| value := RSession rt' (user_email u) (user_roles u);
                      expires_at := now_s cx + 7 * 24 * 60 * 60 |}]> (redis w)) w.
Proof.
  intros H. unfold refreshTokens, jwt_verify in H. revert H. js_unfold. intros H.
  js_invert H.
  all: injection H as <- <- <-.
  all: match goal with
       | Hd : jwt_decode _ _ = Some ?c, Hu : List.find _ _ = Some ?u |- _ =>
           exists c, u
       end.
  all: repeat split; auto; now apply negb_false_iff.
Qed.

(** C2, as amended. If a rotation of [rt1] succeeds and returns a refresh
    token [rt2] other than [rt1], the session record of the subject holds
    [rt2], and a later rotation of [rt1], at any time, is answered 401
    [{ error: 'Invalid refresh token' }] and changes nothing. *)
Theorem refresh_rotation_invalidates_previous
    (cx1 cx2 : ctx) (w w1 : world) (rt1 access rt2 : string) :
  refreshTokens L cfg cx1 rt1 w
    = (Ret {| status := 200;
              body := JObj [("accessToken", JStr access);
                            ("refreshToken", JStr rt2)] |}, w1) ->
  rt2 <> rt1 ->
  (exists decoded email roles,
     jwt_decode L rt1 = Some decoded
     /\ redis w1 !! ("refresh_" +:+ claim_id decoded)
        = Some {| value := RSession rt2 email roles;
                  expires_at := now_s cx1 + 7 * 24 * 60 * 60 |})
  /\ refreshTokens L cfg cx2 rt1 w1
     = (Ret {| status := 401; body := error "Invalid refresh token" |}, w1).
Proof.
  intros Hfirst Hnew.
  destruct (refreshTokens_success _ _ _ _ _ _ Hfirst)
    as (decoded & u & Htruthy & Hdec & Hsig & _ & ->).
  split.
  { exists decoded, (user_email u), (user_roles u). split; [exact Hdec |].
    cbn. apply lookup_insert_eq. }
  assert (Hneq : strict_neq rt2 rt1 = true).
  { unfold strict_neq. apply negb_true_iff, String.eqb_neq, Hnew. }
  unfold refreshTokens, jwt_verify. js_unfold.
  rewrite Htruthy, Hdec, Hsig. cbn.
  destruct (claim_exp decoded) as [e|]; cbv beta iota.
  - destruct (e <=? now_s cx2); [reflexivity |].
    cbn. rewrite lookup_insert_eq. cbn. unfold live. cbn.
    match goal with
    | |- context [now_s cx2 <? ?t] => destruct (now_s cx2 <? t)
    end; cbn; [rewrite Hneq |]; reflexivity.
  - cbn. rewrite lookup_insert_eq. cbn. unfold live. cbn.
    match goal with
    | |- context [now_s cx2 <? ?t] => destruct (now_s cx2 <? t)
    end; cbn; [rewrite Hneq |]; reflexivity.
Qed.

End RefreshTokens.

Example alice_session_from_login :
  redis (after (login sample_libs (sample_cfg false true)
                  (sample_ctx 1700000000000 "u2" true) "a@b.com" "Str0ng!Pass"
                  (world_of [alice])))
  = redis (alice_session 1700000000).
Proof. vm_compute. reflexivity. Qed.

(** C2, as stated, fails when the rotation happens within the second in
    which [rt1] was issued: [jwt.sign] is given the same claims, the token
    returned is [rt1] itself, and [rt1] is rotated again an hour later. *)
Lemma refresh_rotation_same_second_counterexample :
  let cfg := sample_cfg false true in
  let r1 := refreshTokens sample_libs cfg (sample_ctx 1700000000400 "u2" true)
              alice_refresh (alice_session 1700000000) in
  let r2 := refreshTokens sample_libs cfg (sample_ctx 1700003600000 "u2" true)
              alice_refresh (after r1) in
  answer r1
    = Some {| status := 200;
              body := JObj [("accessToken", JStr "access|u1|-|1700000000|1700000900|s3cret");
                            ("refreshToken", JStr alice_refresh)] |}
  /\ answer r2
     = Some {| status := 200;
               body := JObj [("accessToken", JStr "access|u1|-|1700003600|1700004500|s3cret");
                             ("refreshToken",
                              JStr "refresh|u1|-|1700003600|1700608400|r3fresh")] |}.
Proof. vm_compute. split; reflexivity. Qed.

Lemma refresh_rotation_invalidates_previous_witness :
  let cfg := sample_cfg false true in
  let cx1 := sample_ctx 1700000100000 "u2" true in
  let rt2 := "refresh|u1|-|1700000100|1700604900|r3fresh" in
  let w1 := set_redis
              (<["refresh_u1" :=
                   {| value := RSession rt2 "a@b.com" ["client"];
                      expires_at := 1700000100 + 604800 |}]>
                 (redis (alice_session 1700000000)))
              (alice_session 1700000000) in
  (exists decoded email roles,
     jwt_decode sample_libs alice_refresh = Some decoded
     /\ redis w1 !! ("refresh_" +:+ claim_id decoded)
        = Some {| value := RSession rt2 email roles;
                  expires_at := now_s cx1 + 7 * 24 * 60 * 60 |})
  /\ refreshTokens sample_libs cfg (sample_ctx 1700000200000 "u2" true) alice_refresh w1
     = (Ret {| status := 401; body := error "Invalid refresh token" |}, w1).
Proof.
  apply (refresh_rotation_invalidates_previous sample_libs (sample_cfg false true)
           (sample_ctx 1700000100000 "u2" true) (sample_ctx 1700000200000 "u2" true)
           (alice_session 1700000000) _ alice_refresh
           "access|u1|-|1700000100|1700001000|s3cret"
           "refresh|u1|-|1700000100|1700604900|r3fresh").
  - reflexivity.
  - apply String.eqb_neq. reflexivity.
Defined.

(** ** resetPassword *)

Section ResetPassword.

Context (L : libs) (cfg : config).

Lemma refresh_key_not_reset (a b : string) :
  "refresh_" +:+ a <> "reset_" +:+ b.
Proof. cbn. discriminate. Qed.

(** What a successful consumption tells: the token decodes to a
    password-reset token, and the mirror entry and the session record of
    its subject have been deleted. *)
Lemma resetPassword_success
    (cx : ctx) (w w' : world) (token newPassword : string) (b : json) :
  resetPassword L cfg cx token newPassword w
    = (Ret {| status := 200; body := b |}, w') ->
  exists decoded,
    jwt_decode L token = Some decoded
    /\ claim_type decoded = "password_reset"
    /\ redis w'
       = delete ("refresh_" +:+ claim_id decoded)
           (delete ("reset_" +:+ token) (redis w)).
Proof.
  intros H.
  unfold resetPassword, jwt_verify, sendPasswordChangedEmail, send,
    sgMail_send, logEmail in H.
  revert H. js_unfold. intros H.
  js_invert H.
  all: injection H as _ <-.
  all: match goal with
       | Hd : jwt_decode _ _ = Some ?c |- _ => exists c
       end.
  all: repeat split; auto.
  all: match goal with
       | Ht : strict_neq _ _ = false |- _ =>
           now apply negb_false_iff, String.eqb_eq in Ht
       end.
Qed.

(** Without a mirror entry a password-reset token is refused, whatever the
    clock and the new password. *)
Lemma resetPassword_without_mirror
    (cx : ctx) (w : world) (token newPassword : string) (decoded : claims) :
  jwt_decode L token = Some decoded ->
  claim_type decoded = "password_reset" ->
  redis w !! ("reset_" +:+ token) = None ->
  resetPassword L cfg cx token newPassword w
    = (Ret {| status := 400; body := error "Invalid or expired reset token" |}, w).
Proof.
  intros Hdec Htype Hgone.
  unfold resetPassword, jwt_verify. js_unfold. rewrite Hdec.
  destruct (jwt_signed_by L (JWT_SECRET cfg) token); [| reflexivity].
  destruct (claim_exp decoded) as [e|]; cbv beta iota.
  - destruct (e <=? now_s cx); [reflexivity |].
    cbn. rewrite Htype. cbn. rewrite Hgone. reflexivity.
  - cbn. rewrite Htype. cbn. rewrite Hgone. reflexivity.
Qed.

(** C3. Once [resetPassword] has succeeded with a token, the mirror entry
    [reset_<token>] is gone, and the next [resetPassword] with the same
    token string is answered 400 [{ error: 'Invalid or expired reset
    token' }] and changes nothing, whatever the clock and the new
    password. *)
Theorem reset_token_single_use
    (cx1 cx2 : ctx) (w w1 : world) (token newPassword1 newPassword2 : string)
    (b : json) :
  resetPassword L cfg cx1 token newPassword1 w
    = (Ret {| status := 200; body := b |}, w1) ->
  redis w1 !! ("reset_" +:+ token) = None
  /\ resetPassword L cfg cx2 token newPassword2 w1
     = (Ret {| status := 400; body := error "Invalid or expired reset token" |}, w1).
Proof.
  intros Hfirst.
  destruct (resetPassword_success _ _ _ _ _ _ Hfirst) as (decoded & Hdec & Htype & Hr).
  assert (Hgone : redis w1 !! ("reset_" +:+ token) = None).
  { rewrite Hr, lookup_delete_ne by apply refresh_key_not_reset.
    apply lookup_delete_eq. }
  split; [exact Hgone |].
  now apply resetPassword_without_mirror with decoded.
Qed.

End ResetPassword.

Example reset_pending_mirror :
  redis reset_pending !! ("reset_" +:+ alice_reset_token)
  = Some {| value := RText "u1"; expires_at := 1700003600 |}.
Proof. vm_compute. reflexivity. Qed.

Lemma reset_token_single_use_witness :
  let cfg := sample_cfg false true in
  let r1 := resetPassword sample_libs cfg (sample_ctx 1700000100000 "u2" true)
              alice_reset_token "N3w!Passw0rd" reset_pending in
  redis (after r1) !! ("reset_" +:+ alice_reset_token) = None
  /\ resetPassword sample_libs cfg (sample_ctx 1700000200000 "u2" true)
       alice_reset_token "An0ther!Pass" (after r1)
     = (Ret {| status := 400; body := error "Invalid or expired reset token" |},
        after r1).
Proof.
  apply (reset_token_single_use sample_libs (sample_cfg false true)
           (sample_ctx 1700000100000 "u2" true) (sample_ctx 1700000200000 "u2" true)
           reset_pending _ alice_reset_token "N3w!Passw0rd" "An0ther!Pass"
           (JObj [("message",
                   JStr "Password reset successfully. Please login with your new password.")])).
  vm_compute. reflexivity.
Defined.

(** ** signup *)

Section Signup.

Context (L : libs) (cfg : config).

(** C5, as amended. When the inputs are valid and the e-mail is not
    found, a welcome e-mail that SendGrid refuses makes [send] throw into
    the handler: signup answers 500 [{ error: 'Failed to create account' }]
    and the transaction is rolled back, so that no row of [users],
    [nutrition] or [audit_logs] is kept. *)
Theorem signup_welcome_failure_fails_signup
    (cx : ctx) (w : world) (email password name phone : string)
    (roles : option (list string)) :
  validateEmail L email = true ->
  isValid (validatePassword L password) = true ->
  List.find (fun u => String.eqb (user_email u) email) (users w) = None ->
  isDevelopment cfg = false ->
  sendgrid_ok cx = false ->
  let r := signup L cfg cx email password name phone roles w in
  answer r = Some {| status := 500; body := error "Failed to create account" |}
  /\ users (after r) = users w
  /\ nutrition (after r) = nutrition w
  /\ audit_logs (after r) = audit_logs w.
Proof.
  intros Hemail Hpw Hfind Hdev Hmail r. subst r.
  unfold signup, sendWelcomeEmail, send, sgMail_send, logEmail. js_unfold.
  rewrite Hemail, Hpw. cbn. rewrite Hfind, Hdev, Hmail. cbn.
  destruct (users_email_unique cfg && _)%bool; cbn; [repeat split; reflexivity |].
  destruct (includes "client" (default ["client"] roles)); cbn;
    repeat split; reflexivity.
Qed.

(** Rows are stored with a lower-case e-mail, so a lookup of an e-mail
    typed with an upper-case letter finds none of them. *)
Lemma lookup_as_typed_misses (us : list user) (email : string) :
  Forall (fun u => user_email u = toLowerCase (user_email u)) us ->
  toLowerCase email <> email ->
  List.find (fun u => String.eqb (user_email u) email) us = None.
Proof.
  intros Hlower Hmixed. induction Hlower as [| u us Hu _ IH]; [reflexivity |].
  cbn. destruct (String.eqb (user_email u) email) eqn:Heq; [| exact IH].
  apply String.eqb_eq in Heq. rewrite Heq in Hu. congruence.
Qed.

Lemma ascii_toLowerCase_idempotent (c : ascii) :
  ascii_toLowerCase (ascii_toLowerCase c) = ascii_toLowerCase c.
Proof. destruct c as [[] [] [] [] [] [] [] []]; reflexivity. Qed.

Lemma toLowerCase_idempotent (s : string) :
  toLowerCase (toLowerCase s) = toLowerCase s.
Proof.
  induction s as [| c s IH]; [reflexivity |].
  cbn. now rewrite ascii_toLowerCase_idempotent, IH.
Qed.

(** signup keeps the rows lower-case: it inserts [email.toLowerCase()]. *)
Lemma signup_keeps_emails_lower
    (cx : ctx) (w : world) (email password name phone : string)
    (roles : option (list string)) :
  Forall (fun u => user_email u = toLowerCase (user_email u)) (users w) ->
  Forall (fun u => user_email u = toLowerCase (user_email u))
    (users (after (signup L cfg cx email password name phone roles w))).
Proof.
  intros Hlower.
  unfold signup, sendWelcomeEmail, send, sgMail_send, logEmail. js_unfold.
  destruct (validateEmail L email); [| exact Hlower].
  destruct (isValid (validatePassword L password)); [| exact Hlower].
  cbn. destruct (List.find _ (users w)); [exact Hlower |].
  cbn. destruct (users_email_unique cfg && _)%bool; cbn; [exact Hlower |].
  destruct (includes "client" (default ["client"] roles)); cbn;
    destruct (isDevelopment cfg); cbn; try destruct (sendgrid_ok cx); cbn;
    try exact Hlower.
  all: apply Forall_app; split; [exact Hlower |].
  all: constructor; [| constructor].
  all: cbn; symmetry; apply toLowerCase_idempotent.
Qed.

(** Hence a signup with such an e-mail is never answered 409, whoever is
    registered. *)
Lemma signup_mixed_case_never_conflicts
    (cx : ctx) (w : world) (email password name phone : string)
    (roles : option (list string)) :
  Forall (fun u => user_email u = toLowerCase (user_email u)) (users w) ->
  toLowerCase email <> email ->
  option_map status (answer (signup L cfg cx email password name phone roles w))
  <> Some 409.
Proof.
  intros Hlower Hmixed.
  pose proof (lookup_as_typed_misses _ _ Hlower Hmixed) as Hfind.
  unfold signup, sendWelcomeEmail, send, sgMail_send, logEmail. js_unfold.
  destruct (validateEmail L email); [| discriminate].
  destruct (isValid (validatePassword L password)); [| discriminate].
  cbn. rewrite Hfind. cbn.
  destruct (users_email_unique cfg && _)%bool; cbn; [discriminate |].
  destruct (includes "client" (default ["client"] roles)); cbn;
    destruct (isDevelopment cfg); cbn; try discriminate;
    destruct (sendgrid_ok cx); cbn; discriminate.
Qed.

(** The part of the duplicate check that holds: an e-mail equal, character
    for character, to a stored one is answered 409 and nothing changes. *)
Lemma signup_conflict_exact
    (cx : ctx) (w : world) (email password name phone : string)
    (roles : option (list string)) (u : user) :
  validateEmail L email = true ->
  isValid (validatePassword L password) = true ->
  List.find (fun r => String.eqb (user_email r) email) (users w) = Some u ->
  signup L cfg cx email password name phone roles w
  = (Ret {| status := 409; body := error "Email already registered" |}, w).
Proof.
  intros Hemail Hpw Hfind.
  unfold signup. js_unfold. rewrite Hemail, Hpw. cbn. rewrite Hfind. cbn.
  destruct w; reflexivity.
Qed.

End Signup.

Lemma signup_welcome_failure_fails_signup_witness :
  let r := signup sample_libs (sample_cfg false false)
             (sample_ctx 1700000000000 "u1" false)
             "a@b.com" "Str0ng!Pass" "A" "555" (Some ["client"]) (world_of []) in
  answer r = Some {| status := 500; body := error "Failed to create account" |}
  /\ users (after r) = []
  /\ nutrition (after r) = []
  /\ audit_logs (after r) = [].
Proof.
  apply (signup_welcome_failure_fails_signup sample_libs (sample_cfg false false)
           (sample_ctx 1700000000000 "u1" false) (world_of [])
           "a@b.com" "Str0ng!Pass" "A" "555" (Some ["client"]));
    reflexivity.
Defined.

(** The same signup when SendGrid accepts the message. *)
Example signup_succeeds :
  let r := signup sample_libs (sample_cfg false false)
             (sample_ctx 1700000000000 "u1" true)
             "a@b.com" "Str0ng!Pass" "A" "555" (Some ["client"]) (world_of []) in
  answer r
    = Some {| status := 201;
              body := JObj
                [("user", JObj [("id", JStr "u1"); ("email", JStr "a@b.com");
                                ("name", JStr "A");
                                ("roles", JArr [JStr "client"]);
                                ("createdAt", JNum 1700000000000)]);
                 ("accessToken", JStr "access|u1|-|1700000000|1700000900|s3cret");
                 ("refreshToken", JStr "refresh|u1|-|1700000000|1700604800|r3fresh");
                 ("message", JStr "Account created successfully")] |}
  /\ users (after r) = [alice]
  /\ nutrition (after r)
     = [{| nutrition_client_id := "u1"; nutrition_assigned_by := "u1" |}].
Proof. vm_compute. repeat split; reflexivity. Qed.

(** C5, as stated, fails: every input is valid, only the welcome e-mail is
    refused, and signup answers 500 and keeps no Principal. *)
Lemma signup_welcome_failure_counterexample :
  let r := signup sample_libs (sample_cfg false false)
             (sample_ctx 1700000000000 "u1" false)
             "a@b.com" "Str0ng!Pass" "A" "555" (Some ["client"]) (world_of []) in
  answer r = Some {| status := 500; body := error "Failed to create account" |}
  /\ users (after r) = []
  /\ nutrition (after r) = [].
Proof. vm_compute. repeat split; reflexivity. Qed.

(** C1 at the failing input: [a@b.com] is registered and signup is called
    with [A@b.com].  The lookup compares the e-mail as typed with the
    lower-case stored one and finds nothing.  Without a unique index a
    second Principal with the e-mail [a@b.com], its nutrition row and its
    session record are created and the answer is 201; with a unique index
    the insert throws and the answer is 500.  Neither is 409. *)
Theorem signup_duplicate_in_other_case :
  let run unique :=
    signup sample_libs (sample_cfg unique true)
      (sample_ctx 1700000500000 "u2" true)
      "A@b.com" "Str0ng!Pass" "A again" "555" None (world_of [alice]) in
  option_map status (answer (run false)) = Some 201
  /\ map user_email (users (after (run false))) = ["a@b.com"; "a@b.com"]
  /\ map nutrition_client_id (nutrition (after (run false))) = ["u2"]
  /\ is_Some (redis (after (run false)) !! "refresh_u2")
  /\ answer (run true)
     = Some {| status := 500; body := error "Failed to create account" |}.
Proof.
  vm_compute. repeat split; try reflexivity. eexists; reflexivity.
Qed.

(** ** The websocket connection limiter *)

Section WebsocketLimiter.

Import Websocket.

Lemma connections_of_insert (u v : string) (n : Z) (m : gmap string Z) :
  connections_of v (<[u := n]> m) = if decide (u = v) then n else connections_of v m.
Proof.
  unfold connections_of. rewrite lookup_insert. destruct (decide (u = v)); reflexivity.
Qed.

Lemma step_keeps_bounded (m : gmap string Z) (e : event) :
  ws_bounded m -> ws_bounded (step m e).
Proof.
  intros Hm v. destruct e as [u | u]; cbn.
  - unfold checkLimit. destruct (Z.leb_spec maxConnectionsPerUser (connections_of u m));
      cbn; [apply Hm |].
    rewrite connections_of_insert. destruct (decide (u = v)); [| apply Hm].
    specialize (Hm u). lia.
  - unfold removeConnection. destruct (Z.ltb_spec 0 (connections_of u m)); [| apply Hm].
    rewrite connections_of_insert. destruct (decide (u = v)); [| apply Hm].
    specialize (Hm u). lia.
Qed.

Lemma run_keeps_bounded (es : list event) (m : gmap string Z) :
  ws_bounded m -> ws_bounded (run es m).
Proof.
  revert m. induction es as [| e es IH]; intros m Hm; [exact Hm |].
  cbn. apply IH, step_keeps_bounded, Hm.
Qed.

Lemma empty_bounded : ws_bounded ∅.
Proof.
  intros v. unfold connections_of. rewrite lookup_empty.
  unfold maxConnectionsPerUser. lia.
Qed.

(** X1. Whatever connection attempts and disconnections happen, starting
    with no connection, the count kept for a user stays between 0 and
    [maxConnectionsPerUser] = 5. *)
Theorem websocket_count_bounded (es : list event) (u : string) :
  0 <= connections_of u (run es ∅) <= 5.
Proof. apply (run_keeps_bounded es ∅), empty_bounded. Qed.

(** X2. In a state reached from no connection, an accepted [checkLimit]
    followed by [removeConnection] for the same user leaves every count as
    it was. *)
Theorem websocket_connect_then_disconnect (es : list event) (u v : string) :
  fst (checkLimit u (run es ∅)) = true ->
  connections_of v (removeConnection u (snd (checkLimit u (run es ∅))))
  = connections_of v (run es ∅).
Proof.
  pose proof (run_keeps_bounded es ∅ empty_bounded) as Hb.
  unfold checkLimit.
  destruct (Z.leb_spec maxConnectionsPerUser (connections_of u (run es ∅)));
    cbn; [discriminate |].
  intros _. unfold removeConnection.
  rewrite connections_of_insert. destruct (decide (u = u)); [| congruence].
  specialize (Hb u).
  destruct (Z.ltb_spec 0 (connections_of u (run es ∅) + 1)); [| lia].
  rewrite connections_of_insert. destruct (decide (u = v)) as [<- |]; [lia |].
  rewrite connections_of_insert. destruct (decide (u = v)); [congruence | reflexivity].
Qed.

End WebsocketLimiter.

Lemma websocket_connect_then_disconnect_witness :
  Websocket.connections_of "u1"
    (Websocket.removeConnection "u1"
       (snd (Websocket.checkLimit "u1"
               (Websocket.run [Websocket.Connect "u1"; Websocket.Connect "u2"] ∅))))
  = Websocket.connections_of "u1"
      (Websocket.run [Websocket.Connect "u1"; Websocket.Connect "u2"] ∅).
Proof.
  apply (websocket_connect_then_disconnect
           [Websocket.Connect "u1"; Websocket.Connect "u2"] "u1" "u1").
  reflexivity.
Defined.

(** ** The SMS service *)

Section SMSService.

Import SMS.

Lemma digits_only_idempotent (s : string) :
  digits_only (digits_only s) = digits_only s.
Proof.
  induction s as [| c s IH]; [reflexivity |].
  cbn. destruct (is_digit c) eqn:Hc; [| exact IH].
  cbn. rewrite Hc, IH. reflexivity.
Qed.

Lemma digits_only_no_plus (s : string) : startsWith "+" (digits_only s) = false.
Proof.
  induction s as [| c s IH]; [reflexivity |].
  cbn [digits_only]. destruct (is_digit c) eqn:Hc; [| exact IH].
  cbn [startsWith]. destruct (Ascii.eqb_spec "+" c) as [<- |];
    [discriminate Hc | reflexivity].
Qed.

Lemma prefix_one (s : string) :
  startsWith "1" s = true -> exists d, s = String "1" d.
Proof.
  destruct s as [| c d]; [discriminate |].
  cbn [startsWith]. destruct (Ascii.eqb_spec "1" c) as [<- |]; [| discriminate].
  intros _. exists d. reflexivity.
Qed.

Lemma validatePhoneNumber_inv (phoneNumber formatted : string) :
  validatePhoneNumber phoneNumber = inr formatted ->
  exists d,
    formatted = "+1" +:+ d /\ String.length d = 10%nat /\ digits_only d = d.
Proof.
  unfold validatePhoneNumber.
  pose proof (digits_only_idempotent phoneNumber) as Hidem.
  destruct (Nat.eqb_spec (String.length (digits_only phoneNumber)) 10) as [Hten | _].
  { intros H. injection H as <-. exists (digits_only phoneNumber). auto. }
  destruct (Nat.eqb_spec (String.length (digits_only phoneNumber)) 11) as [Hel | _];
    cbn [andb].
  - destruct (startsWith "1" (digits_only phoneNumber)) eqn:Hone.
    + intros H. injection H as <-. destruct (prefix_one _ Hone) as [d Hd].
      exists d. rewrite Hd in *. cbn in Hel, Hidem.
      change (is_digit "1") with true in Hidem.
      split; [reflexivity |]. split; [lia | congruence].
    + rewrite digits_only_no_plus, andb_false_r. discriminate.
  - rewrite digits_only_no_plus, andb_false_r. discriminate.
Qed.

(** X3. When [validatePhoneNumber] returns, the number it returns is [+1]
    followed by exactly ten digits. *)
Theorem validatePhoneNumber_shape (phoneNumber formatted : string) :
  validatePhoneNumber phoneNumber = inr formatted ->
  exists d,
    formatted = "+1" +:+ d /\ String.length d = 10%nat /\ digits_only d = d.
Proof. apply validatePhoneNumber_inv. Qed.

(** X4. A number [validatePhoneNumber] returned is returned unchanged when
    it is validated again. *)
Theorem validatePhoneNumber_idempotent (phoneNumber formatted : string) :
  validatePhoneNumber phoneNumber = inr formatted ->
  validatePhoneNumber formatted = inr formatted.
Proof.
  intros H. destruct (validatePhoneNumber_inv _ _ H) as (d & -> & Hlen & Hd).
  assert (Hclean : digits_only ("+1" +:+ d) = String "1" d).
  { change (digits_only ("+1" +:+ d)) with (String "1" (digits_only d)).
    now rewrite Hd. }
  unfold validatePhoneNumber. rewrite Hclean. cbn [String.length].
  rewrite Hlen. reflexivity.
Qed.

(** X5. A number with more than eleven digits is refused, also when it
    is written with a leading [+]: the branch for numbers starting with
    [+] tests the string from which every non-digit, [+] included, was
    removed, so it is never taken. *)
Theorem validatePhoneNumber_refuses_long (phoneNumber : string) :
  (11 < String.length (digits_only phoneNumber))%nat ->
  validatePhoneNumber phoneNumber = inl "Invalid phone number format".
Proof.
  intros Hlong. unfold validatePhoneNumber.
  destruct (Nat.eqb_spec (String.length (digits_only phoneNumber)) 10); [lia |].
  destruct (Nat.eqb_spec (String.length (digits_only phoneNumber)) 11); [lia |].
  cbn [andb]. rewrite digits_only_no_plus, andb_false_r. reflexivity.
Qed.

Lemma filter_length_mono (f g : Z -> bool) (l : list Z) :
  (forall t, f t = true -> g t = true) ->
  (length (List.filter f l) <= length (List.filter g l))%nat.
Proof.
  intros Hfg. induction l as [| t l IH]; [reflexivity |].
  cbn. destruct (f t) eqn:Hf.
  - rewrite (Hfg t Hf). cbn. lia.
  - destruct (g t); cbn; lia.
Qed.

Lemma sent_since_mono (a b : Z) (l : list Z) :
  a <= b -> (sent_since b l <= sent_since a l)%nat.
Proof.
  intros Hab. apply filter_length_mono. intros t Ht.
  apply Z.ltb_lt in Ht. apply Z.ltb_lt. lia.
Qed.

Lemma sent_since_filter (a b : Z) (l : list Z) :
  (sent_since a (List.filter (fun t => (b <? t)%Z) l) <= sent_since a l)%nat.
Proof.
  unfold sent_since. induction l as [| t l IH]; [reflexivity |].
  cbn. destruct (b <? t); cbn; destruct (a <? t); cbn; lia.
Qed.

Lemma sent_since_snoc (a t : Z) (l : list Z) :
  a < t -> sent_since a (l ++ [t]) = S (sent_since a l).
Proof.
  intros Hat. unfold sent_since. rewrite List.filter_app, length_app. cbn.
  apply Z.ltb_lt in Hat. rewrite Hat. cbn. lia.
Qed.

(** What [checkRateLimit] stores and when it passes. *)
Lemma checkRateLimit_spec (now : Z) (p : string) (m : gmap string (list Z)) :
  let recent :=
    List.filter (fun t => now - 24 * 60 * 60 * 1000 <? t) (default [] (m !! p)) in
  snd (checkRateLimit now p m) = <[p := recent]> m
  /\ (forall ok, fst (checkRateLimit now p m) = inr ok ->
        (sent_since (now - 60 * 60 * 1000) recent < maxSMSPerHour)%nat
        /\ (length recent < maxSMSPerDay)%nat).
Proof.
  intros recent. unfold checkRateLimit.
  assert (Hsends :
    default [] ((if m !! p is Some _ then m else <[p := []]> m) !! p)
    = default [] (m !! p)).
  { destruct (m !! p) eqn:Hp; [now rewrite Hp |]. now rewrite lookup_insert_eq. }
  assert (Hmap : forall l : list Z,
    <[p := l]> (if m !! p is Some _ then m else <[p := []]> m) = <[p := l]> m).
  { intros l. destruct (m !! p); [reflexivity | apply insert_insert_eq]. }
  rewrite Hsends, Hmap. fold recent.
  fold (sent_since (now - 60 * 60 * 1000) recent).
  destruct (Nat.leb_spec maxSMSPerHour (sent_since (now - 60 * 60 * 1000) recent));
    cbn [fst snd]; [split; [reflexivity | discriminate] |].
  destruct (Nat.leb_spec maxSMSPerDay (length recent));
    cbn [fst snd]; [split; [reflexivity | discriminate] |].
  split; [reflexivity | auto].
Qed.

(** X6. [checkRateLimit] replaces the list of the number by that list
    pruned to the last 24 hours (an absent list counts as empty) and
    touches no other number, whether it passes or throws; it throws the
    hourly message when the pruned list has ten or more sends of the last
    hour, else the daily message when it has fifty or more sends, else it
    returns [true]. *)
Theorem checkRateLimit_prunes (now : Z) (p : string) (m : gmap string (list Z)) :
  let recent :=
    List.filter (fun t => now - 24 * 60 * 60 * 1000 <? t) (default [] (m !! p)) in
  snd (checkRateLimit now p m) = <[p := recent]> m
  /\ fst (checkRateLimit now p m)
     = if Nat.leb maxSMSPerHour (sent_since (now - 60 * 60 * 1000) recent)
       then inl "Hourly SMS limit exceeded for this number"
       else if Nat.leb maxSMSPerDay (length recent)
       then inl "Daily SMS limit exceeded for this number"
       else inr true.
Proof.
  intros recent. unfold checkRateLimit.
  assert (Hsends :
    default [] ((if m !! p is Some _ then m else <[p := []]> m) !! p)
    = default [] (m !! p)).
  { destruct (m !! p) eqn:Hp; [now rewrite Hp |]. now rewrite lookup_insert_eq. }
  assert (Hmap : forall l : list Z,
    <[p := l]> (if m !! p is Some _ then m else <[p := []]> m) = <[p := l]> m).
  { intros l. destruct (m !! p); [reflexivity | apply insert_insert_eq]. }
  rewrite Hsends, Hmap. fold recent.
  fold (sent_since (now - 60 * 60 * 1000) recent).
  destruct (Nat.leb maxSMSPerHour (sent_since (now - 60 * 60 * 1000) recent));
    [split; reflexivity |].
  destruct (Nat.leb maxSMSPerDay (length recent)); split; reflexivity.
Qed.

Lemma count_occ_le_length (l : list string) (p : string) :
  (count_occ string_dec l p <= length l)%nat.
Proof.
  induction l as [| q l IH]; [reflexivity |].
  cbn. destruct (string_dec q p); lia.
Qed.

Lemma count_occ_delete (l : list string) (i : nat) (q p : string) :
  l !! i = Some q ->
  (count_occ string_dec (delete i l) p + (if string_dec q p then 1 else 0)
   = count_occ string_dec l p)%nat.
Proof.
  revert i. induction l as [| x l IH]; intros i Hi; [discriminate |].
  destruct i as [| i].
  - injection Hi as ->. cbn. destruct (string_dec q p); lia.
  - cbn in Hi. change (delete (S i) (x :: l)) with (x :: delete i l). cbn [count_occ].
    specialize (IH i Hi). destruct (string_dec x p), (string_dec q p); lia.
Qed.

(** A send that runs alone is a call followed by its answer. *)
Lemma send_in_two_steps
    (simulated : bool) (twilio : string + string) (now recorded : Z)
    (to message type : string) (s : state) :
  rateLimits (snd (send simulated twilio now recorded to message type s))
  = limits (run simulated [Call now to; Answer 0 recorded twilio]
              {| limits := rateLimits s; awaiting := [] |}).
Proof.
  unfold send, run. cbn [fold_left step limits awaiting]. unfold send_start.
  destruct (validatePhoneNumber to) as [e | formattedTo]; [reflexivity |].
  destruct (checkRateLimit now formattedTo (rateLimits s)) as [[e | ok] m];
    [reflexivity |].
  destruct simulated; [reflexivity |].
  destruct twilio as [e | sid]; reflexivity.
Qed.

Lemma overlap_inv_later (P : nat) (t t' : Z) (sv : service) :
  t <= t' -> overlap_inv P t sv -> overlap_inv P t' sv.
Proof.
  intros Ht Hinv p. destruct (Hinv p) as [Hh Hd]. split.
  - pose proof (sent_since_mono (t - 60 * 60 * 1000) (t' - 60 * 60 * 1000)
                  (default [] (limits sv !! p))). lia.
  - pose proof (sent_since_mono (t - 24 * 60 * 60 * 1000) (t' - 24 * 60 * 60 * 1000)
                  (default [] (limits sv !! p))). lia.
Qed.

Lemma overlap_inv_step (simulated : bool) (P : nat) (t : Z) (sv : service) (e : event) :
  overlap_inv P t sv ->
  t <= time_of e ->
  (length (awaiting (step simulated sv e)) <= P)%nat ->
  overlap_inv P (time_of e) (step simulated sv e).
Proof.
  intros Hinv Ht Hlen. apply (overlap_inv_later P t (time_of e)) in Hinv; [| exact Ht].
  clear Ht t. destruct e as [now to | i now twilio]; cbn [time_of] in *.
  - (* a call *)
    revert Hlen. cbn [step]. unfold send_start.
    destruct (validatePhoneNumber to) as [e | formattedTo].
    { cbn. rewrite app_nil_r. intros _. destruct sv. exact Hinv. }
    destruct (checkRateLimit_spec now formattedTo (limits sv)) as [Hm Hpass].
    destruct (checkRateLimit now formattedTo (limits sv)) as [checked m].
    cbn [fst snd] in Hm, Hpass. subst m.
    set (recent := List.filter (fun t => now - 24 * 60 * 60 * 1000 <? t)
                     (default [] (limits sv !! formattedTo))) in *.
    assert (Hpruned : forall a,
      a = awaiting sv ->
      overlap_inv P now {| limits := <[formattedTo := recent]> (limits sv);
                           awaiting := a |}).
    { intros a -> p. cbn [limits awaiting]. destruct (Hinv p) as [Hh Hd].
      destruct (decide (formattedTo = p)) as [<- | Hp].
      - rewrite lookup_insert_eq. cbn [default from_option id].
        pose proof (sent_since_filter (now - 60 * 60 * 1000)
                      (now - 24 * 60 * 60 * 1000)
                      (default [] (limits sv !! formattedTo))) as H1.
        pose proof (sent_since_filter (now - 24 * 60 * 60 * 1000)
                      (now - 24 * 60 * 60 * 1000)
                      (default [] (limits sv !! formattedTo))) as H2.
        fold recent in H1, H2. lia.
      - rewrite lookup_insert_ne by exact Hp. lia. }
    destruct checked as [e | ok].
    { cbn. intros _. apply Hpruned, app_nil_r. }
    destruct simulated.
    { cbn. intros _. apply Hpruned, app_nil_r. }
    cbn [awaiting limits]. intros Hlen p. cbn [awaiting limits].
    destruct (Hpass ok eq_refl) as [Hh Hd].
    destruct (decide (formattedTo = p)) as [<- | Hp].
    + rewrite lookup_insert_eq. cbn [default from_option id].
      pose proof (count_occ_le_length (awaiting sv ++ [formattedTo]) formattedTo).
      assert (sent_since (now - 24 * 60 * 60 * 1000) recent <= length recent)%nat
        by apply List.filter_length_le.
      lia.
    + rewrite lookup_insert_ne by exact Hp.
      destruct (Hpruned (awaiting sv) eq_refl p) as [Hh' Hd'].
      cbn [limits awaiting] in Hh', Hd'. rewrite lookup_insert_ne in Hh', Hd' by exact Hp.
      rewrite count_occ_app. cbn [count_occ].
      destruct (string_dec formattedTo p); [contradiction |]. lia.
  - (* an answer *)
    revert Hlen. cbn [step].
    destruct (awaiting sv !! i) as [formattedTo |] eqn:Hi; [| intros _; exact Hinv].
    intros _ p. cbn [awaiting limits]. destruct (Hinv p) as [Hh Hd].
    pose proof (count_occ_delete (awaiting sv) i formattedTo p Hi) as Hcount.
    destruct twilio as [e | sid]; cbn [send_resume].
    { destruct (string_dec formattedTo p); lia. }
    unfold recordSend. destruct (decide (formattedTo = p)) as [<- | Hp].
    + rewrite lookup_insert_eq. cbn [default from_option id].
      rewrite !sent_since_snoc by lia.
      destruct (string_dec formattedTo formattedTo); [lia | contradiction].
    + rewrite lookup_insert_ne by exact Hp.
      destruct (string_dec formattedTo p); [contradiction | lia].
Qed.

Lemma overlap_inv_run (simulated : bool) (P : nat) (es : list event) :
  forall (t : Z) (sv : service),
    overlap_inv P t sv ->
    clock_from t es = true ->
    overlap_at_most P simulated es sv = true ->
    forall later,
      t <= later ->
      forallb (fun e => time_of e <=? later) es = true ->
      overlap_inv P later (run simulated es sv).
Proof.
  induction es as [| e es IH]; intros t sv Hinv Hclock Hover later Hlater Hall.
  - cbn. now apply (overlap_inv_later P t).
  - cbn [clock_from overlap_at_most forallb] in Hclock, Hover, Hall.
    apply andb_prop in Hclock as [Hte Hclock], Hover as [Hlen Hover],
      Hall as [Hel Hall].
    apply Z.leb_le in Hte, Hel. apply Nat.leb_le in Hlen.
    cbn [run fold_left]. apply (IH (time_of e)); try assumption.
    now apply (overlap_inv_step simulated P t).
Qed.

(** X7. From a new service on, as long as at most [P] calls of [send]
    await Twilio at a time and the clock does not go back, no number has
    [maxSMSPerHour + P] = 10 + [P] or more sends recorded in an hour, nor
    [maxSMSPerDay + P] = 50 + [P] or more in a day, whatever the calls and
    the answers of Twilio.  Sends that run one after the other ([P] = 1)
    keep the limits 10 and 50. *)
Theorem sends_bounded_by_overlap
    (simulated : bool) (P : nat) (created later : Z) (es : list event) (p : string) :
  clock_from created es = true ->
  overlap_at_most P simulated es fresh = true ->
  created <= later ->
  forallb (fun e => time_of e <=? later) es = true ->
  let sends := default [] (limits (run simulated es fresh) !! p) in
  (sent_since (later - 60 * 60 * 1000) sends < maxSMSPerHour + P)%nat
  /\ (sent_since (later - 24 * 60 * 60 * 1000) sends < maxSMSPerDay + P)%nat.
Proof.
  intros Hclock Hover Hlater Hall sends.
  assert (Hfresh : overlap_inv P created fresh).
  { intros q. cbn. rewrite lookup_empty. cbn. unfold maxSMSPerHour, maxSMSPerDay. lia. }
  destruct (overlap_inv_run simulated P es created fresh Hfresh Hclock Hover
              later Hlater Hall p) as [Hh Hd].
  fold sends in Hh, Hd. lia.
Qed.

(** The bound is reached: two calls that both pass the check before
    either is answered leave eleven sends of the number in one hour. *)
Example overlapping_sends_pass_the_limit :
  overlap_at_most 2 false nine_then_two fresh = true
  /\ sent_since (1700000600300 - 60 * 60 * 1000)
       (default [] (limits (run false nine_then_two fresh) !! "+15551234567"))
     = 11%nat.
Proof. vm_compute. split; reflexivity. Qed.


End SMSService.

Lemma validatePhoneNumber_shape_witness :
  exists d,
    "+15551234567" = "+1" +:+ d /\ String.length d = 10%nat /\ SMS.digits_only d = d.
Proof.
  apply (validatePhoneNumber_shape "(555) 123-4567" "+15551234567"). reflexivity.
Defined.

Lemma validatePhoneNumber_idempotent_witness :
  SMS.validatePhoneNumber "+15551234567" = inr "+15551234567".
Proof.
  apply (validatePhoneNumber_idempotent "1 555 123 4567" "+15551234567"). reflexivity.
Defined.

Lemma validatePhoneNumber_refuses_long_witness :
  SMS.validatePhoneNumber "+44 7911 123456" = inl "Invalid phone number format".
Proof.
  apply (validatePhoneNumber_refuses_long "+44 7911 123456").
  vm_compute. lia.
Defined.

Lemma sends_bounded_by_overlap_witness :
  let sends :=
    default [] (SMS.limits (SMS.run false SMS.nine_then_two SMS.fresh) !! "+15551234567") in
  (SMS.sent_since (1700000600300 - 60 * 60 * 1000) sends < SMS.maxSMSPerHour + 2)%nat
  /\ (SMS.sent_since (1700000600300 - 24 * 60 * 60 * 1000) sends
      < SMS.maxSMSPerDay + 2)%nat.
Proof.
  apply (sends_bounded_by_overlap false 2 1700000000000 1700000600300
           SMS.nine_then_two "+15551234567").
  - vm_compute. reflexivity.
  - vm_compute. reflexivity.
  - lia.
  - vm_compute. reflexivity.
Defined.

(** ** sendBulkEmails *)

Section BulkEmailsProperties.

Context (development : bool) (templateFn : string -> string + string)
        (sendMultiple : nat -> option string).

Lemma bulk_loop_spec (rounds j : nat) (recipients : list recipient)
    (results : list bulk_result) :
  (length recipients <= rounds * 100 + j * 100)%nat ->
  results
    = imap (fun k => report (send_batch development templateFn sendMultiple (k / 100 * 100)))
        (take (j * 100) recipients) ->
  bulk_loop development templateFn sendMultiple rounds (j * 100) recipients results
    = imap (fun k => report (send_batch development templateFn sendMultiple (k / 100 * 100)))
        recipients.
Proof.
  revert j results. induction rounds as [| rounds IH]; intros j results Hfuel Hres.
  - cbn. rewrite Hres, take_ge by lia. reflexivity.
  - cbn [bulk_loop]. destruct (Nat.ltb_spec (j * 100) (length recipients)) as [Hlt | Hge];
      [| rewrite Hres, take_ge by lia; reflexivity].
    replace (j * 100 + 100)%nat with (S j * 100)%nat by lia.
    apply IH; [lia |].
    replace (S j * 100)%nat with (j * 100 + 100)%nat by lia.
    rewrite <- take_take_drop, imap_app, length_take_le by lia.
    unfold slice. replace (j * 100 + 100 - j * 100)%nat with 100%nat by lia.
    assert (Hbatch :
      imap (fun n => report (send_batch development templateFn sendMultiple
                               ((j * 100 + n) / 100 * 100)))
        (take 100 (drop (j * 100) recipients))
      = map (report (send_batch development templateFn sendMultiple (j * 100)))
          (take 100 (drop (j * 100) recipients))).
    { rewrite <- imap_const. apply imap_ext. intros n r Hn.
      apply lookup_lt_Some in Hn. rewrite length_take in Hn.
      replace ((j * 100 + n) / 100)%nat with j; [reflexivity |].
      apply Nat.div_unique with n; lia. }
    rewrite Hbatch, <- Hres.
    destruct (send_batch development templateFn sendMultiple (j * 100)); reflexivity.
Qed.

Lemma sendBulkEmails_spec (recipients : list recipient) :
  sendBulkEmails development templateFn sendMultiple recipients
  = imap (fun k => report (send_batch development templateFn sendMultiple (k / 100 * 100)))
      recipients.
Proof.
  unfold sendBulkEmails. apply (bulk_loop_spec (length recipients) 0); [lia |].
  reflexivity.
Qed.

(** X9. [sendBulkEmails] reports every recipient exactly once and in the
    order given, whatever the batches did: the e-mails of the results are
    the e-mails of the recipients. *)
Theorem sendBulkEmails_reports_every_recipient (recipients : list recipient) :
  map res_email (sendBulkEmails development templateFn sendMultiple recipients)
  = map rcpt_email recipients.
Proof.
  rewrite sendBulkEmails_spec.
  change (map res_email) with (fmap (M := list) res_email).
  rewrite fmap_imap.
  change (map rcpt_email recipients) with (rcpt_email <$> recipients).
  rewrite <- imap_const. apply imap_ext. intros k r _.
  cbn. destruct (send_batch _ _ _ _); reflexivity.
Qed.

(** X10. The entry at position [k] carries the outcome of the batch that
    starts at [k / 100 * 100]: a batch that fails marks its own (at most
    100) recipients [failed] with the message of the error, and the
    batches after it are still sent. *)
Theorem sendBulkEmails_batch_outcomes (recipients : list recipient) (k : nat) :
  sendBulkEmails development templateFn sendMultiple recipients !! k
  = report (send_batch development templateFn sendMultiple (k / 100 * 100))
      <$> recipients !! k.
Proof. rewrite sendBulkEmails_spec, list_lookup_imap. reflexivity. Qed.

End BulkEmailsProperties.

(** ** The e-mail service: send *)

(** With the html of a template and no option naming a key of [msg], the
    service's [send] is the [send] the controller calls. *)
Lemma send_of_template (cfg : config) (cx : ctx) (to subject html : string) (w : world) :
  EmailService.send cfg cx to subject (Some html) EmailService.no_options w
  = send cfg cx to subject w.
Proof.
  unfold EmailService.send, EmailService.preview, EmailService.logEmail,
    send, sgMail_send, logEmail. js_unfold.
  destruct (isDevelopment cfg); [reflexivity |].
  destruct (sendgrid_ok cx); reflexivity.
Qed.

(** X11. Every [send] appends exactly one row to [email_logs] and changes
    nothing else.  In development a call with an html returns with a row
    [development], and a call without one throws, at [html.substring],
    with a row [failed]; outside development the call returns with a row
    [sent] when SendGrid accepts the message and throws with a row
    [failed] when it refuses.  The row of a return carries [to], [from]
    and [subject] of [msg], which [options] may replace; the row [failed]
    carries the arguments. *)
Theorem email_send_logs_once
    (cfg : config) (cx : ctx) (to subject : string) (html : option string)
    (options : EmailService.send_options) (w : world) :
  let r := EmailService.send cfg cx to subject html options w in
  let msg_row st :=
    {| log_to := default to (EmailService.opt_to options);
       log_from := default (from cfg) (EmailService.opt_from options);
       log_subject := default subject (EmailService.opt_subject options);
       log_status := st |} in
  let failed_row :=
    {| log_to := to; log_from := from cfg; log_subject := subject;
       log_status := "failed" |} in
  exists row,
    snd r
    = {| users := users w; nutrition := nutrition w; audit_logs := audit_logs w;
         email_logs := email_logs w ++ [row]; redis := redis w |}
    /\ (isDevelopment cfg = true /\ html <> None
          /\ fst r = Val tt /\ row = msg_row "development"
        \/ isDevelopment cfg = true /\ html = None
          /\ fst r = Exn "TypeError" /\ row = failed_row
        \/ isDevelopment cfg = false /\ sendgrid_ok cx = true
          /\ fst r = Val tt /\ row = msg_row "sent"
        \/ isDevelopment cfg = false /\ sendgrid_ok cx = false
          /\ fst r = Exn "SendGridError" /\ row = failed_row).
Proof.
  intros r msg_row failed_row. subst r.
  unfold EmailService.send, EmailService.preview, EmailService.logEmail, sgMail_send.
  js_unfold.
  destruct (isDevelopment cfg).
  - destruct html as [h |]; cbn.
    + exists (msg_row "development"). split; [reflexivity |].
      left. repeat split. discriminate.
    + exists failed_row. split; [reflexivity |].
      right. left. repeat split.
  - destruct (sendgrid_ok cx); cbn.
    + exists (msg_row "sent"). split; [reflexivity |].
      right. right. left. repeat split.
    + exists failed_row. split; [reflexivity |].
      right. right. right. repeat split.
Qed.

(** ** resetPasswordRequest *)

Section ResetPasswordRequest.

Context (L : libs) (cfg : config).

(** X12. A reset request for an unknown e-mail and one for a registered
    e-mail whose message is dispatched get the same answer, 200 with the
    same acknowledgement; the request for the unknown e-mail writes
    nothing. *)
Theorem resetPasswordRequest_same_answer
    (cx1 cx2 : ctx) (w1 w2 : world) (email1 email2 : string) (u : user) :
  List.find (fun r => String.eqb (user_email r) (toLowerCase email1)) (users w1) = None ->
  List.find (fun r => String.eqb (user_email r) (toLowerCase email2)) (users w2) = Some u ->
  (isDevelopment cfg || sendgrid_ok cx2)%bool = true ->
  resetPasswordRequest L cfg cx1 email1 w1
    = (Ret {| status := 200; body := reset_ack |}, w1)
  /\ answer (resetPasswordRequest L cfg cx2 email2 w2)
     = answer (resetPasswordRequest L cfg cx1 email1 w1).
Proof.
  intros Hnone Hsome Hmail.
  unfold resetPasswordRequest, sendPasswordResetEmail, send, sgMail_send, logEmail.
  js_unfold. rewrite Hnone, Hsome. cbn.
  split; [reflexivity |].
  destruct (isDevelopment cfg); cbn; [reflexivity |].
  cbn in Hmail. rewrite Hmail. reflexivity.
Qed.

(** X13. When the reset e-mail of a registered address is refused by
    SendGrid, the request is answered 500, unlike the request for an
    unknown address, and the mirror entry of the token that was never
    delivered stays in the session store for an hour. *)
Theorem resetPasswordRequest_dispatch_failure
    (cx : ctx) (w : world) (email : string) (u : user) :
  List.find (fun r => String.eqb (user_email r) (toLowerCase email)) (users w) = Some u ->
  isDevelopment cfg = false ->
  sendgrid_ok cx = false ->
  let token :=
    jwt_sign L cx (user_id u) "password_reset" (Some (user_email u)) (JWT_SECRET cfg) 3600 in
  answer (resetPasswordRequest L cfg cx email w)
    = Some {| status := 500; body := error "Failed to process request" |}
  /\ redis (after (resetPasswordRequest L cfg cx email w)) !! ("reset_" +:+ token)
     = Some {| value := RText (user_id u); expires_at := now_s cx + 3600 |}.
Proof.
  intros Hsome Hdev Hmail token.
  unfold resetPasswordRequest, sendPasswordResetEmail, send, sgMail_send, logEmail.
  js_unfold. rewrite Hsome. cbn. rewrite Hdev, Hmail. cbn.
  split; [reflexivity |]. apply lookup_insert_eq.
Qed.

End ResetPasswordRequest.

Lemma resetPasswordRequest_same_answer_witness :
  let cfg := sample_cfg false true in
  resetPasswordRequest sample_libs cfg (sample_ctx 1700000000000 "u2" true)
    "nobody@x.com" (world_of [alice])
    = (Ret {| status := 200; body := reset_ack |}, world_of [alice])
  /\ answer (resetPasswordRequest sample_libs cfg (sample_ctx 1700000000000 "u2" true)
               "A@B.com" (world_of [alice]))
     = answer (resetPasswordRequest sample_libs cfg (sample_ctx 1700000000000 "u2" true)
                 "nobody@x.com" (world_of [alice])).
Proof.
  apply (resetPasswordRequest_same_answer sample_libs (sample_cfg false true)
           (sample_ctx 1700000000000 "u2" true) (sample_ctx 1700000000000 "u2" true)
           (world_of [alice]) (world_of [alice]) "nobody@x.com" "A@B.com" alice);
    reflexivity.
Defined.

Lemma resetPasswordRequest_dispatch_failure_witness :
  let cfg := sample_cfg false false in
  let cx := sample_ctx 1700000000000 "u2" false in
  answer (resetPasswordRequest sample_libs cfg cx "a@b.com" (world_of [alice]))
    = Some {| status := 500; body := error "Failed to process request" |}
  /\ redis (after (resetPasswordRequest sample_libs cfg cx "a@b.com" (world_of [alice])))
       !! ("reset_" +:+ alice_reset_token)
     = Some {| value := RText "u1"; expires_at := 1700000000 + 3600 |}.
Proof.
  apply (resetPasswordRequest_dispatch_failure sample_libs (sample_cfg false false)
           (sample_ctx 1700000000000 "u2" false) (world_of [alice]) "a@b.com" alice);
    reflexivity.
Defined.

(** ** The life of a session record *)

Section Sessions.

Context (L : libs) (cfg : config).

(** Without a live session record for its subject a refresh token is
    refused. *)
Lemma refreshTokens_without_session
    (cx : ctx) (w : world) (rt : string) (d : claims) :
  truthy rt = true ->
  jwt_decode L rt = Some d ->
  redis w !! ("refresh_" +:+ claim_id d) ≫= live cx = None ->
  refreshTokens L cfg cx rt w
  = (Ret {| status := 401; body := error "Invalid refresh token" |}, w).
Proof.
  intros Htruthy Hdec Hgone.
  unfold refreshTokens, jwt_verify. js_unfold. rewrite Htruthy, Hdec.
  destruct (jwt_signed_by L (JWT_REFRESH_SECRET cfg) rt); [| reflexivity].
  destruct (claim_exp d) as [e|]; cbv beta iota.
  - destruct (e <=? now_s cx); [reflexivity |].
    cbn. rewrite Hgone. reflexivity.
  - cbn. rewrite Hgone. reflexivity.
Qed.

(** What a login without second factor does. *)
Lemma login_issues_tokens
    (cx : ctx) (w : world) (email password : string) (u : user) :
  List.find (fun r => String.eqb (user_email r) (toLowerCase email)) (users w) = Some u ->
  bcrypt_compare L password (user_password u) = true ->
  (user_two_factor_enabled u && truthy_opt (user_two_factor_secret u))%bool = false ->
  let tk := generateTokens L cfg cx (user_id u) in
  (exists profile,
     answer (login L cfg cx email password w)
     = Some {| status := 200;
               body := JObj [("user", profile);
                             ("accessToken", JStr (accessToken tk));
                             ("refreshToken", JStr (refreshToken tk));
                             ("message", JStr "Login successful")] |})
  /\ redis (after (login L cfg cx email password w))
     = <["refresh_" +:+ user_id u :=
           {| value := session_of tk u;
              expires_at := now_s cx + 7 * 24 * 60 * 60 |}]> (redis w)
  /\ users (after (login L cfg cx email password w))
     = map (fun r => if String.eqb (user_id r) (user_id u) then touch cx true true r else r)
         (users w).
Proof.
  intros Hfind Hpw H2fa tk.
  unfold login. js_unfold. rewrite Hfind. cbn. rewrite Hpw, H2fa. cbn.
  split; [eexists; reflexivity |]. split; reflexivity.
Qed.

(** A row found by e-mail is found by its identifier after an update that
    keeps identifiers. *)
Lemma find_by_id_after_update
    (p : user -> bool) (f : user -> user) (uid : string) (us : list user) (u : user) :
  (forall r, user_id (f r) = user_id r) ->
  List.find p us = Some u ->
  exists u',
    List.find (fun r => String.eqb (user_id r) (user_id u))
      (map (fun r => if String.eqb (user_id r) uid then f r else r) us) = Some u'.
Proof.
  intros Hid Hfind. apply List.find_some in Hfind as [Hin _].
  induction us as [| r us IH]; [destruct Hin |].
  cbn. destruct (String.eqb (user_id (if String.eqb (user_id r) uid then f r else r))
                   (user_id u)) eqn:Heq; [eauto |].
  destruct Hin as [-> | Hin]; [| exact (IH Hin)].
  destruct (String.eqb (user_id u) uid); rewrite ?Hid, String.eqb_refl in Heq;
    discriminate.
Qed.

(** X14. After a successful [resetPassword], a refresh token of the
    subject of the reset token is refused, 401
    [{ error: 'Invalid refresh token' }], at any time: the session record
    was deleted. *)
Theorem resetPassword_ends_session
    (cx1 cx2 : ctx) (w w1 : world) (token newPassword rt : string) (b : json)
    (dt dr : claims) :
  resetPassword L cfg cx1 token newPassword w
    = (Ret {| status := 200; body := b |}, w1) ->
  jwt_decode L token = Some dt ->
  truthy rt = true ->
  jwt_decode L rt = Some dr ->
  claim_id dr = claim_id dt ->
  refreshTokens L cfg cx2 rt w1
  = (Ret {| status := 401; body := error "Invalid refresh token" |}, w1).
Proof.
  intros Hreset Hdt Htruthy Hdr Hsame.
  destruct (resetPassword_success _ _ _ _ _ _ _ _ Hreset) as (d & Hd & _ & Hredis).
  assert (d = dt) as -> by congruence.
  apply refreshTokens_without_session with dr; [exact Htruthy | exact Hdr |].
  rewrite Hredis, Hsame, lookup_delete_eq. reflexivity.
Qed.

(** X15. After a logout with a decodable access token, a refresh token of
    the user who logged out is refused, 401
    [{ error: 'Invalid refresh token' }], at any time. *)
Theorem logout_ends_session
    (cx1 cx2 : ctx) (w : world) (userId token rt : string) (d dr : claims) :
  jwt_decode L token = Some d ->
  truthy rt = true ->
  jwt_decode L rt = Some dr ->
  claim_id dr = userId ->
  refreshTokens L cfg cx2 rt (after (logout L cx1 userId token w))
  = (Ret {| status := 401; body := error "Invalid refresh token" |},
     after (logout L cx1 userId token w)).
Proof.
  intros Hd Htruthy Hdr Hsame.
  apply refreshTokens_without_session with dr; [exact Htruthy | exact Hdr |].
  rewrite Hsame. unfold logout. js_unfold. rewrite Hd.
  destruct (claim_exp d) as [e|]; cbn; [destruct (0 <? e - now_s cx1); cbn |];
    rewrite lookup_delete_eq; reflexivity.
Qed.

(** X16. The session record a login stores lives 604800 seconds whatever
    [JWT_REFRESH_EXPIRE] is: from then on a refresh token of that user is
    refused, 401 [{ error: 'Invalid refresh token' }], also when its own
    expiry claim lies further in the future. *)
Theorem session_record_expires
    (cx1 cx2 : ctx) (w : world) (email password rt : string) (u : user) (dr : claims) :
  List.find (fun r => String.eqb (user_email r) (toLowerCase email)) (users w) = Some u ->
  bcrypt_compare L password (user_password u) = true ->
  (user_two_factor_enabled u && truthy_opt (user_two_factor_secret u))%bool = false ->
  now_s cx1 + 604800 <= now_s cx2 ->
  truthy rt = true ->
  jwt_decode L rt = Some dr ->
  claim_id dr = user_id u ->
  refreshTokens L cfg cx2 rt (after (login L cfg cx1 email password w))
  = (Ret {| status := 401; body := error "Invalid refresh token" |},
     after (login L cfg cx1 email password w)).
Proof.
  intros Hfind Hpw H2fa Hlate Htruthy Hdr Hsame.
  destruct (login_issues_tokens cx1 w email password u Hfind Hpw H2fa) as (_ & Hredis & _).
  apply refreshTokens_without_session with dr; [exact Htruthy | exact Hdr |].
  rewrite Hredis, Hsame, lookup_insert_eq. cbn. unfold live. cbn.
  match goal with
  | |- context [now_s cx2 <? ?t] => destruct (Z.ltb_spec (now_s cx2) t)
  end; [lia | reflexivity].
Qed.

(** X17. The refresh token a login returns is accepted by [refreshTokens]
    as long as neither the token nor the session record has expired,
    provided the codec reads back the claims it signed: the answer is 200
    with the pair [generateTokens] mints at that time. *)
Theorem login_then_refresh
    (cx1 cx2 : ctx) (w : world) (email password : string) (u : user) :
  List.find (fun r => String.eqb (user_email r) (toLowerCase email)) (users w) = Some u ->
  bcrypt_compare L password (user_password u) = true ->
  (user_two_factor_enabled u && truthy_opt (user_two_factor_secret u))%bool = false ->
  let rt := refreshToken (generateTokens L cfg cx1 (user_id u)) in
  truthy rt = true ->
  jwt_decode L rt
    = Some {| claim_id := user_id u; claim_type := "refresh"; claim_email := None;
              claim_iat := now_s cx1;
              claim_exp := Some (now_s cx1 + refresh_lifetime cfg) |} ->
  jwt_signed_by L (JWT_REFRESH_SECRET cfg) rt = true ->
  now_s cx2 < now_s cx1 + refresh_lifetime cfg ->
  now_s cx2 < now_s cx1 + 604800 ->
  answer (refreshTokens L cfg cx2 rt (after (login L cfg cx1 email password w)))
  = Some {| status := 200;
            body := JObj
              [("accessToken", JStr (accessToken (generateTokens L cfg cx2 (user_id u))));
               ("refreshToken", JStr (refreshToken (generateTokens L cfg cx2 (user_id u))))] |}.
Proof.
  intros Hfind Hpw H2fa rt Htruthy Hdec Hsig Hfresh Hlive.
  destruct (login_issues_tokens cx1 w email password u Hfind Hpw H2fa)
    as (_ & Hredis & Husers).
  destruct (find_by_id_after_update _ (touch cx1 true true) (user_id u) _ _
              (fun r => eq_refl) Hfind) as [u' Hu'].
  rewrite <- Husers in Hu'.
  generalize dependent (after (login L cfg cx1 email password w)).
  intros w1 Hredis _ Hu'.
  unfold refreshTokens, jwt_verify. js_unfold. fold rt.
  rewrite Htruthy, Hdec, Hsig. cbv beta iota. cbn [claim_exp claim_id].
  destruct (Z.leb_spec (now_s cx1 + refresh_lifetime cfg) (now_s cx2)); [lia |].
  cbn. rewrite Hredis, lookup_insert_eq. cbn.
  unfold live. cbn.
  match goal with
  | |- context [now_s cx2 <? ?t] => destruct (Z.ltb_spec (now_s cx2) t)
  end; [| lia].
  cbn. unfold strict_neq. fold rt. rewrite String.eqb_refl. cbn.
  rewrite Hu'. reflexivity.
Qed.

End Sessions.

Lemma resetPassword_ends_session_witness :
  let cfg := sample_cfg false true in
  let r1 := resetPassword sample_libs cfg (sample_ctx 1700000100000 "u2" true)
              alice_reset_token "N3w!Passw0rd" reset_pending in
  refreshTokens sample_libs cfg (sample_ctx 1700000200000 "u2" true) alice_refresh (after r1)
  = (Ret {| status := 401; body := error "Invalid refresh token" |}, after r1).
Proof.
  apply (resetPassword_ends_session sample_libs (sample_cfg false true)
           (sample_ctx 1700000100000 "u2" true) (sample_ctx 1700000200000 "u2" true)
           reset_pending _ alice_reset_token "N3w!Passw0rd" alice_refresh
           (JObj [("message",
                   JStr "Password reset successfully. Please login with your new password.")])
           {| claim_id := "u1"; claim_type := "password_reset";
              claim_email := Some "a@b.com"; claim_iat := 1700000000;
              claim_exp := Some 1700003600 |}
           {| claim_id := "u1"; claim_type := "refresh"; claim_email := None;
              claim_iat := 1700000000; claim_exp := Some 1700604800 |});
    vm_compute; reflexivity.
Defined.

Lemma logout_ends_session_witness :
  let w1 := after (logout sample_libs (sample_ctx 1700000100000 "u2" true) "u1"
                     "access|u1|-|1700000000|1700000900|s3cret" (alice_session 1700000000)) in
  refreshTokens sample_libs (sample_cfg false true) (sample_ctx 1700000200000 "u2" true)
    alice_refresh w1
  = (Ret {| status := 401; body := error "Invalid refresh token" |}, w1).
Proof.
  apply (logout_ends_session sample_libs (sample_cfg false true)
           (sample_ctx 1700000100000 "u2" true) (sample_ctx 1700000200000 "u2" true)
           (alice_session 1700000000) "u1" "access|u1|-|1700000000|1700000900|s3cret"
           alice_refresh
           {| claim_id := "u1"; claim_type := "access"; claim_email := None;
              claim_iat := 1700000000; claim_exp := Some 1700000900 |}
           {| claim_id := "u1"; claim_type := "refresh"; claim_email := None;
              claim_iat := 1700000000; claim_exp := Some 1700604800 |});
    reflexivity.
Defined.

Lemma session_record_expires_witness :
  let cfg := {| JWT_SECRET := "s3cret"; JWT_REFRESH_SECRET := "r3fresh";
                JWT_EXPIRE := None; JWT_REFRESH_EXPIRE := Some 2592000;
                EMAIL_FROM := None; isDevelopment := true;
                users_email_unique := false |} in
  let w1 := after (login sample_libs cfg (sample_ctx 1700000000000 "u2" true)
                     "a@b.com" "Str0ng!Pass" (world_of [alice])) in
  refreshTokens sample_libs cfg (sample_ctx 1700604800000 "u2" true)
    "refresh|u1|-|1700000000|1702592000|r3fresh" w1
  = (Ret {| status := 401; body := error "Invalid refresh token" |}, w1).
Proof.
  apply (session_record_expires sample_libs
           {| JWT_SECRET := "s3cret"; JWT_REFRESH_SECRET := "r3fresh";
              JWT_EXPIRE := None; JWT_REFRESH_EXPIRE := Some 2592000;
              EMAIL_FROM := None; isDevelopment := true;
              users_email_unique := false |}
           (sample_ctx 1700000000000 "u2" true) (sample_ctx 1700604800000 "u2" true)
           (world_of [alice]) "a@b.com" "Str0ng!Pass"
           "refresh|u1|-|1700000000|1702592000|r3fresh" alice
           {| claim_id := "u1"; claim_type := "refresh"; claim_email := None;
              claim_iat := 1700000000; claim_exp := Some 1702592000 |});
    reflexivity.
Defined.

Lemma login_then_refresh_witness :
  let cfg := sample_cfg false true in
  let w1 := after (login sample_libs cfg (sample_ctx 1700000000000 "u2" true)
                     "a@b.com" "Str0ng!Pass" (world_of [alice])) in
  answer (refreshTokens sample_libs cfg (sample_ctx 1700000100000 "u2" true)
            alice_refresh w1)
  = Some {| status := 200;
            body := JObj
              [("accessToken", JStr "access|u1|-|1700000100|1700001000|s3cret");
               ("refreshToken", JStr "refresh|u1|-|1700000100|1700604900|r3fresh")] |}.
Proof.
  apply (login_then_refresh sample_libs (sample_cfg false true)
           (sample_ctx 1700000000000 "u2" true) (sample_ctx 1700000100000 "u2" true)
           (world_of [alice]) "a@b.com" "Str0ng!Pass" alice);
    reflexivity.
Defined.

(** ** The login challenge is consumed *)

Section ChallengeConsumed.

Context (L : libs) (cfg : config).

(** What a successful verification tells: the token decodes to a challenge
    token and the challenge entry of its subject has been deleted. *)
Lemma verifyTwoFactor_success
    (cx : ctx) (w w' : world) (tempToken code : string) (b : json) :
  verifyTwoFactor L cfg cx tempToken code w
    = (Ret {| status := 200; body := b |}, w') ->
  exists decoded,
    jwt_decode L tempToken = Some decoded
    /\ claim_type decoded = "2fa_temp"
    /\ redis w' !! ("2fa_temp_" +:+ claim_id decoded) = None.
Proof.
  intros H. unfold verifyTwoFactor, jwt_verify in H. revert H. js_unfold. intros H.
  js_invert H.
  all: injection H as _ <-.
  all: match goal with
       | Hd : jwt_decode _ _ = Some ?c |- _ => exists c
       end.
  all: split; [first [reflexivity | assumption] |].
  all: split;
         [match goal with
          | Ht : strict_neq _ _ = false |- _ =>
              now apply negb_false_iff, String.eqb_eq in Ht
          end |].
  all: match goal with
       | Hu : List.find _ _ = Some ?u |- _ =>
           apply List.find_some in Hu as [_ Hu]; apply String.eqb_eq in Hu
       end.
  all: cbn; rewrite lookup_insert_ne by apply refresh_key_not_challenge.
  all: match goal with
       | Hu : user_id _ = claim_id _ |- _ => rewrite Hu
       end.
  all: apply lookup_delete_eq.
Qed.

(** X18. Once [verifyTwoFactor] has succeeded with a challenge token, the
    same token is refused, 401 [{ error: 'Invalid or expired token' }],
    whatever the code and the clock, and nothing is written. *)
Theorem two_factor_challenge_single_use
    (cx1 cx2 : ctx) (w w1 : world) (tempToken code1 code2 : string) (b : json) :
  verifyTwoFactor L cfg cx1 tempToken code1 w
    = (Ret {| status := 200; body := b |}, w1) ->
  verifyTwoFactor L cfg cx2 tempToken code2 w1
  = (Ret {| status := 401; body := error "Invalid or expired token" |}, w1).
Proof.
  intros Hfirst.
  destruct (verifyTwoFactor_success _ _ _ _ _ _ Hfirst) as (d & Hdec & Htype & Hgone).
  unfold verifyTwoFactor, jwt_verify. js_unfold. rewrite Hdec.
  destruct (jwt_signed_by L (JWT_SECRET cfg) tempToken); [| reflexivity].
  destruct (claim_exp d) as [e|]; cbv beta iota.
  - destruct (e <=? now_s cx2); [reflexivity |].
    cbn. rewrite Htype. cbn. rewrite Hgone. reflexivity.
  - cbn. rewrite Htype. cbn. rewrite Hgone. reflexivity.
Qed.

End ChallengeConsumed.

Lemma two_factor_challenge_single_use_witness :
  let cfg := sample_cfg false true in
  let w := challenge_world (with_2fa true (Some "JBSWY3DPEHPK3PXP") alice) in
  let code := sample_totp "JBSWY3DPEHPK3PXP" 56666668 in
  let r1 := verifyTwoFactor sample_libs cfg (sample_ctx 1700000060000 "u2" true)
              challenge_token code w in
  option_map status (answer r1) = Some 200
  /\ verifyTwoFactor sample_libs cfg (sample_ctx 1700000070000 "u2" true)
       challenge_token code (after r1)
     = (Ret {| status := 401; body := error "Invalid or expired token" |}, after r1).
Proof.
  split; [vm_compute; reflexivity |].
  apply (two_factor_challenge_single_use sample_libs (sample_cfg false true)
           (sample_ctx 1700000060000 "u2" true) (sample_ctx 1700000070000 "u2" true)
           (challenge_world (with_2fa true (Some "JBSWY3DPEHPK3PXP") alice)) _
           challenge_token (sample_totp "JBSWY3DPEHPK3PXP" 56666668)
           (sample_totp "JBSWY3DPEHPK3PXP" 56666668)
           (body (default {| status := 0; body := JNull |}
                    (answer (verifyTwoFactor sample_libs (sample_cfg false true)
                               (sample_ctx 1700000060000 "u2" true) challenge_token
                               (sample_totp "JBSWY3DPEHPK3PXP" 56666668)
                               (challenge_world
                                  (with_2fa true (Some "JBSWY3DPEHPK3PXP") alice))))))).
  vm_compute. reflexivity.
Defined.

(** ** From the reset request to the new password *)

Section ResetRoundTrip.

Context (L : libs) (cfg : config).

(** What a dispatched reset request leaves in the stores. *)
Lemma resetPasswordRequest_stores
    (cx : ctx) (w : world) (email : string) (u : user) :
  List.find (fun r => String.eqb (user_email r) (toLowerCase email)) (users w) = Some u ->
  (isDevelopment cfg || sendgrid_ok cx)%bool = true ->
  let token :=
    jwt_sign L cx (user_id u) "password_reset" (Some (user_email u)) (JWT_SECRET cfg) 3600 in
  users (after (resetPasswordRequest L cfg cx email w)) = users w
  /\ redis (after (resetPasswordRequest L cfg cx email w))
     = <["reset_" +:+ token :=
           {| value := RText (user_id u); expires_at := now_s cx + 3600 |}]> (redis w).
Proof.
  intros Hfind Hmail token.
  unfold resetPasswordRequest, sendPasswordResetEmail, send, sgMail_send, logEmail.
  js_unfold. rewrite Hfind. cbn.
  destruct (isDevelopment cfg); cbn; [split; reflexivity |].
  cbn in Hmail. rewrite Hmail. cbn. split; reflexivity.
Qed.

(** X19. The token minted by [resetPasswordRequest] is accepted by
    [resetPassword] within the hour, provided the codec reads back the
    claims it signed and both e-mails are dispatched: the answer is 200,
    every row of the subject gets the hash of the new password, and both
    the mirror entry and the session record of the subject are gone. *)
Theorem reset_request_then_confirm
    (cx1 cx2 : ctx) (w : world) (email newPassword : string) (u : user) :
  List.find (fun r => String.eqb (user_email r) (toLowerCase email)) (users w) = Some u ->
  (isDevelopment cfg || sendgrid_ok cx1)%bool = true ->
  (isDevelopment cfg || sendgrid_ok cx2)%bool = true ->
  let token :=
    jwt_sign L cx1 (user_id u) "password_reset" (Some (user_email u)) (JWT_SECRET cfg) 3600 in
  truthy (user_id u) = true ->
  jwt_decode L token
    = Some {| claim_id := user_id u; claim_type := "password_reset";
              claim_email := Some (user_email u); claim_iat := now_s cx1;
              claim_exp := Some (now_s cx1 + 3600) |} ->
  jwt_signed_by L (JWT_SECRET cfg) token = true ->
  now_s cx2 < now_s cx1 + 3600 ->
  isValid (validatePassword L newPassword) = true ->
  let r := resetPassword L cfg cx2 token newPassword
             (after (resetPasswordRequest L cfg cx1 email w)) in
  answer r
    = Some {| status := 200;
              body := JObj [("message",
                JStr "Password reset successfully. Please login with your new password.")] |}
  /\ users (after r)
     = map (fun r => if String.eqb (user_id r) (user_id u)
                     then set_password cx2 (bcrypt_hash L newPassword 10 (salt cx2)) r
                     else r) (users w)
  /\ redis (after r) !! ("reset_" +:+ token) = None
  /\ redis (after r) !! ("refresh_" +:+ user_id u) = None.
Proof.
  intros Hfind Hmail1 Hmail2 token Hid Hdec Hsig Hfresh Hvalid.
  destruct (resetPasswordRequest_stores cx1 w email u Hfind Hmail1) as [Husers Hredis].
  fold token in Hredis.
  destruct (find_by_id_after_update _
              (set_password cx2 (bcrypt_hash L newPassword 10 (salt cx2)))
              (user_id u) _ _ (fun r => eq_refl) Hfind) as [u' Hu'].
  rewrite <- Husers in Hu'. rewrite <- Husers.
  generalize dependent (after (resetPasswordRequest L cfg cx1 email w)).
  intros w1 _ Hredis Hu'.
  assert (Hrun : exists w2,
    resetPassword L cfg cx2 token newPassword w1
    = (Ret {| status := 200;
              body := JObj [("message",
                JStr "Password reset successfully. Please login with your new password.")] |},
       w2)
    /\ users w2
       = map (fun r => if String.eqb (user_id r) (user_id u)
                       then set_password cx2 (bcrypt_hash L newPassword 10 (salt cx2)) r
                       else r) (users w1)
    /\ redis w2
       = delete ("refresh_" +:+ user_id u) (delete ("reset_" +:+ token) (redis w1))).
  { unfold resetPassword, jwt_verify, sendPasswordChangedEmail, send, sgMail_send, logEmail.
    js_unfold. rewrite Hdec, Hsig. cbv beta iota. cbn [claim_exp claim_id claim_type].
    destruct (Z.leb_spec (now_s cx1 + 3600) (now_s cx2)); [lia |].
    assert (Hlook : redis w1 !! ("reset_" +:+ token)
      = Some {| value := RText (user_id u); expires_at := now_s cx1 + 3600 |})
      by (rewrite Hredis; apply lookup_insert_eq).
    cbn. rewrite Hlook. cbn. unfold live. cbn.
    destruct (Z.ltb_spec (now_s cx2) (now_s cx1 + 3600)); [| lia].
    cbn. unfold strict_neq. rewrite Hid, String.eqb_refl, Hvalid. cbn.
    rewrite Hu'. cbn.
    destruct (isDevelopment cfg); cbn; [eexists; repeat split; reflexivity |].
    cbn in Hmail2. rewrite Hmail2. cbn. eexists; repeat split; reflexivity. }
  destruct Hrun as (w2 & Hrun & Hus & Hre).
  intros r. subst r. rewrite Hrun. unfold answer, after. cbn.
  split; [reflexivity |]. split; [exact Hus |]. rewrite Hre. split.
  - rewrite lookup_delete_ne by apply refresh_key_not_reset. apply lookup_delete_eq.
  - apply lookup_delete_eq.
Qed.

End ResetRoundTrip.

Lemma reset_request_then_confirm_witness :
  let cfg := sample_cfg false true in
  let r := resetPassword sample_libs cfg (sample_ctx 1700000100000 "u2" true)
             alice_reset_token "N3w!Passw0rd" reset_pending in
  answer r
    = Some {| status := 200;
              body := JObj [("message",
                JStr "Password reset successfully. Please login with your new password.")] |}
  /\ users (after r)
     = map (fun r => if String.eqb (user_id r) "u1"
                     then set_password (sample_ctx 1700000100000 "u2" true)
                            "salt$N3w!Passw0rd" r
                     else r) [alice]
  /\ redis (after r) !! ("reset_" +:+ alice_reset_token) = None
  /\ redis (after r) !! "refresh_u1" = None.
Proof.
  apply (reset_request_then_confirm sample_libs (sample_cfg false true)
           (sample_ctx 1700000000000 "u2" true) (sample_ctx 1700000100000 "u2" true)
           (alice_session 1700000000) "A@B.com" "N3w!Passw0rd" alice);
    reflexivity.
Defined.

(** ** From signup to login *)

Section SignupThenLogin.

Context (L : libs) (cfg : config).

Lemma find_none_existsb {A} (p : A -> bool) (l : list A) :
  List.find p l = None -> existsb p l = false.
Proof.
  induction l as [| x l IH]; [reflexivity |].
  cbn. destruct (p x); [discriminate | exact IH].
Qed.

Lemma find_app_none {A} (p : A -> bool) (l1 l2 : list A) :
  List.find p l1 = None -> List.find p (l1 ++ l2) = List.find p l2.
Proof.
  induction l1 as [| x l1 IH]; [reflexivity |].
  cbn. destruct (p x); [discriminate | exact IH].
Qed.

(** What a signup whose welcome e-mail is dispatched does. *)
Lemma signup_creates
    (cx : ctx) (w : world) (email password name phone : string)
    (roles : option (list string)) :
  validateEmail L email = true ->
  isValid (validatePassword L password) = true ->
  List.find (fun u => String.eqb (user_email u) email) (users w) = None ->
  List.find (fun u => String.eqb (user_email u) (toLowerCase email)) (users w) = None ->
  (isDevelopment cfg || sendgrid_ok cx)%bool = true ->
  let row := new_user cx email (bcrypt_hash L password 10 (salt cx)) name phone
               (default ["client"] roles) in
  option_map status (answer (signup L cfg cx email password name phone roles w)) = Some 201
  /\ users (after (signup L cfg cx email password name phone roles w)) = users w ++ [row].
Proof.
  intros Hemail Hpw Htyped Hlower Hmail row.
  unfold signup, sendWelcomeEmail, send, sgMail_send, logEmail. js_unfold.
  rewrite Hemail, Hpw. cbn. rewrite Htyped. cbn.
  assert (Hfree :
    existsb (fun u => String.eqb (user_email u) (toLowerCase email)) (users w) = false)
    by (apply find_none_existsb, Hlower).
  rewrite Hfree, andb_false_r. cbn.
  destruct (includes "client" (default ["client"] roles)); cbn;
    destruct (isDevelopment cfg); cbn; try (split; reflexivity);
    cbn in Hmail; rewrite Hmail; cbn; split; reflexivity.
Qed.

(** X20. After a signup that succeeds for an e-mail that was not
    registered in any case, a login with the same e-mail and password is
    answered 200 with the tokens of the new Principal and no second-factor
    challenge, provided [bcrypt.compare] accepts the password against the
    hash [bcrypt.hash] made of it. *)
Theorem signup_then_login
    (cx1 cx2 : ctx) (w : world) (email password name phone : string)
    (roles : option (list string)) :
  validateEmail L email = true ->
  isValid (validatePassword L password) = true ->
  List.find (fun u => String.eqb (user_email u) email) (users w) = None ->
  List.find (fun u => String.eqb (user_email u) (toLowerCase email)) (users w) = None ->
  (isDevelopment cfg || sendgrid_ok cx1)%bool = true ->
  bcrypt_compare L password (bcrypt_hash L password 10 (salt cx1)) = true ->
  let w1 := after (signup L cfg cx1 email password name phone roles w) in
  let tk := generateTokens L cfg cx2 (new_id cx1) in
  exists profile,
    answer (login L cfg cx2 email password w1)
    = Some {| status := 200;
              body := JObj [("user", profile);
                            ("accessToken", JStr (accessToken tk));
                            ("refreshToken", JStr (refreshToken tk));
                            ("message", JStr "Login successful")] |}.
Proof.
  intros Hemail Hpw Htyped Hlower Hmail Hhash w1 tk.
  destruct (signup_creates cx1 w email password name phone roles
              Hemail Hpw Htyped Hlower Hmail) as [_ Husers].
  subst w1. generalize dependent (after (signup L cfg cx1 email password name phone roles w)).
  intros w1 Husers.
  unfold login. js_unfold. rewrite Husers, (find_app_none _ _ _ Hlower).
  cbn. rewrite String.eqb_refl. cbn. rewrite Hhash. cbn.
  eexists. reflexivity.
Qed.

End SignupThenLogin.

Lemma signup_then_login_witness :
  let cfg := sample_cfg false true in
  let w1 := after (signup sample_libs cfg (sample_ctx 1700000000000 "u1" true)
                     "A@b.com" "Str0ng!Pass" "A" "555" None (world_of [])) in
  exists profile,
    answer (login sample_libs cfg (sample_ctx 1700000100000 "u9" true)
              "A@b.com" "Str0ng!Pass" w1)
    = Some {| status := 200;
              body := JObj [("user", profile);
                            ("accessToken", JStr "access|u1|-|1700000100|1700001000|s3cret");
                            ("refreshToken", JStr "refresh|u1|-|1700000100|1700604900|r3fresh");
                            ("message", JStr "Login successful")] |}.
Proof.
  apply (signup_then_login sample_libs (sample_cfg false true)
           (sample_ctx 1700000000000 "u1" true) (sample_ctx 1700000100000 "u9" true)
           (world_of []) "A@b.com" "Str0ng!Pass" "A" "555" None);
    reflexivity.
Defined.

(** ** Two-factor enrolment *)

Section Enrolment.

Context (L : libs) (K : setup_libs) (cfg : config).

Lemma setup_key_not_backup (a b : string) :
  "2fa_backup_" +:+ a <> "2fa_setup_" +:+ b.
Proof. cbn. discriminate. Qed.

Lemma find_map_preserving {A} (p : A -> bool) (g : A -> A) (l : list A) :
  (forall x, p (g x) = p x) ->
  List.find p (map g l) = option_map g (List.find p l).
Proof.
  intros Hp. induction l as [| x l IH]; [reflexivity |].
  cbn. rewrite Hp. destruct (p x); [reflexivity | exact IH].
Qed.

(** What [enableTwoFactor] stores for a user whose flag is not set,
    whether or not the QR code can be rendered. *)
Lemma enableTwoFactor_stores (cx : ctx) (d : draws) (user : user) (w : world) :
  user_two_factor_enabled user = false ->
  after (enableTwoFactor K cx d user w)
  = set_redis
      (<["2fa_setup_" +:+ user_id user :=
           {| value := RText (drawn_secret d); expires_at := now_s cx + 600 |}]> (redis w)) w.
Proof.
  intros Hflag. unfold enableTwoFactor. js_unfold. rewrite Hflag. cbn.
  destruct (qr_toDataURL K _); reflexivity.
Qed.

(** X21. A pending enrolment lapses: 600 seconds after [enableTwoFactor],
    [confirmTwoFactor] is answered 400
    [{ error: 'No pending 2FA setup found. Please start again.' }] whatever
    the code, and changes nothing. *)
Theorem enrolment_lapses
    (cx1 cx2 : ctx) (d1 d2 : draws) (user : user) (code : string) (w : world) :
  user_two_factor_enabled user = false ->
  now_s cx1 + 600 <= now_s cx2 ->
  confirmTwoFactor L K cx2 d2 user code (after (enableTwoFactor K cx1 d1 user w))
  = (Ret {| status := 400;
            body := error "No pending 2FA setup found. Please start again." |},
     after (enableTwoFactor K cx1 d1 user w)).
Proof.
  intros Hflag Hlate. rewrite (enableTwoFactor_stores cx1 d1 user w Hflag).
  unfold confirmTwoFactor. js_unfold. cbn. rewrite lookup_insert_eq. cbn.
  unfold live. cbn.
  destruct (Z.ltb_spec (now_s cx2) (now_s cx1 + 600)); [lia | reflexivity].
Qed.

(** X22. An enrolment confirmed within 600 seconds with a code that
    verifies against the secret drawn by [enableTwoFactor]: the answer is
    200 with the eight backup codes in plain text, every row of the user
    gets the flag and that secret, the pending entry is deleted, and the
    eight hashes are stored under [2fa_backup_<id>] for 31536000
    seconds. *)
Theorem enrolment_round_trip
    (cx1 cx2 : ctx) (d1 d2 : draws) (user : user) (code : string) (w : world) :
  user_two_factor_enabled user = false ->
  truthy (drawn_secret d1) = true ->
  now_s cx2 < now_s cx1 + 600 ->
  totp_verify L (drawn_secret d1) code 2 (now_s cx2) = true ->
  let r := confirmTwoFactor L K cx2 d2 user code
             (after (enableTwoFactor K cx1 d1 user w)) in
  answer r
    = Some {| status := 200;
              body := JObj
                [("message", JStr "Two-factor authentication enabled successfully");
                 ("backupCodes", JStrs (map (drawn_code d2) (seq 0 8)));
                 ("warning",
                  JStr "Save these backup codes in a secure place. Each code can only be used once.")] |}
  /\ users (after r)
     = map (fun u => if String.eqb (user_id u) (user_id user)
                     then set_two_factor cx2 true (Some (drawn_secret d1)) u
                     else u) (users w)
  /\ redis (after r) !! ("2fa_setup_" +:+ user_id user) = None
  /\ redis (after r) !! ("2fa_backup_" +:+ user_id user)
     = Some {| value :=
                 RList (map (fun i => bcrypt_hash L (drawn_code d2 i) 10 (drawn_salt d2 i))
                          (seq 0 8));
               expires_at := now_s cx2 + 31536000 |}.
Proof.
  intros Hflag Hsecret Hfresh Hcode r. subst r.
  rewrite (enableTwoFactor_stores cx1 d1 user w Hflag).
  unfold confirmTwoFactor. js_unfold. cbn. rewrite lookup_insert_eq. cbn.
  unfold live. cbn.
  destruct (Z.ltb_spec (now_s cx2) (now_s cx1 + 600)); [| lia].
  cbn. rewrite Hsecret. cbn. rewrite Hcode. cbn.
  split; [reflexivity |]. split; [reflexivity |]. split.
  - rewrite lookup_insert_ne by apply setup_key_not_backup. apply lookup_delete_eq.
  - apply lookup_insert_eq.
Qed.

(** X23. After a successful [confirmTwoFactor], a login of that user with
    the right password is answered with [requiresTwoFactor] and a
    challenge token, not with access and refresh tokens. *)
Theorem confirm_then_login_requires_second_factor
    (cx1 cx2 : ctx) (d : draws) (user u0 : user) (code secret email password : string)
    (w : world) :
  redis w !! ("2fa_setup_" +:+ user_id user) ≫= live cx1 = Some (RText secret) ->
  truthy secret = true ->
  totp_verify L secret code 2 (now_s cx1) = true ->
  List.find (fun r => String.eqb (user_email r) (toLowerCase email)) (users w) = Some u0 ->
  user_id u0 = user_id user ->
  bcrypt_compare L password (user_password u0) = true ->
  answer (login L cfg cx2 email password (after (confirmTwoFactor L K cx1 d user code w)))
  = Some {| status := 200;
            body := JObj
              [("requiresTwoFactor", JBool true);
               ("tempToken",
                JStr (jwt_sign L cx2 (user_id u0) "2fa_temp" (Some (user_email u0))
                        (JWT_SECRET cfg) 300));
               ("message", JStr "Please enter your 2FA code")] |}.
Proof.
  intros Hpending Hsecret Hcode Hfind Hid Hpw.
  assert (Husers : users (after (confirmTwoFactor L K cx1 d user code w))
    = map (fun u => if String.eqb (user_id u) (user_id user)
                    then set_two_factor cx1 true (Some secret) u else u) (users w)).
  { unfold confirmTwoFactor. js_unfold. rewrite Hpending. cbn.
    rewrite Hsecret. cbn. rewrite Hcode. reflexivity. }
  generalize dependent (after (confirmTwoFactor L K cx1 d user code w)).
  intros w1 Husers.
  unfold login. js_unfold. rewrite Husers.
  rewrite (find_map_preserving
             (fun r => String.eqb (user_email r) (toLowerCase email))
             (fun u => if String.eqb (user_id u) (user_id user)
                       then set_two_factor cx1 true (Some secret) u else u))
    by (intros x; destruct (String.eqb (user_id x) (user_id user)); reflexivity).
  assert (Hhit : String.eqb (user_id u0) (user_id user) = true)
    by (rewrite Hid; apply String.eqb_refl).
  rewrite Hfind. cbn. rewrite Hhit. cbn.
  rewrite Hpw. cbn. rewrite Hsecret. cbn. reflexivity.
Qed.

(** X24. After [disableTwoFactor] with the right password, a login of that
    user with the right password gets access and refresh tokens directly,
    and the stored backup codes are gone. *)
Theorem disable_then_login_without_challenge
    (cx1 cx2 : ctx) (user u0 : user) (password email : string) (w : world) :
  bcrypt_compare L password (user_password user) = true ->
  List.find (fun r => String.eqb (user_email r) (toLowerCase email)) (users w) = Some u0 ->
  user_id u0 = user_id user ->
  bcrypt_compare L password (user_password u0) = true ->
  let w1 := after (disableTwoFactor L cx1 user password w) in
  let tk := generateTokens L cfg cx2 (user_id u0) in
  (exists profile,
     answer (login L cfg cx2 email password w1)
     = Some {| status := 200;
               body := JObj [("user", profile);
                             ("accessToken", JStr (accessToken tk));
                             ("refreshToken", JStr (refreshToken tk));
                             ("message", JStr "Login successful")] |})
  /\ redis w1 !! ("2fa_backup_" +:+ user_id user) = None.
Proof.
  intros Hpw Hfind Hid Hpw0 w1 tk.
  assert (Hw1 : users w1
    = map (fun u => if String.eqb (user_id u) (user_id user)
                    then set_two_factor cx1 false None u else u) (users w)
    /\ redis w1 !! ("2fa_backup_" +:+ user_id user) = None).
  { subst w1. unfold disableTwoFactor. js_unfold. rewrite Hpw. cbn.
    split; [reflexivity | apply lookup_delete_eq]. }
  destruct Hw1 as [Husers Hgone]. split; [| exact Hgone].
  clear Hgone. generalize dependent w1. intros w1 Husers.
  unfold login. js_unfold. rewrite Husers.
  rewrite (find_map_preserving
             (fun r => String.eqb (user_email r) (toLowerCase email))
             (fun u => if String.eqb (user_id u) (user_id user)
                       then set_two_factor cx1 false None u else u))
    by (intros x; destruct (String.eqb (user_id x) (user_id user)); reflexivity).
  assert (Hhit : String.eqb (user_id u0) (user_id user) = true)
    by (rewrite Hid; apply String.eqb_refl).
  rewrite Hfind. cbn. rewrite Hhit. cbn.
  rewrite Hpw0. cbn. eexists. reflexivity.
Qed.

End Enrolment.

Lemma enrolment_lapses_witness :
  let w1 := after (enableTwoFactor sample_setup (sample_ctx 1700000000000 "u2" true)
                     sample_draws alice (world_of [alice])) in
  confirmTwoFactor sample_libs sample_setup (sample_ctx 1700000600000 "u2" true)
    sample_draws alice (sample_totp "JBSWY3DPEHPK3PXP" 56666686) w1
  = (Ret {| status := 400;
            body := error "No pending 2FA setup found. Please start again." |}, w1).
Proof.
  apply (enrolment_lapses sample_libs sample_setup
           (sample_ctx 1700000000000 "u2" true) (sample_ctx 1700000600000 "u2" true)
           sample_draws sample_draws alice (sample_totp "JBSWY3DPEHPK3PXP" 56666686)
           (world_of [alice]));
    reflexivity.
Defined.

Lemma enrolment_round_trip_witness :
  let cx2 := sample_ctx 1700000300000 "u2" true in
  let r := confirmTwoFactor sample_libs sample_setup cx2 sample_draws alice
             (sample_totp "JBSWY3DPEHPK3PXP" 56666676)
             (after (enableTwoFactor sample_setup (sample_ctx 1700000000000 "u2" true)
                       sample_draws alice (world_of [alice]))) in
  answer r
    = Some {| status := 200;
              body := JObj
                [("message", JStr "Two-factor authentication enabled successfully");
                 ("backupCodes", JStrs (map (drawn_code sample_draws) (seq 0 8)));
                 ("warning",
                  JStr "Save these backup codes in a secure place. Each code can only be used once.")] |}
  /\ users (after r)
     = map (fun u => if String.eqb (user_id u) "u1"
                     then set_two_factor cx2 true (Some "JBSWY3DPEHPK3PXP") u
                     else u) [alice]
  /\ redis (after r) !! "2fa_setup_u1" = None
  /\ redis (after r) !! "2fa_backup_u1"
     = Some {| value :=
                 RList (map (fun i => bcrypt_hash sample_libs (drawn_code sample_draws i) 10
                                        (drawn_salt sample_draws i)) (seq 0 8));
               expires_at := 1700000300 + 31536000 |}.
Proof.
  apply (enrolment_round_trip sample_libs sample_setup
           (sample_ctx 1700000000000 "u2" true) (sample_ctx 1700000300000 "u2" true)
           sample_draws sample_draws alice (sample_totp "JBSWY3DPEHPK3PXP" 56666676)
           (world_of [alice]));
    reflexivity.
Defined.

Lemma confirm_then_login_requires_second_factor_witness :
  let w := after (enableTwoFactor sample_setup (sample_ctx 1700000000000 "u2" true)
                    sample_draws alice (world_of [alice])) in
  answer (login sample_libs (sample_cfg false true) (sample_ctx 1700000400000 "u2" true)
            "a@b.com" "Str0ng!Pass"
            (after (confirmTwoFactor sample_libs sample_setup
                      (sample_ctx 1700000300000 "u2" true) sample_draws alice
                      (sample_totp "JBSWY3DPEHPK3PXP" 56666676) w)))
  = Some {| status := 200;
            body := JObj
              [("requiresTwoFactor", JBool true);
               ("tempToken", JStr "2fa_temp|u1|a@b.com|1700000400|1700000700|s3cret");
               ("message", JStr "Please enter your 2FA code")] |}.
Proof.
  apply (confirm_then_login_requires_second_factor sample_libs sample_setup
           (sample_cfg false true)
           (sample_ctx 1700000300000 "u2" true) (sample_ctx 1700000400000 "u2" true)
           sample_draws alice alice (sample_totp "JBSWY3DPEHPK3PXP" 56666676)
           "JBSWY3DPEHPK3PXP" "a@b.com" "Str0ng!Pass");
    reflexivity.
Defined.

Lemma disable_then_login_without_challenge_witness :
  let user := with_2fa true (Some "JBSWY3DPEHPK3PXP") alice in
  let w1 := after (disableTwoFactor sample_libs (sample_ctx 1700000000000 "u2" true)
                     user "Str0ng!Pass" (world_of [user])) in
  (exists profile,
     answer (login sample_libs (sample_cfg false true) (sample_ctx 1700000100000 "u2" true)
               "a@b.com" "Str0ng!Pass" w1)
     = Some {| status := 200;
               body := JObj [("user", profile);
                             ("accessToken", JStr "access|u1|-|1700000100|1700001000|s3cret");
                             ("refreshToken", JStr "refresh|u1|-|1700000100|1700604900|r3fresh");
                             ("message", JStr "Login successful")] |})
  /\ redis w1 !! "2fa_backup_u1" = None.
Proof.
  apply (disable_then_login_without_challenge sample_libs (sample_cfg false true)
           (sample_ctx 1700000000000 "u2" true) (sample_ctx 1700000100000 "u2" true)
           (with_2fa true (Some "JBSWY3DPEHPK3PXP") alice)
           (with_2fa true (Some "JBSWY3DPEHPK3PXP") alice)
           "Str0ng!Pass" "a@b.com" (world_of [with_2fa true (Some "JBSWY3DPEHPK3PXP") alice]));
    reflexivity.
Defined.

(** ** Invariants of the [users] table *)

Section KeepsRows.

Context (L : libs) (K : setup_libs) (cfg : config).
Context (R : user -> Prop).

(** The ways the handlers write a row. *)
Hypothesis R_touch : forall cx a b u, R u -> R (touch cx a b u).
Hypothesis R_set_password : forall cx h u, R u -> R (set_password cx h u).
Hypothesis R_new_user : forall cx e h n p r, R (new_user cx e h n p r).
Hypothesis R_disable : forall cx u, R u -> R (set_two_factor cx false None u).
Hypothesis R_enable :
  forall cx stored u,
    falsy_val stored = false ->
    R u -> R (set_two_factor cx true (Some (text_of K stored)) u).

Local Abbreviation P := (rows R).

Lemma keeps_ret {A} (a : A) : keeps P (ret a).
Proof. intros w Hw. exact Hw. Qed.

Lemma keeps_throw {A} (e : string) : keeps P (@throw A e).
Proof. intros w Hw. exact Hw. Qed.

Lemma keeps_respond {A} (st : Z) (b : json) : keeps P (@respond A st b).
Proof. intros w Hw. exact Hw. Qed.

Lemma keeps_bind {A B} (m : js A) (k : A -> js B) :
  keeps P m -> (forall a, keeps P (k a)) -> keeps P (bind m k).
Proof.
  intros Hm Hk w Hw. unfold bind. specialize (Hm w Hw).
  destruct (m w) as [[a | r | e] w']; cbn in *; [apply Hk |..]; exact Hm.
Qed.

Lemma keeps_guard {B} (c : bool) (st : Z) (b : json) (k : unit -> js B) :
  (c = false -> keeps P (k tt)) ->
  keeps P (bind (if c then respond st b else ret tt) k).
Proof.
  intros Hk w Hw. unfold bind. destruct c; cbn; [exact Hw | now apply Hk].
Qed.

Lemma keeps_try_catch {A} (m : js A) (h : string -> js A) :
  keeps P m -> (forall e, keeps P (h e)) -> keeps P (try_catch m h).
Proof.
  intros Hm Hh w Hw. unfold try_catch. specialize (Hm w Hw).
  destruct (m w) as [[a | r | e] w']; cbn in *; [exact Hm | exact Hm | apply Hh, Hm].
Qed.

Lemma keeps_snapshot {B} (k : world -> js B) :
  (forall trx, P trx -> keeps P (k trx)) -> keeps P (bind get_world k).
Proof. intros Hk w Hw. unfold bind, get_world. now apply Hk. Qed.

Lemma keeps_users_first (p : user -> bool) : keeps P (users_first p).
Proof. intros w Hw. exact Hw. Qed.

Lemma keeps_redis_get (cx : ctx) (key : string) : keeps P (redis_get cx key).
Proof. intros w Hw. exact Hw. Qed.

Lemma keeps_redis_setex (cx : ctx) (key : string) (ttl : Z) (v : rvalue) :
  keeps P (redis_setex cx key ttl v).
Proof. intros w Hw. exact Hw. Qed.

Lemma keeps_redis_del (key : string) : keeps P (redis_del key).
Proof. intros w Hw. exact Hw. Qed.

Lemma keeps_audit_insert (cx : ctx) (a b c d : string) :
  keeps P (audit_insert cx a b c d).
Proof. intros w Hw. exact Hw. Qed.

Lemma keeps_nutrition_insert (uid : string) : keeps P (nutrition_insert uid).
Proof. intros w Hw. exact Hw. Qed.

Lemma keeps_trx_commit : keeps P trx_commit.
Proof. intros w Hw. exact Hw. Qed.

Lemma keeps_trx_rollback (trx : world) : P trx -> keeps P (trx_rollback trx).
Proof. intros Htrx w _. exact Htrx. Qed.

Lemma keeps_users_update (uid : string) (f : user -> user) :
  (forall u, R u -> R (f u)) -> keeps P (users_update uid f).
Proof.
  intros Hf w Hw. unfold users_update, modify, rows. cbn.
  apply Forall_map. eapply Forall_impl; [exact Hw |].
  intros u Hu. cbn. destruct (String.eqb (user_id u) uid); auto.
Qed.

Lemma keeps_users_insert (row : user) : R row -> keeps P (users_insert cfg row).
Proof.
  intros Hrow w Hw. unfold users_insert.
  destruct (users_email_unique cfg && _)%bool; cbn; [exact Hw |].
  apply Forall_app. split; [exact Hw | now constructor].
Qed.

Lemma keeps_send (cx : ctx) (to subject : string) : keeps P (send cfg cx to subject).
Proof.
  intros w Hw. unfold send, sgMail_send, logEmail. js_unfold.
  destruct (isDevelopment cfg); [exact Hw |].
  destruct (sendgrid_ok cx); exact Hw.
Qed.

Lemma keeps_jwt_verify (cx : ctx) (token secret : string) :
  keeps P (jwt_verify L cx token secret).
Proof.
  intros w Hw. unfold jwt_verify.
  destruct (jwt_decode L token) as [d|]; [| exact Hw].
  destruct (jwt_signed_by L secret token); [| exact Hw].
  destruct (claim_exp d) as [e|]; [destruct (e <=? now_s cx) |]; exact Hw.
Qed.

Ltac keeps_step :=
  lazymatch goal with
  | |- keeps _ (bind (if _ then respond _ _ else ret tt) _) =>
      apply keeps_guard; intros ?
  | |- keeps _ (bind get_world _) => apply keeps_snapshot; intros ? ?
  | |- keeps _ (bind _ _) => apply keeps_bind; [| intros ?]
  | |- keeps _ (try_catch _ _) => apply keeps_try_catch; [| intros ?]
  | |- keeps _ (ret _) => apply keeps_ret
  | |- keeps _ (throw _) => apply keeps_throw
  | |- keeps _ (respond _ _) => apply keeps_respond
  | |- keeps _ (users_first _) => apply keeps_users_first
  | |- keeps _ (redis_get _ _) => apply keeps_redis_get
  | |- keeps _ (redis_setex _ _ _ _) => apply keeps_redis_setex
  | |- keeps _ (redis_del _) => apply keeps_redis_del
  | |- keeps _ (audit_insert _ _ _ _ _) => apply keeps_audit_insert
  | |- keeps _ (nutrition_insert _) => apply keeps_nutrition_insert
  | |- keeps _ trx_commit => apply keeps_trx_commit
  | |- keeps _ (send _ _ _ _) => apply keeps_send
  | |- keeps _ (jwt_verify _ _ _ _) => apply keeps_jwt_verify
  | |- keeps _ (trx_rollback _) => apply keeps_trx_rollback; assumption
  | |- keeps _ (users_insert _ _) => apply keeps_users_insert; apply R_new_user
  | |- keeps _ (users_update _ _) =>
      apply keeps_users_update; intros ? ?;
      first [ now apply R_touch | now apply R_set_password | now apply R_disable
            | now apply R_enable ]
  | |- keeps _ (if ?c then _ else _) => destruct c
  | |- keeps _ (match ?x with _ => _ end) => destruct x
  end.

Lemma handle_keeps_rows (cx : ctx) (d : draws) (rq : request) :
  keeps P (handle L K cfg cx d rq).
Proof.
  destruct rq; cbn [handle];
    unfold signup, login, verifyTwoFactor, logout, refreshTokens, resetPasswordRequest,
      resetPassword, enableTwoFactor, confirmTwoFactor, disableTwoFactor,
      sendWelcomeEmail, sendPasswordResetEmail, sendPasswordChangedEmail, when;
    cbv zeta; repeat keeps_step.
Qed.

End KeepsRows.

Section RowInvariants.

Context (L : libs) (K : setup_libs) (cfg : config).

Lemma text_of_truthy (stored : option rvalue) :
  (forall v, truthy (json_text K v) = true) ->
  falsy_val stored = false -> truthy (text_of K stored) = true.
Proof.
  intros Hjson. destruct stored as [[s | tok em ro | l] |]; cbn; try discriminate; auto.
  intros Hs. now apply negb_false_iff in Hs.
Qed.

(** X25. No handler breaks the rule that a row whose 2FA flag is set has a
    non-empty 2FA secret: if it holds of every row before a request, it
    holds of every row after it, whatever the request and its outcome
    ([JSON.stringify] never giving the empty string). *)
Theorem handlers_keep_two_factor_consistent
    (cx : ctx) (d : draws) (rq : request) (w : world) :
  (forall v, truthy (json_text K v) = true) ->
  rows two_factor_row w ->
  rows two_factor_row (after (handle L K cfg cx d rq w)).
Proof.
  intros Hjson Hw.
  apply (handle_keeps_rows L K cfg two_factor_row); try exact Hw.
  - intros c a b u Hu. exact Hu.
  - intros c h u Hu. exact Hu.
  - intros c e h n p r. discriminate.
  - intros c u _. discriminate.
  - intros c stored u Hstored _ _. cbn. now apply text_of_truthy.
Qed.

Lemma toLowerCase_no_capital (s : string) : no_capital (toLowerCase s) = true.
Proof.
  induction s as [| c s IH]; [reflexivity |].
  cbn [toLowerCase no_capital]. rewrite IH, andb_true_r.
  destruct c as [[] [] [] [] [] [] [] []]; reflexivity.
Qed.

(** X26. No handler stores an e-mail with one of the capital letters [A]
    to [Z]: if no row has such an e-mail before a request, no row has one
    after it, whatever the request and its outcome.  (The statement is
    about these twenty-six letters only.) *)
Theorem handlers_store_no_capital_email
    (cx : ctx) (d : draws) (rq : request) (w : world) :
  rows no_capital_row w ->
  rows no_capital_row (after (handle L K cfg cx d rq w)).
Proof.
  intros Hw.
  apply (handle_keeps_rows L K cfg no_capital_row); try exact Hw.
  - intros c a b u Hu. exact Hu.
  - intros c h u Hu. exact Hu.
  - intros c e h n p r. unfold no_capital_row. cbn. apply toLowerCase_no_capital.
  - intros c u Hu. exact Hu.
  - intros c stored u _ Hu. exact Hu.
Qed.

End RowInvariants.

Lemma handlers_keep_two_factor_consistent_witness :
  rows two_factor_row
    (after (handle sample_libs sample_setup (sample_cfg false true)
              (sample_ctx 1700000300000 "u2" true) sample_draws
              (ConfirmTwoFactor alice (sample_totp "JBSWY3DPEHPK3PXP" 56666676))
              (after (enableTwoFactor sample_setup (sample_ctx 1700000000000 "u2" true)
                        sample_draws alice (world_of [alice]))))).
Proof.
  apply (handlers_keep_two_factor_consistent sample_libs sample_setup (sample_cfg false true)).
  - intros v. reflexivity.
  - repeat constructor. discriminate.
Defined.

Lemma handlers_store_no_capital_email_witness :
  rows no_capital_row
    (after (handle sample_libs sample_setup (sample_cfg false true)
              (sample_ctx 1700000300000 "u2" true) sample_draws
              (Signup "Bob@Example.com" "Str0ng!Pass" "B" "556" None)
              (world_of [alice]))).
Proof.
  apply (handlers_store_no_capital_email sample_libs sample_setup (sample_cfg false true)).
  repeat constructor.
Defined.

(** ** The backup codes are never read *)

Section BackupCodes.

Context (L : libs) (K : setup_libs) (cfg : config).

Lemma agree_ret {A} (a : A) : agree (ret a) (ret a).
Proof. intros w1 w2 Hw. split; [reflexivity | exact Hw]. Qed.

Lemma agree_throw {A} (e : string) : agree (@throw A e) (throw e).
Proof. intros w1 w2 Hw. split; [reflexivity | exact Hw]. Qed.

Lemma agree_respond {A} (st : Z) (b : json) : agree (@respond A st b) (respond st b).
Proof. intros w1 w2 Hw. split; [reflexivity | exact Hw]. Qed.

Lemma agree_bind {A B} (m1 m2 : js A) (k1 k2 : A -> js B) :
  agree m1 m2 -> (forall a, agree (k1 a) (k2 a)) ->
  agree (bind m1 k1) (bind m2 k2).
Proof.
  intros Hm Hk w1 w2 Hw. unfold bind. destruct (Hm w1 w2 Hw) as [Hfst Hsnd].
  destruct (m1 w1) as [o1 w1'], (m2 w2) as [o2 w2']. cbn in Hfst, Hsnd. subst o2.
  destruct o1 as [a | r | e]; [apply Hk, Hsnd | |]; split; auto.
Qed.

Lemma agree_try_catch {A} (m1 m2 : js A) (h1 h2 : string -> js A) :
  agree m1 m2 -> (forall e, agree (h1 e) (h2 e)) ->
  agree (try_catch m1 h1) (try_catch m2 h2).
Proof.
  intros Hm Hh w1 w2 Hw. unfold try_catch. destruct (Hm w1 w2 Hw) as [Hfst Hsnd].
  destruct (m1 w1) as [o1 w1'], (m2 w2) as [o2 w2']. cbn in Hfst, Hsnd. subst o2.
  destruct o1 as [a | r | e]; [| | apply Hh, Hsnd]; split; auto.
Qed.

Lemma agree_snapshot {B} (k : world -> js B) :
  (forall t1 t2, same_but_backup t1 t2 -> agree (k t1) (k t2)) ->
  agree (bind get_world k) (bind get_world k).
Proof. intros Hk w1 w2 Hw. unfold bind, get_world. now apply Hk. Qed.

Lemma agree_users_first (p : user -> bool) : agree (users_first p) (users_first p).
Proof.
  intros w1 w2 Hw. unfold users_first. cbn.
  pose proof Hw as (Hu & _). rewrite Hu. split; [reflexivity | exact Hw].
Qed.

Lemma agree_redis_get (cx : ctx) (key : string) :
  ~ backup_key key -> agree (redis_get cx key) (redis_get cx key).
Proof.
  intros Hkey w1 w2 Hw. unfold redis_get. cbn.
  pose proof Hw as (_ & _ & _ & _ & Hr). rewrite (Hr key Hkey).
  split; [reflexivity | exact Hw].
Qed.

Lemma agree_redis_setex (cx : ctx) (key : string) (ttl : Z) (v : rvalue) :
  agree (redis_setex cx key ttl v) (redis_setex cx key ttl v).
Proof.
  intros w1 w2 (Hu & Hn & Ha & He & Hr). unfold redis_setex, modify. cbn.
  split; [reflexivity |]. repeat split; auto.
  intros k Hk. cbn. rewrite !lookup_insert. destruct (decide (key = k)); auto.
Qed.

Lemma agree_redis_del (key : string) : agree (redis_del key) (redis_del key).
Proof.
  intros w1 w2 (Hu & Hn & Ha & He & Hr). unfold redis_del, modify. cbn.
  split; [reflexivity |]. repeat split; auto.
  intros k Hk. cbn. rewrite !lookup_delete. destruct (decide (key = k)); auto.
Qed.

Lemma agree_users_update (uid : string) (f : user -> user) :
  agree (users_update uid f) (users_update uid f).
Proof.
  intros w1 w2 (Hu & Hn & Ha & He & Hr). unfold users_update, modify. cbn.
  split; [reflexivity |]. rewrite Hu. repeat split; auto.
Qed.

Lemma agree_users_insert (row : user) :
  agree (users_insert cfg row) (users_insert cfg row).
Proof.
  intros w1 w2 (Hu & Hn & Ha & He & Hr). unfold users_insert. rewrite Hu.
  destruct (users_email_unique cfg && _)%bool; cbn;
    (split; [reflexivity |]); repeat split; auto.
Qed.

Lemma agree_audit_insert (cx : ctx) (a b c d : string) :
  agree (audit_insert cx a b c d) (audit_insert cx a b c d).
Proof.
  intros w1 w2 (Hu & Hn & Ha & He & Hr). unfold audit_insert, modify. cbn.
  split; [reflexivity |]. rewrite Ha. repeat split; auto.
Qed.

Lemma agree_nutrition_insert (uid : string) :
  agree (nutrition_insert uid) (nutrition_insert uid).
Proof.
  intros w1 w2 (Hu & Hn & Ha & He & Hr). unfold nutrition_insert, modify. cbn.
  split; [reflexivity |]. rewrite Hn. repeat split; auto.
Qed.

Lemma agree_trx_commit : agree trx_commit trx_commit.
Proof. apply agree_ret. Qed.

Lemma agree_trx_rollback (t1 t2 : world) :
  same_but_backup t1 t2 -> agree (trx_rollback t1) (trx_rollback t2).
Proof.
  intros (Tu & Tn & Ta & _) w1 w2 (Hu & Hn & Ha & He & Hr).
  unfold trx_rollback, modify. cbn. split; [reflexivity |]. repeat split; auto.
Qed.

Lemma agree_send (cx : ctx) (to subject : string) :
  agree (send cfg cx to subject) (send cfg cx to subject).
Proof.
  intros w1 w2 (Hu & Hn & Ha & He & Hr).
  unfold send, sgMail_send, logEmail. js_unfold.
  destruct (isDevelopment cfg); [| destruct (sendgrid_ok cx)]; cbn;
    (split; [reflexivity |]); rewrite He; repeat split; auto.
Qed.

Lemma agree_jwt_verify (cx : ctx) (token secret : string) :
  agree (jwt_verify L cx token secret) (jwt_verify L cx token secret).
Proof.
  intros w1 w2 Hw. unfold jwt_verify.
  destruct (jwt_decode L token) as [d|]; [| now apply agree_throw].
  destruct (jwt_signed_by L secret token); [| now apply agree_throw].
  destruct (claim_exp d) as [e|]; [destruct (e <=? now_s cx) |];
    first [now apply agree_throw | now apply agree_ret].
Qed.

(** The keys the handlers read are not keys of backup codes. *)
Lemma refresh_not_backup (x : string) : ~ backup_key ("refresh_" +:+ x).
Proof. intros [y Hy]. cbn in Hy. discriminate. Qed.

Lemma challenge_not_backup (x : string) : ~ backup_key ("2fa_temp_" +:+ x).
Proof. intros [y Hy]. cbn in Hy. discriminate. Qed.

Lemma reset_not_backup (x : string) : ~ backup_key ("reset_" +:+ x).
Proof. intros [y Hy]. cbn in Hy. discriminate. Qed.

Lemma setup_not_backup (x : string) : ~ backup_key ("2fa_setup_" +:+ x).
Proof. intros [y Hy]. cbn in Hy. discriminate. Qed.

Ltac agree_step :=
  lazymatch goal with
  | |- agree (bind get_world _) _ => apply agree_snapshot; intros ? ? ?
  | |- agree (bind _ _) _ => apply agree_bind; [| intros ?]
  | |- agree (try_catch _ _) _ => apply agree_try_catch; [| intros ?]
  | |- agree (ret _) _ => apply agree_ret
  | |- agree (throw _) _ => apply agree_throw
  | |- agree (respond _ _) _ => apply agree_respond
  | |- agree (users_first _) _ => apply agree_users_first
  | |- agree (redis_get _ _) _ =>
      apply agree_redis_get;
      first [ apply refresh_not_backup | apply challenge_not_backup
            | apply reset_not_backup | apply setup_not_backup ]
  | |- agree (redis_setex _ _ _ _) _ => apply agree_redis_setex
  | |- agree (redis_del _) _ => apply agree_redis_del
  | |- agree (audit_insert _ _ _ _ _) _ => apply agree_audit_insert
  | |- agree (nutrition_insert _) _ => apply agree_nutrition_insert
  | |- agree trx_commit _ => apply agree_trx_commit
  | |- agree (send _ _ _ _) _ => apply agree_send
  | |- agree (jwt_verify _ _ _ _) _ => apply agree_jwt_verify
  | |- agree (trx_rollback _) _ => apply agree_trx_rollback; assumption
  | |- agree (users_insert _ _) _ => apply agree_users_insert
  | |- agree (users_update _ _) _ => apply agree_users_update
  | |- agree (if ?c then _ else _) _ => destruct c
  | |- agree (match ?x with _ => _ end) _ => destruct x
  end.

Lemma handle_agrees (cx : ctx) (d : draws) (rq : request) :
  agree (handle L K cfg cx d rq) (handle L K cfg cx d rq).
Proof.
  destruct rq; cbn [handle];
    unfold signup, login, verifyTwoFactor, logout, refreshTokens, resetPasswordRequest,
      resetPassword, enableTwoFactor, confirmTwoFactor, disableTwoFactor,
      sendWelcomeEmail, sendPasswordResetEmail, sendPasswordChangedEmail, when;
    cbv zeta; repeat agree_step.
Qed.

(** X27. The backup codes stored at enrolment are never read: whatever is
    stored under a key [2fa_backup_<x>], every handler gives the same
    answer as without it.  In particular no request accepts a backup code
    in place of a TOTP code. *)
Theorem backup_codes_never_read
    (cx : ctx) (d : draws) (rq : request) (w : world) (x : string) (e : entry) :
  answer (handle L K cfg cx d rq (set_redis (<["2fa_backup_" +:+ x := e]> (redis w)) w))
  = answer (handle L K cfg cx d rq w).
Proof.
  destruct (handle_agrees cx d rq
              (set_redis (<["2fa_backup_" +:+ x := e]> (redis w)) w) w) as [Hfst _].
  { repeat split; try reflexivity.
    intros k Hk. cbn. apply lookup_insert_ne. intros <-. apply Hk. now exists x. }
  unfold answer. rewrite Hfst. reflexivity.
Qed.

End BackupCodes.

(** ** The login challenge from login to verification *)

Section ChallengeRoundTrip.

Context (L : libs) (cfg : config).

(** What a login that asks for the second factor leaves in the stores. *)
Lemma login_challenge_stores
    (cx : ctx) (w : world) (email password : string) (u : user) :
  List.find (fun r => String.eqb (user_email r) (toLowerCase email)) (users w) = Some u ->
  bcrypt_compare L password (user_password u) = true ->
  (user_two_factor_enabled u && truthy_opt (user_two_factor_secret u))%bool = true ->
  after (login L cfg cx email password w)
  = set_redis
      (<["2fa_temp_" +:+ user_id u :=
           {| value := RText (jwt_sign L cx (user_id u) "2fa_temp" (Some (user_email u))
                               (JWT_SECRET cfg) 300);
              expires_at := now_s cx + 300 |}]> (redis w)) w.
Proof.
  intros Hfind Hpw H2fa. unfold login. js_unfold. rewrite Hfind. cbn.
  rewrite Hpw, H2fa. reflexivity.
Qed.

(** X28. The challenge token a login returns is accepted by
    [verifyTwoFactor] within 300 seconds with a code that verifies against
    the secret of the user, provided the codec reads back the claims it
    signed: the answer is 200 with the tokens [generateTokens] mints, the
    challenge entry is deleted and the session record is stored. *)
Theorem challenge_round_trip
    (cx1 cx2 : ctx) (w : world) (email password code secret : string) (u : user) :
  List.find (fun r => String.eqb (user_email r) (toLowerCase email)) (users w) = Some u ->
  List.find (fun r => String.eqb (user_id r) (user_id u)) (users w) = Some u ->
  bcrypt_compare L password (user_password u) = true ->
  user_two_factor_enabled u = true ->
  user_two_factor_secret u = Some secret ->
  truthy secret = true ->
  let tempToken :=
    jwt_sign L cx1 (user_id u) "2fa_temp" (Some (user_email u)) (JWT_SECRET cfg) 300 in
  truthy tempToken = true ->
  jwt_decode L tempToken
    = Some {| claim_id := user_id u; claim_type := "2fa_temp";
              claim_email := Some (user_email u); claim_iat := now_s cx1;
              claim_exp := Some (now_s cx1 + 300) |} ->
  jwt_signed_by L (JWT_SECRET cfg) tempToken = true ->
  now_s cx2 < now_s cx1 + 300 ->
  totp_verify L secret code 2 (now_s cx2) = true ->
  let r := verifyTwoFactor L cfg cx2 tempToken code (after (login L cfg cx1 email password w)) in
  let tk := generateTokens L cfg cx2 (user_id u) in
  (exists profile,
     answer r
     = Some {| status := 200;
               body := JObj [("user", profile);
                             ("accessToken", JStr (accessToken tk));
                             ("refreshToken", JStr (refreshToken tk));
                             ("message", JStr "2FA verification successful")] |})
  /\ redis (after r) !! ("2fa_temp_" +:+ user_id u) = None
  /\ redis (after r) !! ("refresh_" +:+ user_id u)
     = Some {| value := session_of tk u; expires_at := now_s cx2 + 7 * 24 * 60 * 60 |}.
Proof.
  intros Hfind Hbyid Hpw Hflag Hsec Htruthy tempToken Htok Hdec Hsig Hfresh Hcode r tk.
  subst r.
  rewrite (login_challenge_stores cx1 w email password u Hfind Hpw)
    by (rewrite Hflag, Hsec; exact Htruthy).
  fold tempToken.
  unfold verifyTwoFactor, jwt_verify. js_unfold.
  rewrite Hdec, Hsig. cbv beta iota. cbn [claim_exp claim_id claim_type].
  destruct (Z.leb_spec (now_s cx1 + 300) (now_s cx2)); [lia |].
  cbn. rewrite lookup_insert_eq. cbn. unfold live. cbn.
  destruct (Z.ltb_spec (now_s cx2) (now_s cx1 + 300)); [| lia].
  cbn. unfold strict_neq. rewrite Htok, String.eqb_refl. cbn.
  rewrite Hbyid. cbn. rewrite Hsec. cbn. rewrite Htruthy. cbn. rewrite Hcode. cbn.
  split; [eexists; reflexivity |]. split.
  - rewrite lookup_insert_ne by apply refresh_key_not_challenge. apply lookup_delete_eq.
  - apply lookup_insert_eq.
Qed.

(** X29. A login challenge lapses: 300 seconds after the login, any token
    whose subject is that user is refused by [verifyTwoFactor] with status
    401 whatever the code, and nothing is written. *)
Theorem challenge_lapses
    (cx1 cx2 : ctx) (w : world) (email password token code : string) (u : user)
    (d : claims) :
  List.find (fun r => String.eqb (user_email r) (toLowerCase email)) (users w) = Some u ->
  bcrypt_compare L password (user_password u) = true ->
  (user_two_factor_enabled u && truthy_opt (user_two_factor_secret u))%bool = true ->
  now_s cx1 + 300 <= now_s cx2 ->
  jwt_decode L token = Some d ->
  claim_id d = user_id u ->
  exists msg,
    verifyTwoFactor L cfg cx2 token code (after (login L cfg cx1 email password w))
    = (Ret {| status := 401; body := error msg |},
       after (login L cfg cx1 email password w)).
Proof.
  intros Hfind Hpw H2fa Hlate Hdec Hsame.
  rewrite (login_challenge_stores cx1 w email password u Hfind Hpw H2fa).
  unfold verifyTwoFactor, jwt_verify. js_unfold. rewrite Hdec.
  destruct (jwt_signed_by L (JWT_SECRET cfg) token); [| eexists; reflexivity].
  assert (Hgone :
    redis (set_redis
             (<["2fa_temp_" +:+ user_id u :=
                  {| value := RText (jwt_sign L cx1 (user_id u) "2fa_temp"
                                       (Some (user_email u)) (JWT_SECRET cfg) 300);
                     expires_at := now_s cx1 + 300 |}]> (redis w)) w)
      !! ("2fa_temp_" +:+ user_id u) ≫= live cx2 = None).
  { cbn. rewrite lookup_insert_eq. cbn. unfold live. cbn.
    destruct (Z.ltb_spec (now_s cx2) (now_s cx1 + 300)); [lia | reflexivity]. }
  destruct (claim_exp d) as [e|]; cbv beta iota.
  - destruct (e <=? now_s cx2); [eexists; reflexivity |].
    destruct (strict_neq (claim_type d) "2fa_temp") eqn:Htype; cbn; rewrite ?Htype; cbn;
      [eexists; reflexivity |].
    rewrite Hsame. cbn in Hgone. rewrite Hgone. cbn. eexists; reflexivity.
  - destruct (strict_neq (claim_type d) "2fa_temp") eqn:Htype; cbn; rewrite ?Htype; cbn;
      [eexists; reflexivity |].
    rewrite Hsame. cbn in Hgone. rewrite Hgone. cbn. eexists; reflexivity.
Qed.

End ChallengeRoundTrip.

Lemma challenge_round_trip_witness :
  let cfg := sample_cfg false true in
  let u := with_2fa true (Some "JBSWY3DPEHPK3PXP") alice in
  let r := verifyTwoFactor sample_libs cfg (sample_ctx 1700000060000 "u2" true)
             challenge_token (sample_totp "JBSWY3DPEHPK3PXP" 56666668)
             (after (login sample_libs cfg (sample_ctx 1700000000000 "u2" true)
                       "a@b.com" "Str0ng!Pass" (world_of [u]))) in
  let tk := generateTokens sample_libs cfg (sample_ctx 1700000060000 "u2" true) "u1" in
  (exists profile,
     answer r
     = Some {| status := 200;
               body := JObj [("user", profile);
                             ("accessToken", JStr (accessToken tk));
                             ("refreshToken", JStr (refreshToken tk));
                             ("message", JStr "2FA verification successful")] |})
  /\ redis (after r) !! "2fa_temp_u1" = None
  /\ redis (after r) !! "refresh_u1"
     = Some {| value := session_of tk u; expires_at := 1700000060 + 7 * 24 * 60 * 60 |}.
Proof.
  apply (challenge_round_trip sample_libs (sample_cfg false true)
           (sample_ctx 1700000000000 "u2" true) (sample_ctx 1700000060000 "u2" true)
           (world_of [with_2fa true (Some "JBSWY3DPEHPK3PXP") alice])
           "a@b.com" "Str0ng!Pass" (sample_totp "JBSWY3DPEHPK3PXP" 56666668)
           "JBSWY3DPEHPK3PXP" (with_2fa true (Some "JBSWY3DPEHPK3PXP") alice));
    reflexivity.
Defined.

Lemma challenge_lapses_witness :
  let cfg := sample_cfg false true in
  let w1 := after (login sample_libs cfg (sample_ctx 1700000000000 "u2" true)
                     "a@b.com" "Str0ng!Pass"
                     (world_of [with_2fa true (Some "JBSWY3DPEHPK3PXP") alice])) in
  exists msg,
    verifyTwoFactor sample_libs cfg (sample_ctx 1700000300000 "u2" true)
      challenge_token (sample_totp "JBSWY3DPEHPK3PXP" 56666676) w1
    = (Ret {| status := 401; body := error msg |}, w1).
Proof.
  apply (challenge_lapses sample_libs (sample_cfg false true)
           (sample_ctx 1700000000000 "u2" true) (sample_ctx 1700000300000 "u2" true)
           (world_of [with_2fa true (Some "JBSWY3DPEHPK3PXP") alice])
           "a@b.com" "Str0ng!Pass" challenge_token
           (sample_totp "JBSWY3DPEHPK3PXP" 56666676)
           (with_2fa true (Some "JBSWY3DPEHPK3PXP") alice)
           {| claim_id := "u1"; claim_type := "2fa_temp";
              claim_email := Some "a@b.com"; claim_iat := 1700000000;
              claim_exp := Some 1700000300 |});
    reflexivity.
Defined.
